(** * segment_history.py: a shallow embedding and its verified properties

    The development follows the layout of the script: the Python string
    methods the script relies on, the [shlex] tokenizer, the header
    extractor and header assembly, the numeric helpers ([float], [round],
    [Decimal]), the effort reducer with its row formatter, and the sheet
    metadata mapper.  Definitions come first, theorems afterwards.

    Python is modelled with unbounded integers and texts of Latin-1 code
    points; a call returns a [result], [Raise] carrying the exception.  What
    the script reads from outside (environment variables, the cURL snippet
    file, the module constant [SEGMENT_ID]) is passed as an argument.  Limits
    of the interpreter on resources (memory, the number of digits [str]
    accepts for an [int]) are not modelled. *)

From Stdlib Require Import ZArith Ascii String List Bool Lia.
From Stdlib Require Import Floats.SpecFloat.
From stdpp Require Import base option list gmap strings.

Local Open Scope Z_scope.
Set Warnings "-register-all".

(** ** Python [str] methods

    A Python [str] is modelled as a Rocq [string] whose characters are read as
    the code points 0..255 (Latin-1); the predicates below are Python's
    Unicode predicates restricted to that range. *)
Module PyStr.

Definition code (c : ascii) : N := N_of_ascii c.

(** [str.isspace] on one character. *)
Definition is_space (c : ascii) : bool :=
  let n := code c in
  ((9 <=? n) && (n <=? 13) || (28 <=? n) && (n <=? 32)
   || (n =? 133) || (n =? 160))%N.

(** [str.isdigit] on one character: the ASCII digits and the superscripts
    one, two and three. *)
Definition is_digit_char (c : ascii) : bool :=
  let n := code c in
  ((48 <=? n) && (n <=? 57) || (n =? 178) || (n =? 179) || (n =? 185))%N.

Definition lower_char (c : ascii) : ascii :=
  let n := code c in
  if ((65 <=? n) && (n <=? 90)
      || (192 <=? n) && (n <=? 222) && negb (n =? 215))%N
  then ascii_of_N (n + 32) else c.

Fixpoint lower (s : string) : string :=
  match s with
  | EmptyString => EmptyString
  | String c s' => String (lower_char c) (lower s')
  end.

Definition len (s : string) : Z := Z.of_nat (String.length s).

Definition nonempty (s : string) : bool :=
  match s with EmptyString => false | _ => true end.

(** Removal of the leading, respectively trailing, characters that
    satisfy [p]. *)
Fixpoint lstrip_by (p : ascii -> bool) (s : string) : string :=
  match s with
  | String c s' => if p c then lstrip_by p s' else s
  | EmptyString => EmptyString
  end.

Fixpoint rstrip_by (p : ascii -> bool) (s : string) : string :=
  match s with
  | EmptyString => EmptyString
  | String c s' =>
      match rstrip_by p s' with
      | EmptyString => if p c then EmptyString else String c EmptyString
      | r => String c r
      end
  end.

Definition lstrip (s : string) : string := lstrip_by is_space s.
Definition rstrip (s : string) : string := rstrip_by is_space s.
Definition strip (s : string) : string := rstrip (lstrip s).

(** [s.rstrip(ch)] for a one-character argument. *)
Definition rstrip_char (ch : ascii) (s : string) : string :=
  rstrip_by (fun c => Ascii.eqb c ch) s.

Fixpoint startswith (p s : string) : bool :=
  match p, s with
  | EmptyString, _ => true
  | String a p', String b s' => Ascii.eqb a b && startswith p' s'
  | String _ _, EmptyString => false
  end.

(** [ch in s] for a one-character [ch]. *)
Fixpoint contains (ch : ascii) (s : string) : bool :=
  match s with
  | EmptyString => false
  | String c s' => Ascii.eqb c ch || contains ch s'
  end.

(** [s.split(ch, 1)]: the text before the first [ch], and the text after it
    when there is one. *)
Fixpoint split1 (ch : ascii) (s : string) : string * option string :=
  match s with
  | EmptyString => (EmptyString, None)
  | String c s' =>
      if Ascii.eqb c ch then (EmptyString, Some s')
      else let '(a, b) := split1 ch s' in (String c a, b)
  end.

(** [s.split(ch)[-1]]: the text after the last [ch]. *)
Fixpoint last_part (ch : ascii) (s : string) : string :=
  match s with
  | EmptyString => EmptyString
  | String c s' =>
      if contains ch s' then last_part ch s'
      else if Ascii.eqb c ch then s' else s
  end.

(** [s[n:]] *)
Fixpoint drop (n : nat) (s : string) : string :=
  match n, s with
  | O, _ => s
  | S n', String _ s' => drop n' s'
  | S _, EmptyString => EmptyString
  end.

(** [s[:n]] *)
Fixpoint take (n : nat) (s : string) : string :=
  match n, s with
  | S n', String c s' => String c (take n' s')
  | _, _ => EmptyString
  end.

(** [str.isdigit]: false on the empty string. *)
Fixpoint all_digits (s : string) : bool :=
  match s with
  | EmptyString => true
  | String c s' => is_digit_char c && all_digits s'
  end.

Definition isdigit (s : string) : bool := nonempty s && all_digits s.

(** [s.replace(old, new)] for a non-empty [old]: occurrences are replaced
    left to right without overlap.  [skip] counts the characters of a
    match that are still to be passed over. *)
Fixpoint replace_go (old new : string) (skip : nat) (s : string) : string :=
  match s with
  | EmptyString => EmptyString
  | String c s' =>
      match skip with
      | S k => replace_go old new k s'
      | O =>
          if startswith old s
          then String.append new (replace_go old new (String.length old - 1) s')
          else String c (replace_go old new O s')
      end
  end.

Definition replace (old new s : string) : string := replace_go old new O s.

(** [sep.join(parts)] *)
Fixpoint join (sep : string) (parts : list string) : string :=
  match parts with
  | [] => EmptyString
  | [p] => p
  | p :: rest => String.append p (String.append sep (join sep rest))
  end.

End PyStr.

(** ** [shlex.split(s, posix=True)]

    The tokenizer of the standard library in POSIX mode with
    [whitespace_split] on and no comment characters, as [shlex.split] sets it
    up.  The states are those of [shlex.read_token]. *)
Module Shlex.

Inductive state :=
| InSpace                 (* state ' ' *)
| InWord                  (* state 'a' *)
| InQuote (q : ascii)     (* state is the opening quote *)
| InEscape (back : state) (* state is the escape character; [back] is escapedstate *).

Definition is_whitespace (c : ascii) : bool :=
  Ascii.eqb c " " || Ascii.eqb c "009" || Ascii.eqb c "013" || Ascii.eqb c "010".
Definition is_quote (c : ascii) : bool := Ascii.eqb c "'" || Ascii.eqb c "034".
Definition is_escape (c : ascii) : bool := Ascii.eqb c "092".
Definition is_escapedquote (c : ascii) : bool := Ascii.eqb c "034".

Definition snoc (tok : string) (c : ascii) : string :=
  String.append tok (String c EmptyString).

(** One pass over the characters.  [tok] is [self.token], [quoted] the flag
    of the current [read_token] call, [acc] the tokens produced so far.
    [None] stands for the [ValueError] of an unclosed quotation or a
    trailing escape. *)
Fixpoint lex (s : string) (st : state) (tok : string) (quoted : bool)
    (acc : list string) : option (list string) :=
  match s with
  | EmptyString =>
      match st with
      | InSpace => Some acc
      | InWord =>
          if PyStr.nonempty tok || quoted then Some (acc ++ [tok]) else Some acc
      | InQuote _ => None
      | InEscape _ => None
      end
  | String c rest =>
      match st with
      | InSpace =>
          if is_whitespace c then
            if PyStr.nonempty tok || quoted
            then lex rest InSpace EmptyString false (acc ++ [tok])
            else lex rest InSpace tok quoted acc
          else if is_escape c then lex rest (InEscape InWord) tok quoted acc
          else if is_quote c then lex rest (InQuote c) tok quoted acc
          else lex rest InWord (String c EmptyString) quoted acc
      | InWord =>
          if is_whitespace c then
            if PyStr.nonempty tok || quoted
            then lex rest InSpace EmptyString false (acc ++ [tok])
            else lex rest InSpace tok quoted acc
          else if is_quote c then lex rest (InQuote c) tok quoted acc
          else if is_escape c then lex rest (InEscape InWord) tok quoted acc
          else lex rest InWord (snoc tok c) quoted acc
      | InQuote q =>
          if Ascii.eqb c q then lex rest InWord tok true acc
          else if is_escape c && is_escapedquote q
          then lex rest (InEscape (InQuote q)) tok true acc
          else lex rest (InQuote q) (snoc tok c) true acc
      | InEscape back =>
          let tok1 :=
            match back with
            | InQuote q =>
                if negb (is_escape c) && negb (Ascii.eqb c q)
                then snoc tok "092" else tok
            | _ => tok
            end in
          lex rest back (snoc tok1 c) quoted acc
      end
  end.

Definition split (s : string) : option (list string) :=
  lex s InSpace EmptyString false [].

End Shlex.

(** ** Header extractor: [parse_curl_headers] *)

(** Length of the leading whitespace of [s] up to its last newline, [found]
    when there is no newline in it. *)
Fixpoint ws_newline_len (s : string) (pos : nat) (found : option nat) : option nat :=
  match s with
  | String c s' =>
      if PyStr.is_space c
      then ws_newline_len s' (S pos)
             (if Ascii.eqb c "010" then Some (S pos) else found)
      else found
  | EmptyString => found
  end.

(** The substitution of the regular expression [(?:\^|`)\s*\n] by one space:
    a caret or a backtick followed by a run of whitespace that contains a
    newline is replaced, up to the last newline of the run.  [skip] counts the
    characters of a match that are still to be passed over. *)
Fixpoint sub_continuations_go (skip : nat) (s : string) : string :=
  match s with
  | EmptyString => EmptyString
  | String c s' =>
      match skip with
      | S k => sub_continuations_go k s'
      | O =>
          if Ascii.eqb c "^" || Ascii.eqb c "`" then
            match ws_newline_len s' O None with
            | Some n => String " " (sub_continuations_go n s')
            | None => String c (sub_continuations_go O s')
            end
          else String c (sub_continuations_go O s')
      end
  end.

Definition sub_continuations (s : string) : string := sub_continuations_go O s.

Definition CR : string := String "013" EmptyString.
Definition LF : string := String "010" EmptyString.
Definition BACKSLASH : string := String "092" EmptyString.

Definition normalize (curl_command : string) : string :=
  let s1 := PyStr.replace (BACKSLASH +:+ CR +:+ LF) " " curl_command in
  let s2 := PyStr.replace (BACKSLASH +:+ LF) " " s1 in
  let s3 := PyStr.replace (CR +:+ LF) LF s2 in
  sub_continuations s3.

(** The nested function [_store]: it acts on the [headers] dictionary of the
    enclosing call, passed and returned here. *)
Definition _store (headers : gmap string string) (raw_value : string)
    : gmap string string :=
  if negb (PyStr.nonempty raw_value) || negb (PyStr.contains ":" raw_value)
  then headers
  else
    let '(name, value) := PyStr.split1 ":" raw_value in
    let header_name := PyStr.lower (PyStr.strip name) in
    if negb (PyStr.nonempty header_name) then headers
    else <[header_name := PyStr.strip (default EmptyString value)]> headers.

(** What the [if]/[elif] chain of the scanning loop finds in one token. *)
Inductive flag :=
| HeaderNext            (* -H, --header: the value is the next token *)
| HeaderHere (v : string) (* --header=V, -HV *)
| CookieNext            (* -b, --cookie *)
| CookieHere (v : string) (* --cookie=V, -bV *)
| NoFlag.

Definition after_equals (token : string) : string :=
  default EmptyString (snd (PyStr.split1 "=" token)).

Definition classify (token : string) : flag :=
  let lowered := PyStr.lower token in
  if String.eqb token "-H" then HeaderNext
  else if String.eqb lowered "--header" then HeaderNext
  else if PyStr.startswith "--header=" lowered then HeaderHere (after_equals token)
  else if PyStr.startswith "-H" token && (2 <? PyStr.len token)
  then HeaderHere (PyStr.drop 2 token)
  else if String.eqb token "-b" then CookieNext
  else if String.eqb lowered "--cookie" then CookieNext
  else if PyStr.startswith "--cookie=" lowered then CookieHere (after_equals token)
  else if PyStr.startswith "-b" token && (2 <? PyStr.len token)
  then CookieHere (PyStr.drop 2 token)
  else NoFlag.

(** The two trailing [if] statements of the loop body. *)
Definition apply_header (headers : gmap string string) (header_value : string)
    : gmap string string :=
  if PyStr.nonempty header_value
  then _store headers (PyStr.strip header_value) else headers.

Definition apply_cookie (headers : gmap string string) (cookie_value : string)
    : gmap string string :=
  if PyStr.nonempty cookie_value then
    let cookie_text := PyStr.strip cookie_value in
    if PyStr.nonempty cookie_text && negb (PyStr.startswith "@" cookie_text)
    then <["cookie" := cookie_text]> headers else headers
  else headers.

(** The [while idx < len(tokens)] loop, on the tokens from [idx] on. *)
Fixpoint scan (headers : gmap string string) (tokens : list string)
    : gmap string string :=
  match tokens with
  | [] => headers
  | token :: rest =>
      match classify token with
      | HeaderNext =>
          match rest with
          | v :: rest' => scan (apply_header headers v) rest'
          | [] => headers
          end
      | HeaderHere v => scan (apply_header headers v) rest
      | CookieNext =>
          match rest with
          | v :: rest' => scan (apply_cookie headers v) rest'
          | [] => headers
          end
      | CookieHere v => scan (apply_cookie headers v) rest
      | NoFlag => scan headers rest
      end
  end.

Definition parse_curl_headers (curl_command : string) : gmap string string :=
  if negb (PyStr.nonempty curl_command) then ∅
  else
    match Shlex.split (normalize curl_command) with
    | None => ∅
    | Some tokens => scan ∅ tokens
    end.

(** ** Exceptions

    A call either returns a value or raises; the exception classes are the
    ones the script can meet. *)
Inductive exn :=
| TypeError
| ValueError (msg : string)
| OverflowError
| AttributeError
| KeyError.

Inductive result (A : Type) :=
| Ok (a : A)
| Raise (e : exn).
Arguments Ok {A} a.
Arguments Raise {A} e.

#[global] Instance result_ret : MRet result := fun A a => Ok a.

#[global] Instance result_bind : MBind result := fun A B k r =>
  match r with
  | Ok a => k a
  | Raise e => Raise e
  end.

Definition is_ok {A : Type} (r : result A) : bool :=
  match r with Ok _ => true | Raise _ => false end.

(** ** Decimal literals

    The numeric syntax shared by [float(str)] and [Decimal(str)]:
    digits with an optional fraction and an optional exponent. *)
Module Lit.

Definition digit_val (c : ascii) : option Z :=
  let n := N_of_ascii c in
  if ((48 <=? n) && (n <=? 57))%N then Some (Z.of_N n - 48) else None.

(** Reads a run of ASCII digits: its value continued from [acc], the number
    of digits read added to [cnt], and the rest of the text. *)
Fixpoint digits (s : string) (acc cnt : Z) : Z * Z * string :=
  match s with
  | String c s' =>
      match digit_val c with
      | Some d => digits s' (10 * acc + d) (cnt + 1)
      | None => (acc, cnt, s)
      end
  | EmptyString => (acc, cnt, s)
  end.

Definition sign (s : string) : bool * string :=
  match s with
  | String "-" s' => (true, s')
  | String "+" s' => (false, s')
  | _ => (false, s)
  end.

(** The exponent part, which must end the text. *)
Definition exponent (s : string) : option Z :=
  match s with
  | EmptyString => Some 0
  | String c s' =>
      if Ascii.eqb c "e" || Ascii.eqb c "E" then
        let '(neg, s1) := sign s' in
        let '(v, n, rest) := digits s1 0 0 in
        if (0 <? n) && negb (PyStr.nonempty rest)
        then Some (if neg then - v else v) else None
      else None
  end.

(** An unsigned literal: coefficient and power of ten. *)
Definition unsigned (s : string) : option (Z * Z) :=
  let '(ip, ni, s1) := digits s 0 0 in
  let '(c, nf, s2) :=
    match s1 with
    | String "." s1' => digits s1' ip 0
    | _ => (ip, 0, s1)
    end in
  if (0 <? ni + nf) then
    match exponent s2 with
    | Some e => Some (c, e - nf)
    | None => None
    end
  else None.

(** Number of decimal digits of a positive integer, 0 for 0. *)
Fixpoint ndigits_go (fuel : nat) (x : Z) : Z :=
  match fuel with
  | O => 0
  | S f => if x <=? 0 then 0 else 1 + ndigits_go f (x / 10)
  end.

Definition ndigits (x : Z) : Z := ndigits_go (S (Z.to_nat (Z.log2 x))) x.

Definition digit_char (d : Z) : ascii := ascii_of_N (Z.to_N (48 + d)).

Fixpoint digits_of_go (fuel : nat) (x : Z) (acc : string) : string :=
  match fuel with
  | O => acc
  | S f =>
      if x <=? 0 then acc
      else digits_of_go f (x / 10) (String (digit_char (x mod 10)) acc)
  end.

(** [str(n)] for an [int]. *)
Definition str_of_Z (z : Z) : string :=
  match z with
  | Z0 => "0"
  | Zpos _ => digits_of_go (S (Z.to_nat (Z.log2 z))) z EmptyString
  | Zneg _ =>
      String "-" (digits_of_go (S (Z.to_nat (Z.log2 (- z)))) (- z) EmptyString)
  end.

End Lit.

(** ** Python [float]: IEEE 754 binary64

    A float is a [spec_float] of the standard library, with 53 bits of
    precision; conversions round to nearest, ties to even. *)
Module PyFloat.

Definition prec : Z := 53.
Definition emax : Z := 1024.

Definition inf : spec_float := S754_infinity false.

(** [float(n)] for an [int]: an infinite result stands for the
    [OverflowError] the conversion raises. *)
Definition of_Z (z : Z) : spec_float := binary_normalize prec emax z 0 false.

(** The float nearest to [c * 10^e], for [0 <= c]. *)
Definition of_decimal (neg : bool) (c e : Z) : spec_float :=
  if c <=? 0 then S754_zero neg
  else if 0 <=? e
  then binary_normalize prec emax (if neg then - (c * 10 ^ e) else c * 10 ^ e) 0 neg
  else
    let '(q, e', l) := SFdiv_core_binary prec emax c 0 (10 ^ (- e)) 0 in
    binary_round_aux prec emax neg q e' l.

(** Whitespace that [float(str)] strips. *)
Definition is_float_space (c : ascii) : bool :=
  let n := N_of_ascii c in
  ((9 <=? n) && (n <=? 13) || (n =? 32) || (n =? 133) || (n =? 160))%N.

Definition is_ascii_digit (c : ascii) : bool :=
  match Lit.digit_val c with Some _ => true | None => false end.

(** Underscores are accepted, and dropped, only between two digits. *)
Fixpoint drop_underscores (prev : ascii) (s : string) : option string :=
  match s with
  | EmptyString => if Ascii.eqb prev "_" then None else Some EmptyString
  | String c s' =>
      if Ascii.eqb c "_" then
        if is_ascii_digit prev then drop_underscores c s' else None
      else if Ascii.eqb prev "_" && negb (is_ascii_digit c) then None
      else
        match drop_underscores c s' with
        | Some r => Some (String c r)
        | None => None
        end
  end.

(** [float(s)] for a [str]; [None] is the [ValueError]. *)
Definition parse (s : string) : option spec_float :=
  let s1 := PyStr.rstrip_by is_float_space (PyStr.lstrip_by is_float_space s) in
  match drop_underscores "000" s1 with
  | None => None
  | Some s2 =>
      let '(neg, body) := Lit.sign s2 in
      let low := PyStr.lower body in
      if String.eqb low "inf" || String.eqb low "infinity"
      then Some (S754_infinity neg)
      else if String.eqb low "nan" then Some S754_nan
      else
        match Lit.unsigned body with
        | Some (c, e) => Some (of_decimal neg c e)
        | None => None
        end
  end.

(** [round(x)] for a float, without [ndigits]: the nearest integer, ties to
    the even one. *)
Definition round_half_even (x : spec_float) : result Z :=
  match x with
  | S754_nan => Raise (ValueError "cannot convert float NaN to integer")
  | S754_infinity _ => Raise OverflowError
  | S754_zero _ => Ok 0
  | S754_finite s m e =>
      let n :=
        if 0 <=? e then Zpos m * 2 ^ e
        else
          let d := 2 ^ (- e) in
          let q := Zpos m / d in
          let r := Zpos m mod d in
          match 2 * r ?= d with
          | Lt => q
          | Gt => q + 1
          | Eq => if Z.even q then q else q + 1
          end in
      Ok (if s then - n else n)
  end.

Definition ltb (x y : spec_float) : bool := SFltb x y.

Definition is_zero (x : spec_float) : bool :=
  match x with S754_zero _ => true | _ => false end.

(** *** [repr(x)]: the shortest decimal text that reads back as [x] *)

Definition same (a b : spec_float) : bool :=
  match a, b with
  | S754_finite s m e, S754_finite s' m' e' =>
      Bool.eqb s s' && Pos.eqb m m' && Z.eqb e e'
  | S754_zero s, S754_zero s' => Bool.eqb s s'
  | S754_infinity s, S754_infinity s' => Bool.eqb s s'
  | S754_nan, S754_nan => true
  | _, _ => false
  end.

(** [floor(log10(n/d))] for positive [n] and [d]. *)
Definition floor_log10 (n d : Z) : Z :=
  if d <=? n then Lit.ndigits (n / d) - 1
  else - Lit.ndigits ((d + n - 1) / n - 1).

(** [floor((n/d) / 10^x)] *)
Definition scaled_floor (n d x : Z) : Z :=
  if 0 <=? x then n / (d * 10 ^ x) else (n * 10 ^ (- x)) / d.

(** Position of [n/d] against the midpoint of [lo * 10^x] and
    [(lo + 1) * 10^x]. *)
Definition against_mid (n d x lo : Z) : comparison :=
  if 0 <=? x then 2 * n ?= (2 * lo + 1) * (d * 10 ^ x)
  else 2 * (n * 10 ^ (- x)) ?= (2 * lo + 1) * d.

Definition nearest (n d x : Z) : Z :=
  let lo := scaled_floor n d x in
  match against_mid n d x lo with
  | Lt => lo
  | Gt => lo + 1
  | Eq => if Z.even lo then lo else lo + 1
  end.

(** Tries [p], [p+1], ... significant digits; a candidate is kept when it
    reads back as the float [m * 2^e]. *)
Fixpoint shortest_go (fuel : nat) (p : Z) (m : positive) (e n d k : Z) : Z * Z :=
  let x := k - (p - 1) in
  match fuel with
  | O => (nearest n d x, x)
  | S f =>
      let lo := scaled_floor n d x in
      let back c := same (of_decimal false c x) (S754_finite false m e) in
      match back lo, back (lo + 1) with
      | true, true => (nearest n d x, x)
      | true, false => (lo, x)
      | false, true => (lo + 1, x)
      | false, false => shortest_go f (p + 1) m e n d k
      end
  end.

Fixpoint strip_zeros (fuel : nat) (c x : Z) : Z * Z :=
  match fuel with
  | O => (c, x)
  | S f => if (0 <? c) && (c mod 10 =? 0) then strip_zeros f (c / 10) (x + 1) else (c, x)
  end.

(** Digits and position of the decimal point: the value is
    [0.d1d2... * 10^decpt]. *)
Definition shortest (m : positive) (e : Z) : string * Z :=
  let '(n, d) := if 0 <=? e then (Zpos m * 2 ^ e, 1) else (Zpos m, 2 ^ (- e)) in
  let k := floor_log10 n d in
  let '(c, x) := shortest_go 16 1 m e n d k in
  let '(c', x') := strip_zeros 17 c x in
  let ds := Lit.str_of_Z c' in
  (ds, x' + PyStr.len ds).

Fixpoint zeros (n : nat) : string :=
  match n with O => EmptyString | S k => String "0" (zeros k) end.

Definition exponent_text (x : Z) : string :=
  let a := Lit.str_of_Z (Z.abs x) in
  (if x <? 0 then "-" else "+") +:+ (if Z.abs x <? 10 then "0" +:+ a else a).

Definition format_digits (ds : string) (decpt : Z) : string :=
  if (decpt <=? -4) || (16 <? decpt) then
    match ds with
    | String c EmptyString => String c ("e" +:+ exponent_text (decpt - 1))
    | String c rest => String c ("." +:+ rest +:+ "e" +:+ exponent_text (decpt - 1))
    | EmptyString => EmptyString
    end
  else if decpt <=? 0 then "0." +:+ zeros (Z.to_nat (- decpt)) +:+ ds
  else if PyStr.len ds <=? decpt
  then ds +:+ zeros (Z.to_nat (decpt - PyStr.len ds)) +:+ ".0"
  else PyStr.take (Z.to_nat decpt) ds +:+ "." +:+ PyStr.drop (Z.to_nat decpt) ds.

Definition repr (x : spec_float) : string :=
  match x with
  | S754_nan => "nan"
  | S754_infinity s => if s then "-inf" else "inf"
  | S754_zero s => if s then "-0.0" else "0.0"
  | S754_finite s m e =>
      let '(ds, decpt) := shortest m e in
      (if s then "-" else EmptyString) +:+ format_digits ds decpt
  end.

End PyFloat.

(** ** [decimal.Decimal] *)
Module PyDecimal.

Inductive decimal :=
| Finite (neg : bool) (coeff : Z) (exp : Z)
| Infinity (neg : bool)
| NaN (signaling : bool).

Definition MAX_EMAX : Z := 999999999999999999.
Definition MIN_ETINY : Z := -1999999999999999997.

Fixpoint drop_underscores (s : string) : string :=
  match s with
  | EmptyString => EmptyString
  | String c s' =>
      if Ascii.eqb c "_" then drop_underscores s' else String c (drop_underscores s')
  end.

Definition all_ascii_digits (s : string) : bool :=
  let '(_, _, rest) := Lit.digits s 0 0 in negb (PyStr.nonempty rest).

(** The exponent range of an exactly converted number. *)
Definition in_range (c e : Z) : bool :=
  (MIN_ETINY <=? e)
  && (if c =? 0 then e <=? MAX_EMAX else e + Lit.ndigits c - 1 <=? MAX_EMAX).

(** [Decimal(s)] for a [str]; [None] is [InvalidOperation]. *)
Definition parse (s : string) : option decimal :=
  let s1 := drop_underscores (PyStr.strip s) in
  let '(neg, body) := Lit.sign s1 in
  let low := PyStr.lower body in
  if String.eqb low "inf" || String.eqb low "infinity" then Some (Infinity neg)
  else if PyStr.startswith "nan" low && all_ascii_digits (PyStr.drop 3 low)
  then Some (NaN false)
  else if PyStr.startswith "snan" low && all_ascii_digits (PyStr.drop 4 low)
  then Some (NaN true)
  else
    match Lit.unsigned body with
    | Some (c, e) => if in_range c e then Some (Finite neg c e) else None
    | None => None
    end.

(** [d.to_integral_value(rounding=ROUND_HALF_UP)]; [None] is the
    [InvalidOperation] a signaling NaN raises. *)
Definition to_integral_half_up (d : decimal) : option decimal :=
  match d with
  | NaN true => None
  | NaN false => Some d
  | Infinity _ => Some d
  | Finite neg c e =>
      if 0 <=? e then Some d
      else
        let k := 10 ^ (- e) in
        let q := c / k in
        let r := c mod k in
        Some (Finite neg (if k <=? 2 * r then q + 1 else q) 0)
  end.

(** [int(d)] *)
Definition to_int (d : decimal) : result Z :=
  match d with
  | NaN _ => Raise (ValueError "cannot convert NaN to integer")
  | Infinity _ => Raise OverflowError
  | Finite neg c e =>
      let a := if 0 <=? e then c * 10 ^ e else c / 10 ^ (- e) in
      Ok (if neg then - a else a)
  end.

End PyDecimal.

(** ** Values of effort records

    An effort record is what [json.loads] produces: a dictionary from strings
    to JSON values.  A dictionary is kept as the list of its items, read with
    [get]; the first item of a key is the one that counts. *)
Inductive value :=
| VNone
| VBool (b : bool)
| VInt (z : Z)
| VFloat (f : spec_float)
| VStr (s : string)
| VList (l : list value)
| VDict (d : list (string * value)).

Definition effort_record : Type := list (string * value).

(** [d.get(k)], [None] for a missing key. *)
Fixpoint get (d : list (string * value)) (k : string) : value :=
  match d with
  | [] => VNone
  | (k', v) :: d' => if String.eqb k' k then v else get d' k
  end.

(** Truth value of an object. *)
Definition truthy (v : value) : bool :=
  match v with
  | VNone => false
  | VBool b => b
  | VInt z => negb (z =? 0)
  | VFloat f => negb (PyFloat.is_zero f)
  | VStr s => PyStr.nonempty s
  | VList l => match l with [] => false | _ => true end
  | VDict d => match d with [] => false | _ => true end
  end.

(** [a or b] *)
Definition py_or (a b : value) : value := if truthy a then a else b.

(** [repr] of a [str]. *)
Definition hex_digit (n : N) : ascii :=
  if (n <? 10)%N then ascii_of_N (48 + n) else ascii_of_N (87 + n).

Definition repr_char (q c : ascii) : string :=
  let n := N_of_ascii c in
  if Ascii.eqb c q || Ascii.eqb c "092" then String "092" (String c EmptyString)
  else if (n =? 9)%N then String "092" "t"
  else if (n =? 10)%N then String "092" "n"
  else if (n =? 13)%N then String "092" "r"
  else if ((n <? 32) || (127 <=? n) && (n <=? 160) || (n =? 173))%N
  then String "092" (String "x" (String (hex_digit (n / 16))
                                   (String (hex_digit (n mod 16)) EmptyString)))
  else String c EmptyString.

Fixpoint repr_chars (q : ascii) (s : string) : string :=
  match s with
  | EmptyString => EmptyString
  | String c s' => repr_char q c +:+ repr_chars q s'
  end.

Definition repr_str (s : string) : string :=
  let q :=
    if PyStr.contains "'" s && negb (PyStr.contains "034" s)
    then "034"%char else "'"%char in
  String q (repr_chars q s +:+ String q EmptyString).

Fixpoint py_repr (v : value) : string :=
  match v with
  | VNone => "None"
  | VBool b => if b then "True" else "False"
  | VInt z => Lit.str_of_Z z
  | VFloat f => PyFloat.repr f
  | VStr s => repr_str s
  | VList l => "[" +:+ PyStr.join ", " (map py_repr l) +:+ "]"
  | VDict d =>
      "{" +:+ PyStr.join ", "
                (map (fun kv => repr_str (fst kv) +:+ ": " +:+ py_repr (snd kv)) d)
          +:+ "}"
  end.

(** [str(v)], also what an f-string field without a format puts. *)
Definition py_str (v : value) : string :=
  match v with
  | VStr s => s
  | _ => py_repr v
  end.

(** ** Header assembly: [_build_headers] *)

Definition DEFAULT_USER_AGENT : string :=
  "Mozilla/5.0 (Macintosh; Intel Mac OS X 10_15_7) AppleWebKit/537.36 (KHTML, like Gecko) Chrome/142.0.0.0 Safari/537.36".

(** [_load_curl_headers()]: [file] is the text of the cURL snippet file, [None]
    when there is no path or the file cannot be read. *)
Definition _load_curl_headers (file : option string) : gmap string string :=
  match file with
  | Some text => parse_curl_headers text
  | None => ∅
  end.

(** The environment is a function from variable names to their values, as
    [os.getenv] reads it. *)
Definition environ : Type := string -> option string.

(** The nested function [_header_value]. *)
Definition _header_value (getenv : environ) (curl_headers : gmap string string)
    (explicit : option string) (env_var header_key : string) : string :=
  let explicit_text := PyStr.strip (default EmptyString explicit) in
  if PyStr.nonempty (default EmptyString explicit) && PyStr.nonempty explicit_text
  then explicit_text
  else
    let env_value := PyStr.strip (default EmptyString (getenv env_var)) in
    if PyStr.nonempty env_value then env_value
    else PyStr.strip (default EmptyString (curl_headers !! header_key)).

Definition user_agent_value (getenv : environ) (curl_headers : gmap string string)
    : string :=
  let env_value := PyStr.strip (default EmptyString (getenv "STRAVA_USER_AGENT")) in
  if PyStr.nonempty env_value then env_value
  else
    let from_curl := default EmptyString (curl_headers !! "user-agent") in
    if PyStr.nonempty from_curl then from_curl else DEFAULT_USER_AGENT.

Definition _build_headers (getenv : environ) (file : option string)
    (cookie_header csrf_token : option string) (segment_id : string)
    : result (gmap string string) :=
  let curl_headers := _load_curl_headers file in
  let header_cookies :=
    _header_value getenv curl_headers cookie_header "STRAVA_COOKIE_HEADER" "cookie" in
  let header_csrf :=
    _header_value getenv curl_headers csrf_token "STRAVA_CSRF_TOKEN" "x-csrf-token" in
  let user_agent := user_agent_value getenv curl_headers in
  if negb (PyStr.nonempty header_cookies)
  then Raise (ValueError "A Cookie header is required")
  else if negb (PyStr.nonempty header_csrf)
  then Raise (ValueError "A CSRF token is required")
  else
    Ok (<["Accept" := "application/javascript"]>
        (<["Cookie" := header_cookies]>
        (<["Referer" := "https://www.strava.com/segments/" +:+ segment_id]>
        (<["User-Agent" := user_agent]>
        (<["X-CSRF-Token" := header_csrf]>
        (<["X-Requested-With" := "XMLHttpRequest"]> ∅)))))).

(** ** Row formatter helpers *)

(** The format specification [02d]. *)
Definition fmt_02d (n : Z) : string :=
  if (0 <=? n) && (n <? 10) then "0" +:+ Lit.str_of_Z n else Lit.str_of_Z n.

(** [round(x)] for the objects an effort field can hold. *)
Definition py_round (v : value) : result Z :=
  match v with
  | VBool b => Ok (if b then 1 else 0)
  | VInt z => Ok z
  | VFloat f => PyFloat.round_half_even f
  | VNone | VStr _ | VList _ | VDict _ => Raise TypeError
  end.

Definition _format_elapsed_time (seconds : value) : result string :=
  match seconds with
  | VNone => Ok EmptyString
  | _ =>
      total_seconds ← py_round seconds;
      let minutes := total_seconds / 60 in
      let remaining := total_seconds mod 60 in
      Ok (fmt_02d minutes +:+ ":" +:+ fmt_02d remaining)
  end.

(** [float(v)], with [None] standing for the [TypeError] or [ValueError] that
    [_elapsed_seconds] catches. *)
Definition py_float (v : value) : result (option spec_float) :=
  match v with
  | VBool b => Ok (Some (PyFloat.of_Z (if b then 1 else 0)))
  | VInt z =>
      match PyFloat.of_Z z with
      | S754_infinity _ => Raise OverflowError
      | f => Ok (Some f)
      end
  | VFloat f => Ok (Some f)
  | VStr s => Ok (PyFloat.parse s)
  | VNone | VList _ | VDict _ => Ok None
  end.

(** The nested function [_elapsed_seconds]. *)
Definition _elapsed_seconds (v : value) : result spec_float :=
  match v with
  | VNone => Ok PyFloat.inf
  | _ =>
      r ← py_float v;
      Ok (default PyFloat.inf r)
  end.

(** The nested function [_round_metric]. *)
Definition _round_metric (v : value) : result string :=
  match v with
  | VNone => Ok EmptyString
  | VStr EmptyString => Ok EmptyString
  | _ =>
      match PyDecimal.parse (py_str v) with
      | None => Ok EmptyString
      | Some decimal_value =>
          match PyDecimal.to_integral_half_up decimal_value with
          | None => Ok EmptyString
          | Some rounded =>
              n ← PyDecimal.to_int rounded;
              Ok (Lit.str_of_Z n)
          end
      end
  end.

(** ** Effort reducer *)

Definition DEFAULT_SEGMENT_ID : string := "4580190".

(** The year: [date_str[:4]] when [len(date_str) >= 4], else the empty
    string.  [Ok None] is a slice of a list, which is not a string and
    cannot be part of a dictionary key; slicing a dictionary raises
    ([TypeError], [KeyError] from Python 3.12 on). *)
Definition year_of (date_str : value) : result (option string) :=
  match date_str with
  | VStr s => Ok (Some (if 4 <=? PyStr.len s then PyStr.take 4 s else EmptyString))
  | VList l => Ok (if 4 <=? Z.of_nat (length l) then None else Some EmptyString)
  | VDict d =>
      if 4 <=? Z.of_nat (length d) then Raise TypeError else Ok (Some EmptyString)
  | VNone | VBool _ | VInt _ | VFloat _ => Raise TypeError
  end.

(** [(effort.get("segment") or {}).get("id")] *)
Definition nested_segment_id (effort : effort_record) : result value :=
  match py_or (get effort "segment") (VDict []) with
  | VDict d => Ok (get d "id")
  | _ => Raise AttributeError
  end.

(** The aggregation key of one effort: the statements of the loop body up to
    [best_by_year.get(key)].  [SEGMENT_ID] is the module constant read from
    the environment. *)
Definition effort_key (SEGMENT_ID : string) (effort : effort_record)
    : result (string * string) :=
  let date_str :=
    py_or (get effort "start_date_local")
      (py_or (get effort "start_date") (VStr EmptyString)) in
  year ← year_of date_str;
  nested ← nested_segment_id effort;
  let segment_id :=
    py_or nested (py_or (get effort "segment_id") (VStr SEGMENT_ID)) in
  let segment_id_str := py_str segment_id in
  match year with
  | Some y => Ok (segment_id_str, y)
  | None => Raise TypeError
  end.

(** State of the first loop: the dictionary [best_by_year] and the list
    [order]. *)
Record reducer := {
  best_by_year : gmap (string * string) effort_record;
  order : list (string * string)
}.

Definition reducer_init : reducer := {| best_by_year := ∅; order := [] |}.

(** One iteration of [for effort in efforts]. *)
Definition reduce_step (SEGMENT_ID : string) (st : reducer) (effort : effort_record)
    : result reducer :=
  key ← effort_key SEGMENT_ID effort;
  match best_by_year st !! key with
  | None =>
      Ok {| best_by_year := <[key := effort]> (best_by_year st);
            order := order st ++ [key] |}
  | Some existing =>
      new_time ← _elapsed_seconds (get effort "elapsed_time");
      old_time ← _elapsed_seconds (get existing "elapsed_time");
      if PyFloat.ltb new_time old_time
      then Ok {| best_by_year := <[key := effort]> (best_by_year st);
                 order := order st |}
      else Ok st
  end.

Fixpoint reduce_from (SEGMENT_ID : string) (st : reducer) (efforts : list effort_record)
    : result reducer :=
  match efforts with
  | [] => Ok st
  | effort :: rest =>
      st' ← reduce_step SEGMENT_ID st effort;
      reduce_from SEGMENT_ID st' rest
  end.

Definition reduce_efforts (SEGMENT_ID : string) (efforts : list effort_record)
    : result reducer :=
  reduce_from SEGMENT_ID reducer_init efforts.

(** ** Row formatter *)

Definition TAB : string := String "009" EmptyString.

(** The chain [a or b or ...] over the candidate fields of a metric, ending
    in the empty string. *)
Fixpoint first_truthy (effort : effort_record) (names : list string) : value :=
  match names with
  | [] => VStr EmptyString
  | name :: rest => py_or (get effort name) (first_truthy effort rest)
  end.

Definition WATTS_FIELDS : list string := ["average_watts"; "avg_watts"; "watts"].
Definition BPM_FIELDS : list string := ["average_heartrate"; "average_hr"; "avg_hr"].
Definition CADENCE_FIELDS : list string := ["average_cadence"; "avg_cadence"].

(** The columns of one row, in order. *)
Definition row_fields (segment_name_map : option (gmap string string))
    (navn_column : string) (key : string * string) (effort : effort_record)
    : result (list string) :=
  let '(segment_id_str, year) := key in
  let segment_display :=
    default segment_id_str (default ∅ segment_name_map !! segment_id_str) in
  elapsed ← _format_elapsed_time (get effort "elapsed_time");
  let segment_effort_id := get effort "id" in
  let effort_url :=
    if truthy segment_effort_id
    then "https://www.strava.com/segment_efforts/" +:+ py_str segment_effort_id
    else EmptyString in
  avg_watts ← _round_metric (first_truthy effort WATTS_FIELDS);
  avg_bpm ← _round_metric (first_truthy effort BPM_FIELDS);
  avg_cadence ← _round_metric (first_truthy effort CADENCE_FIELDS);
  Ok [year; segment_display; navn_column; elapsed; effort_url;
      avg_watts; avg_bpm; avg_cadence].

Definition format_row (segment_name_map : option (gmap string string))
    (navn_column : string) (key : string * string) (effort : effort_record)
    : result string :=
  fields ← row_fields segment_name_map navn_column key effort;
  Ok (PyStr.join TAB fields).

(** The second loop, [for segment_id_str, year in order]. *)
Fixpoint format_rows (segment_name_map : option (gmap string string))
    (navn_column : string) (best : gmap (string * string) effort_record)
    (keys : list (string * string)) : result (list string) :=
  match keys with
  | [] => Ok []
  | key :: rest =>
      match best !! key with
      | None => Raise KeyError
      | Some effort =>
          row ← format_row segment_name_map navn_column key effort;
          rows ← format_rows segment_name_map navn_column best rest;
          Ok (row :: rows)
      end
  end.

Definition navn_column_of (navn_value : option string) : string :=
  let given := default EmptyString navn_value in
  let text := PyStr.strip (if PyStr.nonempty given then given else "NAVN") in
  if PyStr.nonempty text then text else "NAVN".

Definition efforts_to_sheet_rows (SEGMENT_ID : string) (efforts : list effort_record)
    (segment_name_map : option (gmap string string)) (navn_value : option string)
    : result (list string) :=
  let navn_column := navn_column_of navn_value in
  st ← reduce_efforts SEGMENT_ID efforts;
  format_rows segment_name_map navn_column (best_by_year st) (order st).

(** ** Sheet metadata mapper *)

Definition _segment_id_from_link (link : string) : string :=
  if negb (PyStr.nonempty link) then EmptyString
  else
    let cleaned := PyStr.strip link in
    if negb (PyStr.nonempty cleaned) then EmptyString
    else
      let cleaned := PyStr.rstrip_char "/" cleaned in
      let last_part := PyStr.last_part "/" cleaned in
      let last_part :=
        if PyStr.contains "?" last_part then fst (PyStr.split1 "?" last_part)
        else last_part in
      let last_part :=
        if PyStr.contains "#" last_part then fst (PyStr.split1 "#" last_part)
        else last_part in
      if PyStr.isdigit last_part then last_part else EmptyString.

(** A metadata row maps column names to cell texts; a cell that is [None] in
    Python reads like a missing column, since every access is
    [row.get(name)] with the empty string as its alternative. *)
Definition cell (row : gmap string string) (name : string) : string :=
  default EmptyString (row !! name).

Definition row_segment_id (row : gmap string string) : string :=
  _segment_id_from_link (PyStr.strip (cell row "Segment")).

Fixpoint build_segment_name_map_from (mapping : gmap string string)
    (rows : list (gmap string string)) : gmap string string :=
  match rows with
  | [] => mapping
  | row :: rest =>
      let id_navn := PyStr.strip (cell row "Id-navn") in
      let segment_id := row_segment_id row in
      if PyStr.nonempty segment_id && PyStr.nonempty id_navn
      then build_segment_name_map_from (<[segment_id := id_navn]> mapping) rest
      else build_segment_name_map_from mapping rest
  end.

Definition build_segment_name_map (rows : list (gmap string string))
    : gmap string string :=
  build_segment_name_map_from ∅ rows.

(** The loop of [extract_segment_ids] with its two accumulators. *)
Fixpoint extract_from (segment_ids : list string) (seen : gset string)
    (rows : list (gmap string string)) : list string :=
  match rows with
  | [] => segment_ids
  | row :: rest =>
      let segment_id := row_segment_id row in
      if PyStr.nonempty segment_id && negb (bool_decide (segment_id ∈ seen))
      then extract_from (segment_ids ++ [segment_id]) ({[segment_id]} ∪ seen) rest
      else extract_from segment_ids seen rest
  end.

Definition extract_segment_ids (rows : list (gmap string string)) : list string :=
  extract_from [] ∅ rows.

(** ** Definitions used to state the properties

    Some follow the wording of the specification, to be compared with the
    functions above; the others name what the theorems speak about. *)

(** The test of the loop body of [extract_segment_ids], on the list of ids
    instead of the set [seen]. *)
Definition is_new (ids : list string) (id : string) : bool :=
  PyStr.nonempty id && negb (bool_decide (id ∈ ids)).

(** An optional text that is missing or holds only whitespace. *)
Definition blank (o : option string) : bool :=
  negb (PyStr.nonempty (PyStr.strip (default EmptyString o))).

(** No entry of a header mapping has an empty name. *)
Definition named (h : gmap string string) : Prop := h !! EmptyString = None.

(** The [MM:SS] text of a whole number of seconds. *)
Definition mmss (n : Z) : string := fmt_02d (n / 60) +:+ ":" +:+ fmt_02d (n mod 60).

(** Rounding to the nearest integer with ties going to the larger magnitude,
    on the exact value of a float; 0 where the float has no value. *)
Definition round_half_up (x : spec_float) : Z :=
  match x with
  | S754_finite s m e =>
      let n :=
        if 0 <=? e then Zpos m * 2 ^ e
        else
          let d := 2 ^ (- e) in
          if d <=? 2 * (Zpos m mod d) then Zpos m / d + 1 else Zpos m / d in
      if s then - n else n
  | _ => 0
  end.

(** The float 2.5, as [float("2.5")] gives it. *)
Definition two_and_a_half : spec_float := S754_finite false 5629499534213120 (-51).

(** The aggregation key and the elapsed seconds of an effort, as total
    functions; they are what [effort_key] and [_elapsed_seconds] return when
    these do not raise. *)
Definition key_of (SEGMENT_ID : string) (effort : effort_record) : string * string :=
  match effort_key SEGMENT_ID effort with
  | Ok key => key
  | Raise _ => (EmptyString, EmptyString)
  end.

Definition elapsed_of (effort : effort_record) : spec_float :=
  match _elapsed_seconds (get effort "elapsed_time") with
  | Ok seconds => seconds
  | Raise _ => PyFloat.inf
  end.

(** An effort whose key can be derived and whose elapsed time can be read. *)
Definition readable (SEGMENT_ID : string) (effort : effort_record) : bool :=
  is_ok (effort_key SEGMENT_ID effort)
  && is_ok (_elapsed_seconds (get effort "elapsed_time")).

(** The keys of a list in the order of their first appearance. *)
Fixpoint first_appearance (keys : list (string * string)) : list (string * string) :=
  match keys with
  | [] => []
  | key :: rest => key :: filter (λ k, k ≠ key) (first_appearance rest)
  end.

(** The record retained for [key]: the first record of that key, replaced by
    a later record of the key only when that one's elapsed time is strictly
    less than the retained one's. *)
Definition retain (SEGMENT_ID : string) (key : string * string)
    (kept : option effort_record) (effort : effort_record) : option effort_record :=
  if decide (key_of SEGMENT_ID effort = key) then
    match kept with
    | None => Some effort
    | Some current =>
        if PyFloat.ltb (elapsed_of effort) (elapsed_of current)
        then Some effort else kept
    end
  else kept.

Fixpoint retained_from (SEGMENT_ID : string) (key : string * string)
    (kept : option effort_record) (efforts : list effort_record)
    : option effort_record :=
  match efforts with
  | [] => kept
  | effort :: rest =>
      retained_from SEGMENT_ID key (retain SEGMENT_ID key kept effort) rest
  end.

Definition retained (SEGMENT_ID : string) (key : string * string)
    (efforts : list effort_record) : option effort_record :=
  retained_from SEGMENT_ID key None efforts.

(** The three efforts of the example: segment 123 in 150 s and in 120 s,
    segment 999 in 200 s, all in 2024. *)
Definition example_effort (date : string) (segment elapsed id : Z) : effort_record :=
  [("start_date_local", VStr date); ("segment", VDict [("id", VInt segment)]);
   ("elapsed_time", VInt elapsed); ("id", VInt id)].

Definition example_efforts : list effort_record :=
  [example_effort "2024-05-01T08:00:00Z" 123 150 1;
   example_effort "2024-06-01T08:00:00Z" 123 120 2;
   example_effort "2024-07-01T08:00:00Z" 999 200 3].

(** What the first loop has computed after the efforts [seen]. *)
Definition reduced (SEGMENT_ID : string) (st : reducer) (seen : list effort_record)
    : Prop :=
  order st = first_appearance (map (key_of SEGMENT_ID) seen)
  ∧ ∀ key, best_by_year st !! key = retained SEGMENT_ID key seen.



(** The segment id of a link as the specification words it: the link without
    its fragment, its query string and its trailing slashes; of that, the last
    path segment, kept when it is a number. *)
Definition segment_id_of_url (link : string) : string :=
  let cleaned := PyStr.strip link in
  let without_fragment := fst (PyStr.split1 "#" cleaned) in
  let without_query := fst (PyStr.split1 "?" without_fragment) in
  let path := PyStr.rstrip_char "/" without_query in
  let last_part := PyStr.last_part "/" path in
  if PyStr.isdigit last_part then last_part else EmptyString.

(** An effort whose elapsed time is the text "abc", and a well-formed one. *)
Definition malformed_effort : effort_record :=
  [("start_date_local", VStr "2024-05-01T08:00:00Z");
   ("segment", VDict [("id", VInt 1)]); ("elapsed_time", VStr "abc"); ("id", VInt 5)].

Definition sound_effort : effort_record :=
  example_effort "2024-05-01T08:00:00Z" 2 83 7.

(** ** Further definitions used to state properties of the header extractor *)

(** The argument [t] between single quotes, as a shell reads it literally. *)
Definition squote (t : string) : string := String "'" (t +:+ "'").

(** A command line made of single-quoted arguments separated by spaces. *)
Definition command_of (tokens : list string) : string :=
  PyStr.join " " (map squote tokens).

(** A text without the characters that the normalisation of a command looks
    at: backslash, carriage return, caret and backtick. *)
Definition unmarked (s : string) : bool :=
  negb (PyStr.contains "092" s || PyStr.contains "013" s
        || PyStr.contains "^" s || PyStr.contains "`" s).

(** A text that can stand between single quotes unchanged. *)
Definition quotable (t : string) : bool :=
  unmarked t && negb (PyStr.contains "'" t).

(** A physical line of a command: no line feed and none of the marked
    characters. *)
Definition line_text (s : string) : bool :=
  unmarked s && negb (PyStr.contains "010" s).

(** The ways a command is continued on the next line: a backslash, a caret or
    a backtick before the line end, which is a line feed alone or after a
    carriage return. *)
Definition CONTINUATIONS : list string :=
  [BACKSLASH +:+ LF; BACKSLASH +:+ CR +:+ LF;
   "^" +:+ LF; "^" +:+ CR +:+ LF; "`" +:+ LF; "`" +:+ CR +:+ LF].

(** A header mapping as the extractor leaves it: every name is non-empty,
    lower-case and without surrounding whitespace, and every value is without
    surrounding whitespace. *)
Definition tidy (h : gmap string string) : Prop :=
  ∀ name value, h !! name = Some value →
    name ≠ EmptyString ∧ PyStr.lower name = name ∧ PyStr.strip name = name
    ∧ PyStr.strip value = value.

(** ** Further definitions used to state properties of the rows *)

(** [s.split(ch)] for a separator of one character. *)
Fixpoint str_split (ch : ascii) (s : string) : list string :=
  match s with
  | EmptyString => [EmptyString]
  | String c s' =>
      if Ascii.eqb c ch then EmptyString :: str_split ch s'
      else
        match str_split ch s' with
        | part :: parts => String c part :: parts
        | [] => [String c EmptyString]
        end
  end.

(** The comprehension [[row.split(TAB) for row in sheet_rows]] of [main]. *)
Definition csv_rows (sheet_rows : list string) : list (list string) :=
  map (str_split "009") sheet_rows.

(** A text without a tab character. *)
Definition tab_free (s : string) : bool := negb (PyStr.contains "009" s).

(** ** Further definitions used to state properties of segment links *)

(** Every character of a text satisfies [p]. *)
Fixpoint str_forall (p : ascii → bool) (s : string) : bool :=
  match s with
  | EmptyString => true
  | String c s' => p c && str_forall p s'
  end.

(** What follows the id in a segment link: nothing, slashes only, or a query
    string or a fragment that contains no slash. *)
Definition link_tail (tail : string) : bool :=
  str_forall (λ c, Ascii.eqb c "/") tail
  || negb (PyStr.contains "/" tail)
     && match tail with
        | String c _ => Ascii.eqb c "?" || Ascii.eqb c "#"
        | EmptyString => true
        end.

(** ** Further definitions used to state properties of the name mapping *)

(** The metadata row gives a name to the segment [id]: its link carries the
    id and its [Id-navn] cell is not blank. *)
Definition names (row : gmap string string) (id : string) : Prop :=
  row_segment_id row = id ∧ id ≠ EmptyString
  ∧ PyStr.strip (cell row "Id-navn") ≠ EmptyString.

(** ** Further definitions used to state when the rows are produced *)





(** The characters of the text of a number. *)
Definition numeric_char (c : ascii) : bool :=
  PyFloat.is_ascii_digit c || Ascii.eqb c "-" || Ascii.eqb c "+"
  || Ascii.eqb c "." || Ascii.eqb c "e".

(** ** Name prompt: [load_or_prompt_navn]

    The function reads and writes the cache file, prints and asks for input.
    What it meets is gathered in a [world]; what it does is the list of its
    [event]s, in order, beside its outcome. *)

Record world := {
  (** text of the file at [cache_path]; [None] when it cannot be read *)
  cache_file : option string;
  (** whether the file at [cache_path] can be created and written *)
  cache_writable : bool;
  (** what [input_func] returns *)
  typed : string;
  (** what [fetch_athlete_names()] returns *)
  fetched_names : list string;
  (** [sys.get_int_max_str_digits()]: 4300 unless changed, 0 for no limit *)
  int_max_str_digits : Z
}.

Inductive event :=
| Printed (line : string)
| Prompted (prompt : string)
| Wrote (text : string).

Inductive outcome :=
| Returns (navn : string)
| Raises (e : exn)
| RaisesOSError.

(** [int(s)] for a text [s] that satisfies [str.isdigit]: ASCII digits give
    their value unless there are more of them than the limit; one of the
    superscript digits makes the literal invalid. *)
Definition py_int_digits (max_str_digits : Z) (s : string) : result Z :=
  let '(value, count, rest) := Lit.digits s 0 0 in
  if (0 <? max_str_digits) && (max_str_digits <? count) then
    Raise (ValueError
             ("Exceeds the limit (" +:+ Lit.str_of_Z max_str_digits
              +:+ " digits) for integer string conversion: value has "
              +:+ Lit.str_of_Z count
              +:+ " digits; use sys.set_int_max_str_digits() to increase the limit"))
  else if (0 <? count) && negb (PyStr.nonempty rest) then Ok value
  else Raise (ValueError ("invalid literal for int() with base 10: "
                          +:+ PyStr.take 200 (repr_str s))).

Definition _read_cached_navn (cache_path : string) (file : option string) : string :=
  if negb (PyStr.nonempty cache_path) then EmptyString
  else
    match file with
    | Some text => PyStr.strip text
    | None => EmptyString
    end.

(** [_write_cached_navn]: the events of the write, or [None] for the
    [OSError] of a file that cannot be written. *)
Definition _write_cached_navn (writable : bool) (value cache_path : string)
    : option (list event) :=
  if negb (PyStr.nonempty cache_path) then Some []
  else if writable then Some [Wrote value] else None.

Definition NAVN_EMPTY : string := "NAVN kan ikke v" +:+ String "230" "re tomt".

Definition CHOOSE_LINE : string :=
  "Velg NAVN fra Ut" +:+ String "248" "vere-listen (skriv tallet eller et eget navn):".

Definition EXAMPLE_LINE : string :=
  "Skriv f.eks. 3. for " +:+ String "229"
    " velge navn nummer 3, eller skriv inn et annet navn.".

Definition NO_SUGGESTIONS_LINE : string :=
  "Fant ingen forslag fra Ut" +:+ String "248"
    "vere-fanen. Skriv inn navnet manuelt.".

(** The loop over [enumerate(options, start=1)]. *)
Fixpoint print_numbered (idx : Z) (options : list string) : list event :=
  match options with
  | [] => []
  | option :: rest =>
      Printed (Lit.str_of_Z idx +:+ ". " +:+ option) :: print_numbered (idx + 1) rest
  end.

Definition print_options (options : list string) : list event :=
  match options with
  | [] => [Printed NO_SUGGESTIONS_LINE]
  | _ => Printed CHOOSE_LINE :: print_numbered 1 options ++ [Printed EXAMPLE_LINE]
  end.

(** The name chosen by the text typed at the prompt, after [strip]. *)
Definition chosen_navn (max_str_digits : Z) (options : list string)
    (navn_input : string) : result string :=
  match options with
  | [] => Ok navn_input
  | _ =>
      let selection := PyStr.rstrip_char "." navn_input in
      if PyStr.isdigit selection then
        n ← py_int_digits max_str_digits selection;
        let index := n - 1 in
        if (0 <=? index) && (index <? Z.of_nat (length options))
        then Ok (nth (Z.to_nat index) options EmptyString)
        else Raise (ValueError
                      ("Ugyldig valg: skriv et tall mellom 1 og "
                       +:+ Lit.str_of_Z (Z.of_nat (length options))
                       +:+ " eller et navn."))
      else Ok navn_input
  end.

Definition load_or_prompt_navn (w : world) (cache_path : string)
    (suggested_names : option (list string)) : list event * outcome :=
  let cached := _read_cached_navn cache_path (cache_file w) in
  if PyStr.nonempty cached then ([], Returns cached)
  else
    let options :=
      match suggested_names with
      | Some names => names
      | None => fetched_names w
      end in
    let shown := print_options options ++ [Prompted "NAVN: "] in
    let navn_input := PyStr.strip (typed w) in
    if negb (PyStr.nonempty navn_input) then (shown, Raises (ValueError NAVN_EMPTY))
    else
      match chosen_navn (int_max_str_digits w) options navn_input with
      | Raise e => (shown, Raises e)
      | Ok navn_value =>
          if negb (PyStr.nonempty navn_value)
          then (shown, Raises (ValueError NAVN_EMPTY))
          else
            match _write_cached_navn (cache_writable w) navn_value cache_path with
            | Some written => (shown ++ written, Returns navn_value)
            | None => (shown, RaisesOSError)
            end
      end.


(** ** Athlete names: [fetch_athlete_names]

    The download and the tab-separated parsing are the library's; the
    function is modelled from the rows that [csv.reader] returns for the
    downloaded text, [None] standing for a download or a decoding that
    raised.  [csv.DictReader] reads the same rows: its first row gives the
    field names, and it skips the empty rows. *)

(** A value of a [DictReader] row: a cell, [None] for a field the row is too
    short for, or the list of the cells beyond the field names. *)
Inductive field :=
| Text (cell : string)
| Missing
| Rest (cells : list string).

(** A [DictReader] row: its items in insertion order; the key [None] is the
    one of the cells beyond the field names. *)
Definition dict_row : Type := list (option string * field).

(** [d[key] = value] *)
Fixpoint dict_set (d : dict_row) (key : option string) (value : field) : dict_row :=
  match d with
  | [] => [(key, value)]
  | (k, v) :: rest =>
      if decide (k = key) then (k, value) :: rest
      else (k, v) :: dict_set rest key value
  end.

(** [d.get(key)] *)
Fixpoint dict_get (d : dict_row) (key : option string) : option field :=
  match d with
  | [] => None
  | (k, v) :: rest => if decide (k = key) then Some v else dict_get rest key
  end.

(** [dict(zip(fieldnames, row))], continued from [d]. *)
Fixpoint zip_row (d : dict_row) (fieldnames row : list string) : dict_row :=
  match fieldnames, row with
  | name :: names, cell :: cells => zip_row (dict_set d (Some name) (Text cell)) names cells
  | _, _ => d
  end.

(** The dictionary that [DictReader.__next__] makes of a row. *)
Definition dict_of_row (fieldnames row : list string) : dict_row :=
  let d := zip_row [] fieldnames row in
  let lf := length fieldnames in
  let lr := length row in
  if (lf <? lr)%nat then dict_set d None (Rest (drop lf row))
  else if (lr <? lf)%nat
  then foldl (λ d key, dict_set d (Some key) Missing) d (drop lr fieldnames)
  else d.

(** The rows that [DictReader] yields for the rows of [csv.reader]. *)
Definition dict_rows (rows : list (list string)) : list dict_row :=
  match rows with
  | [] => []
  | fieldnames :: data =>
      map (dict_of_row fieldnames) (filter (λ row, row ≠ []) data)
  end.

(** [needle in s] *)
Fixpoint is_infix (needle s : string) : bool :=
  PyStr.startswith needle s
  || match s with
     | EmptyString => false
     | String _ s' => is_infix needle s'
     end.

(** The loop of the nested function [_append_from_column], with the list
    [names] it appends to. *)
Fixpoint _append_from_column (limit : Z) (names : list string)
    (rows_iter : list (list string)) (index : nat) : list string :=
  match rows_iter with
  | [] => names
  | row :: rest =>
      match row !! index with
      | None => _append_from_column limit names rest index
      | Some cell =>
          let value := PyStr.strip cell in
          let names := if PyStr.nonempty value then names ++ [value] else names in
          if limit <=? Z.of_nat (length names) then names
          else _append_from_column limit names rest index
      end
  end.

(** The search of the column whose name contains [navn], over [row.keys()]. *)
Fixpoint find_name_column (keys : list (option string)) : option string :=
  match keys with
  | [] => None
  | Some column :: rest =>
      if PyStr.nonempty column && is_infix "navn" (PyStr.lower column)
      then Some column else find_name_column rest
  | None :: rest => find_name_column rest
  end.

(** [(row.get(name_column) or EMPTY).strip()]: a list has no [strip]. *)
Definition named_cell (row : dict_row) (name_column : string) : result string :=
  match dict_get row (Some name_column) with
  | Some (Text cell) => Ok (PyStr.strip cell)
  | Some Missing | None | Some (Rest []) => Ok EmptyString
  | Some (Rest (_ :: _)) => Raise AttributeError
  end.

(** The loop over [row.values()] for the first value that is not blank. *)
Fixpoint first_value (values : list field) : result string :=
  match values with
  | [] => Ok EmptyString
  | Text cell :: rest =>
      if PyStr.nonempty cell && PyStr.nonempty (PyStr.strip cell)
      then Ok (PyStr.strip cell) else first_value rest
  | Missing :: rest | Rest [] :: rest => first_value rest
  | Rest (_ :: _) :: _ => Raise AttributeError
  end.

(** The loop [for row in reader] of the second reading. *)
Fixpoint names_from_dicts (limit : Z) (name_column : option string)
    (names : list string) (reader : list dict_row) : result (list string) :=
  match reader with
  | [] => Ok names
  | row :: rest =>
      let name_column :=
        match name_column with
        | Some column => Some column
        | None => find_name_column (map fst row)
        end in
      cell_value ←
        match name_column with
        | Some column => named_cell row column
        | None => first_value (map snd row)
        end;
      let names := if PyStr.nonempty cell_value then names ++ [cell_value] else names in
      if limit <=? Z.of_nat (length names) then Ok names
      else names_from_dicts limit name_column names rest
  end.

Definition fetch_athlete_names (limit : Z) (response : option (list (list string)))
    : result (list string) :=
  if limit <=? 0 then Ok []
  else
    match response with
    | None | Some [] => Ok []
    | Some (header :: data_rows) =>
        let rows := header :: data_rows in
        let column_index := if (1 <? length header)%nat then 1%nat else 0%nat in
        let names := _append_from_column limit [] data_rows column_index in
        names ←
          match names with
          | [] => names_from_dicts limit None [] (dict_rows rows)
          | _ => Ok names
          end;
        Ok (take (Z.to_nat limit) names)
    end.

(** The non-blank cells of a column, stripped, in the order of the rows. *)
Definition column_names (index : nat) (rows : list (list string)) : list string :=
  filter (λ cell, cell ≠ EmptyString)
    (map PyStr.strip (omap (λ row : list string, row !! index) rows)).

(** A name as the function returns it: not empty and without surrounding
    whitespace. *)
Definition trimmed (name : string) : Prop :=
  name ≠ EmptyString ∧ PyStr.strip name = name.

(** A header with a cell whose name contains [navn], in any case. *)
Definition has_name_column (header : list string) : bool :=
  existsb (λ column, PyStr.nonempty column && is_infix "navn" (PyStr.lower column))
    header.

(** Items of a [DictReader] row: a list of cells stands under the key [None]
    only; a row that is not longer than the field names has no such list. *)
Definition keyed_item (item : option string * field) : Prop :=
  match item with
  | (Some _, Rest _) => False
  | _ => True
  end.

Definition cell_item (item : option string * field) : Prop :=
  match item with
  | (_, Rest _) => False
  | _ => True
  end.

(** ** Sheet metadata: [fetch_segment_metadata]

    As for the athlete names, the function is modelled from the rows that
    [csv.reader] returns for the downloaded text. *)

(** Truth value of a value of a [DictReader] row. *)
Definition field_truthy (v : field) : bool :=
  match v with
  | Text cell => PyStr.nonempty cell
  | Missing => false
  | Rest cells => match cells with [] => false | _ => true end
  end.

(** [[dict(row) for row in reader if any(row.values())]] *)
Definition fetch_segment_metadata (rows : list (list string)) : list dict_row :=
  filter (λ row, existsb field_truthy (map snd row) = true) (dict_rows rows).

(** A [DictReader] row as the metadata mappers read it: the cells by column
    name; a field that is [None] reads like a missing column. *)
Fixpoint as_row (d : dict_row) : gmap string string :=
  match d with
  | [] => ∅
  | (Some name, Text cell) :: rest => <[name := cell]> (as_row rest)
  | (Some name, _) :: rest => delete name (as_row rest)
  | (None, _) :: rest => as_row rest
  end.

(** * Properties *)

(** ** Sheet metadata mapper: [extract_segment_ids] *)

Lemma nonempty_true (s : string) : PyStr.nonempty s = true ↔ s ≠ EmptyString.
Proof. destruct s; simpl; split; congruence. Qed.

Lemma nonempty_false (s : string) : PyStr.nonempty s = false ↔ s = EmptyString.
Proof. destruct s; simpl; split; congruence. Qed.

Lemma segment_id_from_link_digits (link : string) :
  _segment_id_from_link link ≠ EmptyString →
  PyStr.isdigit (_segment_id_from_link link) = true.
Proof.
  unfold _segment_id_from_link.
  repeat match goal with
         | |- context [if ?b then _ else _] => destruct b eqn:?
         end; congruence.
Qed.

Section ExtractSegmentIds.

Implicit Types (rows : list (gmap string string)) (ids : list string).
Implicit Types (seen : gset string).

Lemma extract_from_snoc rows : ∀ ids seen row,
  (∀ x, x ∈ seen ↔ x ∈ ids) →
  extract_from ids seen (rows ++ [row]) =
    let r := extract_from ids seen rows in
    if is_new r (row_segment_id row) then r ++ [row_segment_id row] else r.
Proof.
  induction rows as [|row0 rows IH]; intros ids seen row Hseen; simpl.
  - unfold is_new. erewrite (bool_decide_ext (_ ∈ seen)); [done|apply Hseen].
  - destruct (_ && _).
    + apply IH. intros x. rewrite elem_of_union, elem_of_singleton.
      rewrite elem_of_app, list_elem_of_singleton, Hseen. tauto.
    + by apply IH.
Qed.

Lemma extract_from_spec rows : ∀ ids seen,
  (∀ x, x ∈ seen ↔ x ∈ ids) →
  NoDup ids →
  NoDup (extract_from ids seen rows)
  ∧ ∀ x, x ∈ extract_from ids seen rows ↔
         x ∈ ids ∨ (x ≠ EmptyString ∧ ∃ row, row ∈ rows ∧ row_segment_id row = x).
Proof.
  induction rows as [|row rows IH]; intros ids seen Hseen Hnd; simpl.
  - split; [done|]. intros x. split; [by left|].
    intros [?|(_ & row & Hrow & _)]; [done|]. by apply elem_of_nil in Hrow.
  - destruct (PyStr.nonempty (row_segment_id row)) eqn:Hne; simpl.
    + destruct (bool_decide (row_segment_id row ∈ seen)) eqn:Hin; simpl.
      * apply bool_decide_eq_true in Hin. apply Hseen in Hin.
        destruct (IH ids seen Hseen Hnd) as [IH1 IH2]. split; [done|].
        intros x. rewrite IH2. split.
        -- intros [?|(? & r & ? & ?)]; [by left|].
           right. split; [done|]. exists r. rewrite elem_of_cons. auto.
        -- intros [?|(? & r & [->|?]%elem_of_cons & Hr)]; [by left| |].
           ++ left. by rewrite <- Hr.
           ++ right. eauto.
      * apply bool_decide_eq_false in Hin.
        assert (row_segment_id row ∉ ids) as Hnot by (by rewrite <- Hseen).
        edestruct (IH (ids ++ [row_segment_id row])
                      ({[row_segment_id row]} ∪ seen)) as [IH1 IH2].
        { intros x. rewrite elem_of_union, elem_of_singleton.
          rewrite elem_of_app, list_elem_of_singleton, Hseen. tauto. }
        { apply NoDup_app. split; [done|]. split; [|apply NoDup_singleton].
          intros x Hx ->%list_elem_of_singleton. done. }
        split; [done|]. intros x. rewrite IH2.
        rewrite elem_of_app, list_elem_of_singleton. split.
        -- intros [[?| ->]|(? & r & ? & ?)].
           ++ by left.
           ++ right. split; [by apply nonempty_true|].
              exists row. split; [apply elem_of_cons; by left|done].
           ++ right. split; [done|]. exists r. rewrite elem_of_cons. auto.
        -- intros [?|(? & r & [->|?]%elem_of_cons & Hr)]; [by left; left| |].
           ++ left. by right.
           ++ right. eauto.
    + apply nonempty_false in Hne.
      destruct (IH ids seen Hseen Hnd) as [IH1 IH2]. split; [done|].
      intros x. rewrite IH2. split.
      * intros [?|(? & r & ? & ?)]; [by left|].
        right. split; [done|]. exists r. rewrite elem_of_cons. auto.
      * intros [?|(Hx & r & [->|?]%elem_of_cons & Hr)]; [by left| |].
        -- congruence.
        -- right. eauto.
Qed.

End ExtractSegmentIds.

(** C9.  [extract_segment_ids] returns the valid segment ids of the rows
    without duplicates and in the order of their first appearance: no id
    occurs twice, an id is returned exactly when some row yields it (and then
    it is a string of digits), a row appended to the input adds its id at the
    end exactly when the id is valid and not yet returned, and the rows with
    ids 1, 2, 1, 3 give the list 1, 2, 3. *)
Theorem extract_segment_ids_first_seen (rows : list (gmap string string)) :
  NoDup (extract_segment_ids rows)
  ∧ (∀ id, id ∈ extract_segment_ids rows ↔
           id ≠ EmptyString ∧ ∃ row, row ∈ rows ∧ row_segment_id row = id)
  ∧ (∀ id, id ∈ extract_segment_ids rows → PyStr.isdigit id = true)
  ∧ (∀ row,
        extract_segment_ids (rows ++ [row]) =
          if is_new (extract_segment_ids rows) (row_segment_id row)
          then extract_segment_ids rows ++ [row_segment_id row]
          else extract_segment_ids rows)
  ∧ extract_segment_ids
      [ {[ "Segment" := "https://www.strava.com/segments/1" ]};
        {[ "Segment" := "https://www.strava.com/segments/2?filter=overall" ]};
        {[ "Segment" := "https://www.strava.com/segments/1" ]};
        {[ "Segment" := "https://www.strava.com/segments/3" ]} ]
    = ["1"; "2"; "3"].
Proof.
  unfold extract_segment_ids.
  destruct (extract_from_spec rows [] ∅) as [Hnd Hin].
  { intros x. by rewrite elem_of_empty, elem_of_nil. }
  { apply NoDup_nil_2. }
  assert (∀ id, id ∈ extract_from [] ∅ rows ↔
                id ≠ EmptyString ∧ ∃ row, row ∈ rows ∧ row_segment_id row = id) as Hin'.
  { intros id. rewrite Hin, elem_of_nil. tauto. }
  split; [done|]. split; [done|]. split; [|split].
  - intros id (Hne & row & _ & <-)%Hin'.
    by apply segment_id_from_link_digits.
  - intros row. apply extract_from_snoc.
    intros x. by rewrite elem_of_empty, elem_of_nil.
  - vm_compute. reflexivity.
Qed.

(** Runs the binds whose first computation is already a result. *)
Ltac run_bind := cbn [mbind result_bind mret result_ret].

(** ** Python [str] methods: basic facts *)

Lemma append_String (c : ascii) (a b : string) :
  String c a +:+ b = String c (a +:+ b).
Proof. reflexivity. Qed.

Lemma append_empty (b : string) : EmptyString +:+ b = b.
Proof. reflexivity. Qed.

Lemma contains_app_char (ch : ascii) (a b : string) :
  PyStr.contains ch (a +:+ String ch b) = true.
Proof.
  induction a as [|c a IH].
  - rewrite append_empty. simpl. by rewrite Ascii.eqb_refl.
  - rewrite append_String. simpl. rewrite IH. apply orb_true_r.
Qed.

Lemma split1_app (ch : ascii) (a b : string) :
  PyStr.contains ch a = false →
  PyStr.split1 ch (a +:+ String ch b) = (a, Some b).
Proof.
  induction a as [|c a IH]; intros Hno.
  - rewrite append_empty. simpl. by rewrite Ascii.eqb_refl.
  - rewrite append_String. simpl in *.
    apply orb_false_iff in Hno as [Hc Ha]. by rewrite Hc, IH.
Qed.

Lemma split1_no_sep (ch : ascii) (s : string) :
  PyStr.contains ch s = false → PyStr.split1 ch s = (s, None).
Proof.
  induction s as [|c s IH]; intros Hno; simpl in *; [done|].
  apply orb_false_iff in Hno as [Hc Hs]. by rewrite Hc, IH.
Qed.

Lemma nonempty_app_char (a : string) (ch : ascii) (b : string) :
  PyStr.nonempty (a +:+ String ch b) = true.
Proof. destruct a; reflexivity. Qed.

Lemma nonempty_strip (s : string) :
  PyStr.nonempty (PyStr.strip s) = true → PyStr.nonempty s = true.
Proof. destruct s; [done|reflexivity]. Qed.

Lemma rstrip_by_keeps_head (p : ascii → bool) (c : ascii) (s : string) :
  p c = false → ∃ r, PyStr.rstrip_by p (String c s) = String c r.
Proof.
  intros Hc. simpl. destruct (PyStr.rstrip_by p s); rewrite ?Hc; eauto.
Qed.

Lemma strip_keeps_head (c : ascii) (s : string) :
  PyStr.is_space c = false → ∃ r, PyStr.strip (String c s) = String c r.
Proof.
  intros Hc. unfold PyStr.strip, PyStr.lstrip, PyStr.rstrip.
  simpl PyStr.lstrip_by. rewrite Hc. by apply rstrip_by_keeps_head.
Qed.

(** ** Header extractor *)

Lemma store_colon (h : gmap string string) (name value : string) :
  PyStr.contains ":" name = false →
  _store h (name +:+ String ":" value) =
    if PyStr.nonempty (PyStr.lower (PyStr.strip name))
    then <[PyStr.lower (PyStr.strip name) := PyStr.strip value]> h
    else h.
Proof.
  intros Hname. unfold _store.
  rewrite nonempty_app_char, contains_app_char, split1_app by done. simpl.
  by destruct (PyStr.nonempty _).
Qed.

Lemma store_no_colon (h : gmap string string) (raw : string) :
  PyStr.contains ":" raw = false → _store h raw = h.
Proof. intros Hraw. unfold _store. rewrite Hraw. by rewrite orb_true_r. Qed.

Lemma store_named (h : gmap string string) (raw : string) :
  named h → named (_store h raw).
Proof.
  intros Hh. unfold _store.
  destruct (_ || _); [done|]. destruct (PyStr.split1 ":" raw) as [name value].
  destruct (PyStr.nonempty _) eqn:Hne; simpl; [|done].
  unfold named. rewrite lookup_insert_ne; [done|].
  intros Heq. rewrite Heq in Hne. done.
Qed.

Lemma apply_header_named (h : gmap string string) (v : string) :
  named h → named (apply_header h v).
Proof. intros Hh. unfold apply_header. destruct (PyStr.nonempty v); auto using store_named. Qed.

Lemma apply_cookie_named (h : gmap string string) (v : string) :
  named h → named (apply_cookie h v).
Proof.
  intros Hh. unfold apply_cookie.
  destruct (PyStr.nonempty v); [|done]. destruct (_ && _); [|done].
  unfold named. by rewrite lookup_insert_ne.
Qed.

Lemma scan_named (n : nat) : ∀ (tokens : list string) (h : gmap string string),
  (length tokens ≤ n)%nat → named h → named (scan h tokens).
Proof.
  induction n as [|n IH]; intros [|token rest] h Hlen Hh; simpl in *;
    [done|lia|done|].
  destruct (classify token).
  - destruct rest as [|v rest']; [done|].
    apply IH; [simpl in *; lia|by apply apply_header_named].
  - apply IH; [lia|by apply apply_header_named].
  - destruct rest as [|v rest']; [done|].
    apply IH; [simpl in *; lia|by apply apply_cookie_named].
  - apply IH; [lia|by apply apply_cookie_named].
  - apply IH; [lia|done].
Qed.

Lemma parse_curl_headers_named (curl_command : string) :
  named (parse_curl_headers curl_command).
Proof.
  unfold parse_curl_headers.
  destruct (negb _); [apply lookup_empty|].
  destruct (Shlex.split _) as [tokens|]; [|apply lookup_empty].
  apply (scan_named (length tokens)); [done|apply lookup_empty].
Qed.

(** C5 (as amended).  A header value [Name: Value] is split at its first
    colon; the name is trimmed and lower-cased, the value trimmed, and the
    pair is stored whenever the name is not empty, also when the value is
    empty.  A value without a colon or with an empty name stores nothing, no
    command yields an entry with an empty name, and [-H 'Foo:'] adds the
    entry [foo] with the empty value. *)
Theorem store_requires_only_a_name (h : gmap string string) (name value : string) :
  PyStr.contains ":" name = false →
  (PyStr.lower (PyStr.strip name) ≠ EmptyString →
     _store h (name +:+ String ":" value)
       = <[PyStr.lower (PyStr.strip name) := PyStr.strip value]> h)
  ∧ (PyStr.lower (PyStr.strip name) = EmptyString →
       _store h (name +:+ String ":" value) = h)
  ∧ (∀ raw, PyStr.contains ":" raw = false → _store h raw = h)
  ∧ (∀ curl_command, parse_curl_headers curl_command !! EmptyString = None)
  ∧ parse_curl_headers "curl -H 'Foo:'" = {[ "foo" := EmptyString ]}.
Proof.
  intros Hname. rewrite store_colon by done.
  split; [|split; [|split; [|split]]].
  - intros Hkey%nonempty_true. by rewrite Hkey.
  - intros Hkey%nonempty_false. by rewrite Hkey.
  - intros raw. apply store_no_colon.
  - apply parse_curl_headers_named.
  - vm_compute. reflexivity.
Qed.

Lemma store_requires_only_a_name_witness :
  PyStr.contains ":" "Foo" = false
  ∧ _store ∅ "Foo:" = {[ "foo" := EmptyString ]}.
Proof.
  split; [reflexivity|].
  destruct (store_requires_only_a_name ∅ "Foo" EmptyString eq_refl) as [Hstore _].
  exact (eq_trans (Hstore ltac:(discriminate)) eq_refl).
Defined.

(** C5 (as stated) fails: the header flag [-H 'Foo:'] has an empty value after
    the colon and still adds an entry, so not every stored pair has a
    non-empty value. *)
Lemma empty_header_value_is_stored :
  parse_curl_headers "curl -H 'Foo:'" !! "foo" = Some EmptyString
  ∧ ¬ (∀ curl_command name value,
         parse_curl_headers curl_command !! name = Some value →
         name ≠ EmptyString ∧ value ≠ EmptyString).
Proof.
  assert (parse_curl_headers "curl -H 'Foo:'" !! "foo" = Some EmptyString) as Hfoo.
  { vm_compute. reflexivity. }
  split; [done|]. intros Hall. by destruct (Hall _ _ _ Hfoo).
Qed.

(** *** The spellings of the header and cookie flags *)

Lemma len_short_flag (a b c : ascii) (v : string) :
  (2 <? PyStr.len (String a (String b (String c v)))) = true.
Proof. apply Z.ltb_lt. unfold PyStr.len. simpl String.length. lia. Qed.

Lemma classify_short_header (c : ascii) (v : string) :
  classify ("-H" +:+ String c v) = HeaderHere (String c v).
Proof.
  unfold classify. cbv [String.append].
  rewrite len_short_flag. reflexivity.
Qed.

Lemma classify_long_header (v : string) :
  classify ("--header=" +:+ v) = HeaderHere v.
Proof. reflexivity. Qed.

Lemma classify_short_cookie (c : ascii) (v : string) :
  classify ("-b" +:+ String c v) = CookieHere (String c v).
Proof.
  unfold classify. cbv [String.append].
  rewrite len_short_flag. reflexivity.
Qed.

Lemma classify_long_cookie (v : string) :
  classify ("--cookie=" +:+ v) = CookieHere v.
Proof. reflexivity. Qed.

Lemma apply_cookie_at_sign (h : gmap string string) (v : string) :
  apply_cookie h (String "@" v) = h.
Proof.
  unfold apply_cookie. simpl PyStr.nonempty.
  destruct (strip_keeps_head "@" v eq_refl) as [r ->]. reflexivity.
Qed.

Lemma apply_cookie_stores (h : gmap string string) (v : string) :
  PyStr.nonempty (PyStr.strip v) = true →
  PyStr.startswith "@" (PyStr.strip v) = false →
  apply_cookie h v = <["cookie" := PyStr.strip v]> h.
Proof.
  intros Hne Hat. unfold apply_cookie.
  by rewrite (nonempty_strip _ Hne), Hne, Hat.
Qed.

(** C6.  All spellings of a flag family are treated alike.  With the same
    headers collected so far and the same tokens to follow, [-H VALUE],
    [-HVALUE], [--header VALUE] and [--header=VALUE] continue the scan from the
    same mapping, and so do [-b VALUE], [-bVALUE], [--cookie VALUE] and
    [--cookie=VALUE].  A header value is stored under its trimmed, lower-cased
    name, replacing what an earlier occurrence stored there; a cookie value
    fills the [cookie] key unless it begins with [@], in which case nothing is
    stored. *)
Theorem flag_spellings_agree (h : gmap string string) (c : ascii) (v : string)
    (rest : list string) :
  let value := String c v in
  (scan h ("-H" :: value :: rest) = scan (apply_header h value) rest
   ∧ scan h (("-H" +:+ value) :: rest) = scan (apply_header h value) rest
   ∧ scan h ("--header" :: value :: rest) = scan (apply_header h value) rest
   ∧ scan h (("--header=" +:+ value) :: rest) = scan (apply_header h value) rest)
  ∧ (scan h ("-b" :: value :: rest) = scan (apply_cookie h value) rest
     ∧ scan h (("-b" +:+ value) :: rest) = scan (apply_cookie h value) rest
     ∧ scan h ("--cookie" :: value :: rest) = scan (apply_cookie h value) rest
     ∧ scan h (("--cookie=" +:+ value) :: rest) = scan (apply_cookie h value) rest)
  ∧ apply_header h value = _store h (PyStr.strip value)
  ∧ (∀ name text,
        PyStr.contains ":" name = false →
        PyStr.lower (PyStr.strip name) ≠ EmptyString →
        _store h (name +:+ String ":" text) !! PyStr.lower (PyStr.strip name)
          = Some (PyStr.strip text))
  ∧ (PyStr.strip value ≠ EmptyString →
     PyStr.startswith "@" (PyStr.strip value) = false →
     apply_cookie h value !! "cookie" = Some (PyStr.strip value))
  ∧ apply_cookie h (String "@" v) = h
  ∧ (parse_curl_headers "curl -H 'Cookie: a=b'" = {[ "cookie" := "a=b" ]}
     ∧ parse_curl_headers "curl -H'Cookie: a=b'" = {[ "cookie" := "a=b" ]}
     ∧ parse_curl_headers "curl --header 'Cookie: a=b'" = {[ "cookie" := "a=b" ]}
     ∧ parse_curl_headers "curl --header='Cookie: a=b'" = {[ "cookie" := "a=b" ]})
  ∧ (parse_curl_headers "curl -b 'a=b'" = {[ "cookie" := "a=b" ]}
     ∧ parse_curl_headers "curl -ba=b" = {[ "cookie" := "a=b" ]}
     ∧ parse_curl_headers "curl --cookie 'a=b'" = {[ "cookie" := "a=b" ]}
     ∧ parse_curl_headers "curl --cookie=a=b" = {[ "cookie" := "a=b" ]}
     ∧ parse_curl_headers "curl -b @cookies.txt" = ∅)
  ∧ parse_curl_headers "curl -H 'X-Id: 1' -H 'x-id: 2'" = {[ "x-id" := "2" ]}.
Proof.
  intros value. subst value.
  split; [|split; [|split; [|split; [|split; [|split; [|split; [|split]]]]]]].
  - split; [reflexivity|]. split; [|split; reflexivity].
    simpl scan. by rewrite classify_short_header.
  - split; [reflexivity|]. split; [|split; reflexivity].
    simpl scan. by rewrite classify_short_cookie.
  - reflexivity.
  - intros name text Hname Hkey. rewrite store_colon by done.
    apply nonempty_true in Hkey. rewrite Hkey. apply lookup_insert_eq.
  - intros Hne%nonempty_true Hat.
    rewrite apply_cookie_stores by done. apply lookup_insert_eq.
  - apply apply_cookie_at_sign.
  - repeat split; vm_compute; reflexivity.
  - repeat split; vm_compute; reflexivity.
  - vm_compute. reflexivity.
Qed.

Lemma flag_spellings_agree_witness :
  PyStr.contains ":" " Cookie" = false
  ∧ PyStr.lower (PyStr.strip " Cookie") ≠ EmptyString
  ∧ _store {[ "cookie" := "old" ]} " Cookie: a=b " !! "cookie" = Some "a=b".
Proof.
  split; [reflexivity|]. split; [discriminate|].
  destruct (flag_spellings_agree {[ "cookie" := "old" ]} "x" EmptyString [])
    as (_ & _ & _ & Hstore & _).
  exact (Hstore " Cookie" " a=b " eq_refl ltac:(discriminate)).
Defined.

(** ** Header assembly *)

Lemma header_value_explicit (getenv : environ) (curl : gmap string string)
    (explicit : option string) (var key : string) :
  blank explicit = false →
  _header_value getenv curl explicit var key = PyStr.strip (default EmptyString explicit).
Proof.
  unfold blank, _header_value. intros Hb%negb_false_iff.
  by rewrite (nonempty_strip _ Hb), Hb.
Qed.

Lemma header_value_fallback (getenv : environ) (curl : gmap string string)
    (explicit : option string) (var key : string) :
  blank explicit = true →
  _header_value getenv curl explicit var key =
    if blank (getenv var) then PyStr.strip (default EmptyString (curl !! key))
    else PyStr.strip (default EmptyString (getenv var)).
Proof.
  unfold blank, _header_value. intros Hb%negb_true_iff.
  rewrite Hb, andb_false_r. cbv zeta.
  by destruct (PyStr.nonempty (PyStr.strip (default EmptyString (getenv var)))).
Qed.

(** C7.  Cookie and CSRF token are resolved by precedence: the explicit
    argument when it is not blank, else the environment variable when it is
    not blank, else the value extracted from the cURL snippet.  The user agent
    has no explicit argument: it is the environment variable, else the
    extracted value, else the built-in default.  A cookie that is still empty
    raises the error naming the cookie, whatever the CSRF token is; an empty
    CSRF token raises too, with the error naming the CSRF token when the
    cookie is present; when both are present the headers hold the resolved
    values. *)
Theorem build_headers_precedence (getenv : environ) (file : option string)
    (cookie_header csrf_token : option string) (segment_id : string) :
  let curl := _load_curl_headers file in
  let cookie :=
    _header_value getenv curl cookie_header "STRAVA_COOKIE_HEADER" "cookie" in
  let csrf :=
    _header_value getenv curl csrf_token "STRAVA_CSRF_TOKEN" "x-csrf-token" in
  let agent := user_agent_value getenv curl in
  let built := _build_headers getenv file cookie_header csrf_token segment_id in
  (∀ explicit var key,
      let v := _header_value getenv curl explicit var key in
      (blank explicit = false → v = PyStr.strip (default EmptyString explicit))
      ∧ (blank explicit = true → blank (getenv var) = false →
           v = PyStr.strip (default EmptyString (getenv var)))
      ∧ (blank explicit = true → blank (getenv var) = true →
           v = PyStr.strip (default EmptyString (curl !! key))))
  ∧ ((blank (getenv "STRAVA_USER_AGENT") = false →
        agent = PyStr.strip (default EmptyString (getenv "STRAVA_USER_AGENT")))
     ∧ (blank (getenv "STRAVA_USER_AGENT") = true →
        ∀ ua, curl !! "user-agent" = Some ua → ua ≠ EmptyString → agent = ua)
     ∧ (blank (getenv "STRAVA_USER_AGENT") = true →
        default EmptyString (curl !! "user-agent") = EmptyString →
        agent = DEFAULT_USER_AGENT))
  ∧ (cookie = EmptyString →
       built = Raise (ValueError "A Cookie header is required"))
  ∧ (cookie ≠ EmptyString → csrf = EmptyString →
       built = Raise (ValueError "A CSRF token is required"))
  ∧ (csrf = EmptyString → ∃ msg, built = Raise (ValueError msg))
  ∧ (cookie ≠ EmptyString → csrf ≠ EmptyString →
       ∃ headers, built = Ok headers
         ∧ headers !! "Cookie" = Some cookie
         ∧ headers !! "X-CSRF-Token" = Some csrf
         ∧ headers !! "User-Agent" = Some agent
         ∧ headers !! "Accept" = Some "application/javascript"
         ∧ headers !! "Referer" = Some ("https://www.strava.com/segments/" +:+ segment_id)
         ∧ headers !! "X-Requested-With" = Some "XMLHttpRequest").
Proof.
  intros curl cookie csrf agent built.
  split; [|split; [|split; [|split; [|split]]]].
  - intros explicit var key v. subst v. split; [|split].
    + apply header_value_explicit.
    + intros He Hv. by rewrite header_value_fallback, Hv.
    + intros He Hv. by rewrite header_value_fallback, Hv.
  - subst agent. unfold user_agent_value, blank. split; [|split].
    + intros Hb%negb_false_iff. by rewrite Hb.
    + intros Hb%negb_true_iff ua Hua Hne. rewrite Hb, Hua. simpl.
      apply nonempty_true in Hne. by rewrite Hne.
    + intros Hb%negb_true_iff Hua. by rewrite Hb, Hua.
  - intros Hc. subst built. unfold _build_headers. fold curl. fold cookie.
    by rewrite Hc.
  - intros Hc%nonempty_true Hs. subst built. unfold _build_headers.
    fold curl. fold cookie. fold csrf. by rewrite Hc, Hs.
  - intros Hs. subst built. unfold _build_headers.
    fold curl. fold cookie. fold csrf. rewrite Hs. simpl.
    destruct (negb (PyStr.nonempty cookie)); eauto.
  - intros Hc%nonempty_true Hs%nonempty_true. subst built. unfold _build_headers.
    fold curl. fold cookie. fold csrf. fold agent. rewrite Hc, Hs. simpl.
    eexists. split; [reflexivity|]. by simplify_map_eq.
Qed.

Lemma build_headers_precedence_witness :
  blank (Some "  ") = true
  ∧ blank (Some " from-env ") = false
  ∧ _header_value (λ _, Some " from-env ") ∅ (Some "  ") "STRAVA_COOKIE_HEADER" "cookie"
    = "from-env".
Proof.
  split; [reflexivity|]. split; [reflexivity|].
  destruct (build_headers_precedence (λ _, Some " from-env ") None None None "1")
    as (Hvalue & _).
  destruct (Hvalue (Some "  ") "STRAVA_COOKIE_HEADER" "cookie") as (_ & Henv & _).
  exact (Henv eq_refl eq_refl).
Defined.

(** ** Row formatter: the alternate fields of a metric *)

Lemma first_truthy_all_falsy (effort : effort_record) (names : list string) :
  (∀ n, n ∈ names → truthy (get effort n) = false) →
  first_truthy effort names = VStr EmptyString.
Proof.
  induction names as [|name rest IH]; intros Hall; simpl; [done|].
  unfold py_or. rewrite Hall by (apply elem_of_cons; by left).
  apply IH. intros n Hn. apply Hall. apply elem_of_cons. by right.
Qed.

Lemma first_truthy_first (effort : effort_record) (pre : list string)
    (name : string) (post : list string) :
  (∀ p, p ∈ pre → truthy (get effort p) = false) →
  truthy (get effort name) = true →
  first_truthy effort (pre ++ name :: post) = get effort name.
Proof.
  induction pre as [|p pre IH]; intros Hpre Hname; simpl.
  - unfold py_or. by rewrite Hname.
  - unfold py_or. rewrite Hpre by (apply elem_of_cons; by left).
    apply IH; [|done]. intros q Hq. apply Hpre. apply elem_of_cons. by right.
Qed.

Lemma row_fields_columns (segment_name_map : option (gmap string string))
    (navn_column : string) (key : string * string) (effort : effort_record)
    (fields : list string) :
  row_fields segment_name_map navn_column key effort = Ok fields →
  ∃ display elapsed url watts bpm cadence,
    fields = [key.2; display; navn_column; elapsed; url; watts; bpm; cadence]
    ∧ _format_elapsed_time (get effort "elapsed_time") = Ok elapsed
    ∧ _round_metric (first_truthy effort WATTS_FIELDS) = Ok watts
    ∧ _round_metric (first_truthy effort BPM_FIELDS) = Ok bpm
    ∧ _round_metric (first_truthy effort CADENCE_FIELDS) = Ok cadence.
Proof.
  unfold row_fields. destruct key as [segment_id_str year].
  destruct (_format_elapsed_time _) as [elapsed|]; run_bind; [|done].
  destruct (_round_metric (first_truthy effort WATTS_FIELDS)) as [watts|]; run_bind; [|done].
  destruct (_round_metric (first_truthy effort BPM_FIELDS)) as [bpm|]; run_bind; [|done].
  destruct (_round_metric (first_truthy effort CADENCE_FIELDS)) as [cadence|]; run_bind; [|done].
  intros [= <-]. by repeat eexists.
Qed.

(** C10.  The lookup of a metric takes the first candidate field whose value
    is truthy; a falsy value, the number 0 included, is passed over.  If the
    fields before some field are all falsy and that field is truthy, its value
    is used; if every candidate is absent, empty or 0, the lookup gives the
    empty string and the metric column is empty, not "0".  The three metric
    columns of a row are computed from these lookups. *)
Theorem metric_lookup_skips_falsy (effort : effort_record) :
  (∀ name rest,
      first_truthy effort (name :: rest) =
        if truthy (get effort name) then get effort name
        else first_truthy effort rest)
  ∧ (truthy (VInt 0) = false ∧ truthy (VFloat (S754_zero false)) = false
     ∧ truthy (VStr EmptyString) = false ∧ truthy VNone = false
     ∧ ∀ name, (∀ v, (name, v) ∉ effort) → get effort name = VNone)
  ∧ (∀ pre name post,
        (∀ p, p ∈ pre → truthy (get effort p) = false) →
        truthy (get effort name) = true →
        first_truthy effort (pre ++ name :: post) = get effort name)
  ∧ (∀ names,
        (∀ n, n ∈ names → truthy (get effort n) = false) →
        first_truthy effort names = VStr EmptyString
        ∧ _round_metric (first_truthy effort names) = Ok EmptyString)
  ∧ (∀ segment_name_map navn_column key fields,
        row_fields segment_name_map navn_column key effort = Ok fields →
        ∃ watts bpm cadence,
          fields !! 5%nat = Some watts ∧ fields !! 6%nat = Some bpm
          ∧ fields !! 7%nat = Some cadence
          ∧ _round_metric (first_truthy effort WATTS_FIELDS) = Ok watts
          ∧ _round_metric (first_truthy effort BPM_FIELDS) = Ok bpm
          ∧ _round_metric (first_truthy effort CADENCE_FIELDS) = Ok cadence)
  ∧ row_fields None "NAVN" ("1", "2024")
      [("elapsed_time", VInt 60); ("average_watts", VInt 0); ("avg_watts", VInt 250);
       ("average_heartrate", VInt 0); ("avg_hr", VStr EmptyString)]
    = Ok ["2024"; "1"; "NAVN"; "01:00"; EmptyString; "250"; EmptyString; EmptyString].
Proof.
  split; [|split; [|split; [|split; [|split]]]].
  - reflexivity.
  - repeat split. intros name Hname.
    induction effort as [|[k v] d IH]; simpl; [done|].
    destruct (String.eqb k name) eqn:Hk.
    + apply String.eqb_eq in Hk as ->. exfalso. apply (Hname v). by left.
    + apply IH. intros w Hw. apply (Hname w). by right.
  - apply first_truthy_first.
  - intros names Hall. by rewrite first_truthy_all_falsy.
  - intros m navn key fields Hrow.
    destruct (row_fields_columns _ _ _ _ _ Hrow)
      as (display & elapsed & url & watts & bpm & cadence & -> & _ & Hw & Hb & Hc).
    by exists watts, bpm, cadence.
  - vm_compute. reflexivity.
Qed.

Lemma metric_lookup_skips_falsy_witness :
  let effort := [("average_watts", VInt 0); ("avg_watts", VInt 250)] in
  (∀ p, p ∈ ["average_watts"] → truthy (get effort p) = false)
  ∧ truthy (get effort "avg_watts") = true
  ∧ first_truthy effort WATTS_FIELDS = VInt 250.
Proof.
  intros effort.
  assert (∀ p, p ∈ ["average_watts"] → truthy (get effort p) = false) as Hpre.
  { intros p ->%list_elem_of_singleton. reflexivity. }
  split; [exact Hpre|]. split; [reflexivity|].
  destruct (metric_lookup_skips_falsy effort) as (_ & _ & Hfirst & _).
  exact (Hfirst ["average_watts"] "avg_watts" ["watts"] Hpre eq_refl).
Defined.

(** ** Row formatter: elapsed time *)

(** [round] gives a nearest integer and picks the even one on a tie. *)
Lemma round_half_even_nearest (s : bool) (m : positive) (e : Z) :
  ∃ n, PyFloat.round_half_even (S754_finite s m e) = Ok n
    ∧ (0 <= e → n = (if s then - Zpos m else Zpos m) * 2 ^ e)
    ∧ (e < 0 →
         2 * Z.abs (n * 2 ^ (- e) - (if s then - Zpos m else Zpos m)) <= 2 ^ (- e)
         ∧ (2 * Z.abs (n * 2 ^ (- e) - (if s then - Zpos m else Zpos m)) = 2 ^ (- e) →
            Z.even n = true)).
Proof.
  unfold PyFloat.round_half_even. eexists. split; [reflexivity|].
  destruct (0 <=? e) eqn:He.
  - apply Z.leb_le in He. split; [|lia]. intros _. destruct s; lia.
  - apply Z.leb_gt in He. split; [lia|]. intros _.
    set (d := 2 ^ (- e)).
    assert (0 < d) as Hd by (apply Z.pow_pos_nonneg; lia).
    pose proof (Z.div_mod (Zpos m) d ltac:(lia)) as Hdm.
    pose proof (Z.mod_pos_bound (Zpos m) d Hd) as Hr.
    set (q := Zpos m / d) in *. set (r := Zpos m mod d) in *.
    clearbody q r d.
    assert (∀ n0, Z.even (if s then - n0 else n0) = Z.even n0) as Hev.
    { intros n0. destruct s; [apply Z.even_opp|done]. }
    assert (∀ n0, Z.abs ((if s then - n0 else n0) * d - (if s then - Zpos m else Zpos m))
                  = Z.abs (n0 * d - Zpos m)) as Habs.
    { intros n0. destruct s; [|done]. rewrite <- Z.abs_opp. f_equal. lia. }
    destruct (2 * r ?= d) eqn:Hc; rewrite Habs, Hev.
    + apply Z.compare_eq in Hc.
      destruct (Z.even q) eqn:Hq.
      * split; [|done]. replace (q * d - Zpos m) with (- r) by lia. lia.
      * split; [replace ((q + 1) * d - Zpos m) with (d - r) by lia; lia|].
        intros _. rewrite Z.even_add, Hq. reflexivity.
    + change (2 * r < d) in Hc.
      replace (q * d - Zpos m) with (- r) by lia.
      split; [lia|intros ?; exfalso; lia].
    + apply Z.compare_gt_iff in Hc.
      replace ((q + 1) * d - Zpos m) with (d - r) by lia.
      split; [lia|intros ?; exfalso; lia].
Qed.

Lemma fmt_02d_two_digits (k : Z) :
  0 <= k < 100 → String.length (fmt_02d k) = 2%nat.
Proof.
  intros Hk.
  assert (forallb (λ i, Nat.eqb (String.length (fmt_02d (Z.of_nat i))) 2) (seq 0 100)
          = true) as Hall by (vm_compute; reflexivity).
  rewrite forallb_forall in Hall.
  specialize (Hall (Z.to_nat k)). rewrite Z2Nat.id in Hall by lia.
  apply Nat.eqb_eq, Hall, in_seq. lia.
Qed.

(** C3 (as amended).  A float elapsed time is rounded to a nearest whole
    second, and on a tie to the even one, as the built-in [round] does; an
    [int] is taken as it is.  The seconds are shown as minutes and remaining
    seconds, each padded with a zero to two digits; 83 gives "01:23", and a
    missing elapsed time gives the empty string, not "00:00". *)
Theorem elapsed_time_rounds_half_even (s : bool) (m : positive) (e : Z) :
  (∃ n, _format_elapsed_time (VFloat (S754_finite s m e)) = Ok (mmss n)
     ∧ (0 <= e → n = (if s then - Zpos m else Zpos m) * 2 ^ e)
     ∧ (e < 0 →
          2 * Z.abs (n * 2 ^ (- e) - (if s then - Zpos m else Zpos m)) <= 2 ^ (- e)
          ∧ (2 * Z.abs (n * 2 ^ (- e) - (if s then - Zpos m else Zpos m)) = 2 ^ (- e) →
             Z.even n = true)))
  ∧ (∀ z, _format_elapsed_time (VInt z) = Ok (mmss z))
  ∧ (∀ k, 0 <= k < 100 → String.length (fmt_02d k) = 2%nat)
  ∧ (∀ z, 0 <= z mod 60 < 100)
  ∧ _format_elapsed_time (VInt 83) = Ok "01:23"
  ∧ _format_elapsed_time VNone = Ok EmptyString
  ∧ (∀ x, PyFloat.parse "83.5" = Some x → _format_elapsed_time (VFloat x) = Ok "01:24")
  ∧ (∀ x, PyFloat.parse "84.5" = Some x → _format_elapsed_time (VFloat x) = Ok "01:24").
Proof.
  split; [|split; [|split; [|split; [|split; [|split; [|split]]]]]].
  - destruct (round_half_even_nearest s m e) as (n & Hn & Hnear).
    exists n. split; [|done].
    unfold _format_elapsed_time, py_round. rewrite Hn. reflexivity.
  - reflexivity.
  - apply fmt_02d_two_digits.
  - intros z. pose proof (Z.mod_pos_bound z 60). lia.
  - reflexivity.
  - reflexivity.
  - intros x Hx. vm_compute in Hx. injection Hx as <-. vm_compute. reflexivity.
  - intros x Hx. vm_compute in Hx. injection Hx as <-. vm_compute. reflexivity.
Qed.

Lemma elapsed_time_rounds_half_even_witness :
  -51 < 0
  ∧ ∃ n, _format_elapsed_time (VFloat two_and_a_half) = Ok (mmss n)
       ∧ 2 * Z.abs (n * 2 ^ 51 - 5629499534213120) <= 2 ^ 51.
Proof.
  split; [lia|].
  destruct (elapsed_time_rounds_half_even false 5629499534213120 (-51))
    as ((n & Hfmt & _ & Hnear) & _).
  destruct (Hnear ltac:(lia)) as [Hle _].
  exists n. split; [exact Hfmt|exact Hle].
Defined.

(** C3 (as stated) fails: an elapsed time of 2.5 seconds is a tie, half-up
    rounding takes it to 3 seconds, and the formatter shows 2. *)
Lemma elapsed_time_tie_goes_to_even :
  PyFloat.parse "2.5" = Some two_and_a_half
  ∧ _format_elapsed_time (VFloat two_and_a_half) = Ok "00:02"
  ∧ mmss (round_half_up two_and_a_half) = "00:03"
  ∧ ¬ (∀ s m e,
         _format_elapsed_time (VFloat (S754_finite s m e))
         = Ok (mmss (round_half_up (S754_finite s m e)))).
Proof.
  split; [vm_compute; reflexivity|].
  split; [vm_compute; reflexivity|].
  split; [vm_compute; reflexivity|].
  intros Hall. specialize (Hall false 5629499534213120%positive (-51)).
  vm_compute in Hall. discriminate.
Qed.

(** ** Row formatter: metric rounding *)






Lemma round_metric_unfold (v : value) :
  _round_metric v =
    match PyDecimal.parse (py_str v) with
    | None => Ok EmptyString
    | Some decimal_value =>
        match PyDecimal.to_integral_half_up decimal_value with
        | None => Ok EmptyString
        | Some rounded => n ← PyDecimal.to_int rounded; Ok (Lit.str_of_Z n)
        end
    end.
Proof. destruct v as [| | | |[|c s]| |]; reflexivity. Qed.



(** ** Effort reducer *)

Section Reducer.

Variable SEGMENT_ID : string.

Implicit Types (st : reducer) (effort : effort_record) (efforts : list effort_record).
Implicit Types (key : string * string) (keys : list (string * string)).

Lemma first_appearance_elem keys key :
  key ∈ first_appearance keys ↔ key ∈ keys.
Proof.
  induction keys as [|k keys IH]; simpl; [done|].
  rewrite !elem_of_cons, list_elem_of_filter, IH.
  destruct (decide (key = k)); tauto.
Qed.

Lemma first_appearance_NoDup keys : NoDup (first_appearance keys).
Proof.
  induction keys as [|k keys IH]; simpl; [apply NoDup_nil_2|].
  apply NoDup_cons. split; [|by apply NoDup_filter].
  rewrite list_elem_of_filter. tauto.
Qed.

Lemma first_appearance_snoc keys key :
  first_appearance (keys ++ [key]) =
    if decide (key ∈ keys) then first_appearance keys
    else first_appearance keys ++ [key].
Proof.
  induction keys as [|k keys IH]; simpl.
  { destruct (decide (key ∈ [])) as [Hin|]; [|done]. by apply elem_of_nil in Hin. }
  rewrite IH. destruct (decide (key = k)) as [->|Hne].
  - destruct (decide (k ∈ k :: keys)) as [_|Hnin];
      [|exfalso; apply Hnin, elem_of_cons; by left].
    destruct (decide (k ∈ keys)); [done|].
    rewrite filter_app, filter_cons_False by tauto.
    by rewrite filter_nil, app_nil_r.
  - destruct (decide (key ∈ keys)) as [Hin|Hnin].
    + destruct (decide (key ∈ k :: keys)) as [_|Hnin]; [done|].
      exfalso. apply Hnin, elem_of_cons. by right.
    + destruct (decide (key ∈ k :: keys)) as [[?|?]%elem_of_cons|_]; [done..|].
      rewrite filter_app, filter_cons_True by done.
      by rewrite filter_nil.
Qed.

Lemma retained_from_snoc key efforts : ∀ kept effort,
  retained_from SEGMENT_ID key kept (efforts ++ [effort]) =
    retain SEGMENT_ID key (retained_from SEGMENT_ID key kept efforts) effort.
Proof. induction efforts as [|e efforts IH]; intros kept effort; simpl; [done|apply IH]. Qed.

Lemma retained_from_in key efforts : ∀ kept current,
  retained_from SEGMENT_ID key kept efforts = Some current →
  kept = Some current
  ∨ (current ∈ efforts ∧ key_of SEGMENT_ID current = key).
Proof.
  induction efforts as [|e efforts IH]; intros kept current; simpl; [by left|].
  intros [Hkept|[Hin Hkey]]%IH.
  - unfold retain in Hkept. destruct (decide _) as [Hk|]; [|by left].
    destruct kept as [c|].
    + destruct (PyFloat.ltb _ _); [|by left].
      injection Hkept as <-. right. split; [apply elem_of_cons; by left|done].
    + injection Hkept as <-. right. split; [apply elem_of_cons; by left|done].
  - right. split; [apply elem_of_cons; by right|done].
Qed.

Lemma retained_from_none key efforts : ∀ kept,
  retained_from SEGMENT_ID key kept efforts = None ↔
  kept = None ∧ key ∉ map (key_of SEGMENT_ID) efforts.
Proof.
  induction efforts as [|e efforts IH]; intros kept; simpl.
  - split; [intros ->; split; [done|apply not_elem_of_nil]|by intros [-> _]].
  - rewrite IH, not_elem_of_cons. unfold retain.
    destruct (decide (key_of SEGMENT_ID e = key)) as [Hk|Hk].
    + split; [|intros (_ & Hne & _); by destruct Hne].
      intros [Hnone _]. destruct kept; [destruct (PyFloat.ltb _ _)|]; done.
    + split; [intros [? ?]; by repeat split|tauto].
Qed.

Lemma retained_is_some key efforts :
  is_Some (retained SEGMENT_ID key efforts) ↔ key ∈ map (key_of SEGMENT_ID) efforts.
Proof.
  rewrite <- not_eq_None_Some. unfold retained. rewrite retained_from_none.
  split.
  - intros Hnot. destruct (decide (key ∈ map (key_of SEGMENT_ID) efforts)); [done|].
    by destruct Hnot.
  - intros Hin [_ Hnin]. done.
Qed.

Lemma readable_key effort :
  readable SEGMENT_ID effort = true →
  effort_key SEGMENT_ID effort = Ok (key_of SEGMENT_ID effort).
Proof.
  unfold readable, key_of. intros [Hk _]%andb_true_iff.
  by destruct (effort_key SEGMENT_ID effort).
Qed.

Lemma readable_elapsed effort :
  readable SEGMENT_ID effort = true →
  _elapsed_seconds (get effort "elapsed_time") = Ok (elapsed_of effort).
Proof.
  unfold readable, elapsed_of. intros [_ He]%andb_true_iff.
  by destruct (_elapsed_seconds _).
Qed.

Lemma reduce_step_reduced st seen effort :
  reduced SEGMENT_ID st seen →
  forallb (readable SEGMENT_ID) seen = true →
  readable SEGMENT_ID effort = true →
  ∃ st', reduce_step SEGMENT_ID st effort = Ok st' ∧ reduced SEGMENT_ID st' (seen ++ [effort]).
Proof.
  intros [Horder Hbest] Hseen Heff. unfold reduce_step.
  rewrite (readable_key _ Heff). run_bind.
  set (key := key_of SEGMENT_ID effort).
  assert (∀ k, k ≠ key → retained SEGMENT_ID k (seen ++ [effort])
                         = retained SEGMENT_ID k seen) as Hother.
  { intros k Hk. unfold retained. rewrite retained_from_snoc. unfold retain.
    by rewrite decide_False. }
  destruct (best_by_year st !! key) as [existing|] eqn:Hlook.
  - rewrite Hbest in Hlook.
    assert (key ∈ map (key_of SEGMENT_ID) seen) as Hin.
    { apply retained_is_some. by rewrite Hlook. }
    destruct (retained_from_in _ _ _ _ Hlook) as [?|[Hex _]]; [done|].
    assert (readable SEGMENT_ID existing = true) as Hexr.
    { rewrite forallb_forall in Hseen. apply Hseen. by apply list_elem_of_In. }
    rewrite (readable_elapsed _ Heff), (readable_elapsed _ Hexr). run_bind.
    assert (first_appearance (map (key_of SEGMENT_ID) (seen ++ [effort]))
            = order st) as Horder'.
    { rewrite map_app. simpl. rewrite first_appearance_snoc.
      by rewrite decide_True. }
    assert (retained SEGMENT_ID key (seen ++ [effort]) =
            if PyFloat.ltb (elapsed_of effort) (elapsed_of existing)
            then Some effort else Some existing) as Hkey.
    { unfold retained in *. rewrite retained_from_snoc, Hlook. unfold retain.
      by rewrite decide_True. }
    destruct (PyFloat.ltb _ _); eexists; (split; [reflexivity|]).
    + split; [done|]. intros k. simpl. destruct (decide (k = key)) as [->|Hk].
      * by rewrite lookup_insert_eq.
      * rewrite lookup_insert_ne by done. by rewrite Hother.
    + split; [done|]. intros k. destruct (decide (k = key)) as [->|Hk].
      * by rewrite Hbest, Hkey.
      * by rewrite Hother.
  - rewrite Hbest in Hlook.
    assert (key ∉ map (key_of SEGMENT_ID) seen) as Hnin.
    { intros Hin%retained_is_some. rewrite Hlook in Hin. by destruct Hin. }
    eexists. split; [reflexivity|]. split; simpl.
    + rewrite map_app. simpl. rewrite first_appearance_snoc.
      rewrite decide_False by done. by rewrite Horder.
    + intros k. destruct (decide (k = key)) as [->|Hk].
      * rewrite lookup_insert_eq. unfold retained in *.
        rewrite retained_from_snoc, Hlook. unfold retain. by rewrite decide_True.
      * rewrite lookup_insert_ne by done. by rewrite Hother.
Qed.

Lemma reduce_from_reduced efforts : ∀ st seen,
  reduced SEGMENT_ID st seen →
  forallb (readable SEGMENT_ID) seen = true →
  forallb (readable SEGMENT_ID) efforts = true →
  ∃ st', reduce_from SEGMENT_ID st efforts = Ok st' ∧ reduced SEGMENT_ID st' (seen ++ efforts).
Proof.
  induction efforts as [|effort efforts IH]; intros st seen Hred Hseen Hall; simpl.
  - exists st. by rewrite app_nil_r.
  - apply andb_true_iff in Hall as [Heff Hall].
    destruct (reduce_step_reduced st seen effort Hred Hseen Heff) as (st1 & -> & Hred1).
    run_bind.
    destruct (IH st1 (seen ++ [effort]) Hred1) as (st' & Hst' & Hred'); [|done|].
    { rewrite forallb_app, Hseen. simpl. by rewrite Heff. }
    exists st'. by rewrite <- app_assoc in Hred'.
Qed.

Lemma format_rows_each segment_name_map navn_column best keys : ∀ rows,
  format_rows segment_name_map navn_column best keys = Ok rows →
  Forall2 (λ key row, ∃ effort,
             best !! key = Some effort
             ∧ format_row segment_name_map navn_column key effort = Ok row)
          keys rows.
Proof.
  induction keys as [|key keys IH]; intros rows; simpl.
  { intros [= <-]. apply Forall2_nil_2. }
  destruct (best !! key) as [effort|] eqn:Hbest; [|done].
  destruct (format_row _ _ _ _) as [row|] eqn:Hrow; run_bind; [|done].
  destruct (format_rows _ _ _ keys) as [rows'|]; run_bind; [|done].
  intros [= <-]. apply Forall2_cons. split; [by exists effort|by apply IH].
Qed.

End Reducer.

Lemma ltb_irrefl (x : spec_float) : PyFloat.ltb x x = false.
Proof.
  unfold PyFloat.ltb, SFltb, SFcompare.
  destruct x as [[]|[]| |[] m e]; try reflexivity;
    rewrite Z.compare_refl, Pos.compare_cont_refl; reflexivity.
Qed.


(** C1.  When the key and the elapsed time of every effort can be read, the
    reducer returns, and: the keys it lists are the distinct keys of the input
    in the order of their first appearance; the record it retains for a key
    is the first record of that key, replaced by a later record of the key
    only when that record's elapsed time, as a float with non-numeric and
    absent values read as positive infinity, is strictly less than that of the
    record retained so far, so that a tie keeps the earlier record; and the
    rows returned are one per listed key, each the row of the record retained
    for its key.  For the three efforts of the
    example the rows are those of the 120 s effort of segment 123 and of the
    200 s effort of segment 999, in this order. *)
Theorem reducer_keeps_first_seen_fastest (SEGMENT_ID : string)
    (efforts : list effort_record) :
  forallb (readable SEGMENT_ID) efforts = true →
  (∃ st, reduce_efforts SEGMENT_ID efforts = Ok st
     ∧ order st = first_appearance (map (key_of SEGMENT_ID) efforts)
     ∧ NoDup (order st)
     ∧ (∀ key, key ∈ order st ↔ key ∈ map (key_of SEGMENT_ID) efforts)
     ∧ (∀ key, best_by_year st !! key = retained SEGMENT_ID key efforts)
     ∧ (∀ key, key ∈ order st ↔ is_Some (best_by_year st !! key))
     ∧ (∀ segment_name_map navn_value rows,
           efforts_to_sheet_rows SEGMENT_ID efforts segment_name_map navn_value
             = Ok rows →
           length rows = length (order st)
           ∧ Forall2 (λ key row, ∃ effort,
                        retained SEGMENT_ID key efforts = Some effort
                        ∧ format_row segment_name_map (navn_column_of navn_value)
                            key effort = Ok row)
                     (order st) rows))
  ∧ (∀ key kept effort,
        retain SEGMENT_ID key (Some kept) effort =
          if decide (key_of SEGMENT_ID effort = key)
          then if PyFloat.ltb (elapsed_of effort) (elapsed_of kept)
               then Some effort else Some kept
          else Some kept)
  ∧ (∀ key kept effort,
        elapsed_of effort = elapsed_of kept →
        retain SEGMENT_ID key (Some kept) effort = Some kept)
  ∧ ((∀ effort, get effort "elapsed_time" = VNone → elapsed_of effort = PyFloat.inf)
     ∧ (∀ effort text,
           get effort "elapsed_time" = VStr text → PyFloat.parse text = None →
           elapsed_of effort = PyFloat.inf)
     ∧ (∀ effort items,
           get effort "elapsed_time" = VList items → elapsed_of effort = PyFloat.inf)
     ∧ elapsed_of [("elapsed_time", VStr "abc")] = PyFloat.inf
     ∧ elapsed_of [] = PyFloat.inf
     ∧ elapsed_of [("elapsed_time", VStr "120")] = elapsed_of [("elapsed_time", VInt 120)])
  ∧ efforts_to_sheet_rows DEFAULT_SEGMENT_ID example_efforts None None
    = Ok [PyStr.join TAB ["2024"; "123"; "NAVN"; "02:00";
                          "https://www.strava.com/segment_efforts/2";
                          EmptyString; EmptyString; EmptyString];
          PyStr.join TAB ["2024"; "999"; "NAVN"; "03:20";
                          "https://www.strava.com/segment_efforts/3";
                          EmptyString; EmptyString; EmptyString]].
Proof.
  intros Hall. split; [|split; [|split; [|split]]].
  - destruct (reduce_from_reduced SEGMENT_ID efforts reducer_init [])
      as (st & Hst & Horder & Hbest); [|done|done|].
    { split; [done|]. intros key. apply lookup_empty. }
    simpl in Horder, Hbest.
    exists st. split; [done|]. split; [done|].
    split; [rewrite Horder; apply first_appearance_NoDup|].
    split; [intros key; rewrite Horder; apply first_appearance_elem|].
    split; [done|]. split.
    + intros key. rewrite Horder, first_appearance_elem, Hbest.
      symmetry. apply retained_is_some.
    + intros segment_name_map navn_value rows.
      unfold efforts_to_sheet_rows, reduce_efforts. rewrite Hst. run_bind.
      intros Hrows%format_rows_each.
      split; [symmetry; by eapply Forall2_length|].
      eapply Forall2_impl; [exact Hrows|]. simpl.
      intros key row (effort & Hlook & Hrow). exists effort.
      by rewrite <- Hbest.
  - intros key kept effort. unfold retain.
    destruct (decide _); [|done]. by destruct (PyFloat.ltb _ _).
  - intros key kept effort Htie. unfold retain.
    rewrite Htie, ltb_irrefl. by destruct (decide _).
  - split; [|split; [|split; [|repeat split; vm_compute; reflexivity]]].
    + intros effort Hget. unfold elapsed_of. by rewrite Hget.
    + intros effort text Hget Hparse. unfold elapsed_of, _elapsed_seconds, py_float.
      by rewrite Hget, Hparse.
    + intros effort items Hget. unfold elapsed_of. by rewrite Hget.
  - vm_compute. reflexivity.
Qed.

Lemma reducer_keeps_first_seen_fastest_witness :
  forallb (readable DEFAULT_SEGMENT_ID) example_efforts = true
  ∧ ∃ st, reduce_efforts DEFAULT_SEGMENT_ID example_efforts = Ok st
        ∧ order st = first_appearance (map (key_of DEFAULT_SEGMENT_ID) example_efforts)
        ∧ ∀ key, best_by_year st !! key = retained DEFAULT_SEGMENT_ID key example_efforts.
Proof.
  assert (forallb (readable DEFAULT_SEGMENT_ID) example_efforts = true) as Hall
    by (vm_compute; reflexivity).
  split; [exact Hall|].
  destruct (reducer_keeps_first_seen_fastest DEFAULT_SEGMENT_ID example_efforts Hall)
    as ((st & Hst & Horder & _ & _ & Hbest & _) & _).
  exists st. split; [exact Hst|]. split; [exact Horder|exact Hbest].
Defined.

(** ** Row formatter: a malformed elapsed time *)

Lemma format_rows_raises (segment_name_map : option (gmap string string))
    (navn_column : string) (best : gmap (string * string) effort_record)
    (keys : list (string * string)) (key : string * string) (effort : effort_record)
    (e : exn) :
  key ∈ keys →
  best !! key = Some effort →
  format_row segment_name_map navn_column key effort = Raise e →
  ∃ e', format_rows segment_name_map navn_column best keys = Raise e'.
Proof.
  intros Hin Hbest Hrow.
  induction keys as [|k keys IH]; [by apply elem_of_nil in Hin|]. simpl.
  destruct (best !! k) as [effort'|] eqn:Hk; [|by eexists].
  destruct (format_row segment_name_map navn_column k effort') as [row|e1] eqn:Hrow';
    run_bind; [|by eexists].
  apply elem_of_cons in Hin as [->|Hin]; [congruence|].
  destruct (IH Hin) as [e' ->]. run_bind. by eexists.
Qed.

Lemma format_row_text_elapsed (segment_name_map : option (gmap string string))
    (navn_column : string) (key : string * string) (effort : effort_record)
    (text : string) :
  get effort "elapsed_time" = VStr text →
  format_row segment_name_map navn_column key effort = Raise TypeError.
Proof.
  intros Hget. unfold format_row, row_fields. destruct key as [segment_id_str year].
  rewrite Hget. reflexivity.
Qed.

(** C2.  The claim does not hold of the code.  The reducer tolerates an
    elapsed time that is not a number, but the formatter passes it to [round],
    which raises [TypeError]: whenever a retained record has a text as its
    elapsed time, [efforts_to_sheet_rows] raises and returns no row at all,
    also for the well-formed records of the same input. *)
Theorem malformed_elapsed_time_aborts (SEGMENT_ID : string)
    (segment_name_map : option (gmap string string)) (navn_value : option string) :
  _elapsed_seconds (VStr "abc") = Ok PyFloat.inf
  ∧ _format_elapsed_time (VStr "abc") = Raise TypeError
  ∧ is_ok (reduce_efforts SEGMENT_ID [malformed_effort; sound_effort]) = true
  ∧ efforts_to_sheet_rows SEGMENT_ID [malformed_effort] segment_name_map navn_value
    = Raise TypeError
  ∧ efforts_to_sheet_rows SEGMENT_ID [malformed_effort; sound_effort]
      segment_name_map navn_value = Raise TypeError
  ∧ efforts_to_sheet_rows SEGMENT_ID [sound_effort; malformed_effort]
      segment_name_map navn_value = Raise TypeError
  ∧ is_ok (efforts_to_sheet_rows SEGMENT_ID [sound_effort] segment_name_map navn_value)
    = true
  ∧ (∀ efforts st key effort text,
        reduce_efforts SEGMENT_ID efforts = Ok st →
        key ∈ order st →
        best_by_year st !! key = Some effort →
        get effort "elapsed_time" = VStr text →
        ∃ e, efforts_to_sheet_rows SEGMENT_ID efforts segment_name_map navn_value
             = Raise e).
Proof.
  split; [reflexivity|]. split; [reflexivity|].
  split; [vm_compute; reflexivity|].
  split; [vm_compute; reflexivity|].
  split; [vm_compute; reflexivity|].
  split; [vm_compute; reflexivity|].
  split; [vm_compute; reflexivity|].
  intros efforts st key effort text Hst Hin Hbest Hget.
  unfold efforts_to_sheet_rows. rewrite Hst. run_bind.
  eapply format_rows_raises; [done..|].
  by eapply format_row_text_elapsed.
Qed.

(** ** Sheet metadata mapper: [_segment_id_from_link] *)

Lemma contains_lstrip_by (p : ascii → bool) (ch : ascii) (s : string) :
  PyStr.contains ch s = false → PyStr.contains ch (PyStr.lstrip_by p s) = false.
Proof.
  induction s as [|c s IH]; simpl; [done|].
  intros [Hc Hs]%orb_false_iff. destruct (p c); [by apply IH|].
  simpl. by rewrite Hc, Hs.
Qed.

Lemma contains_rstrip_by (p : ascii → bool) (ch : ascii) (s : string) :
  PyStr.contains ch s = false → PyStr.contains ch (PyStr.rstrip_by p s) = false.
Proof.
  induction s as [|c s IH]; simpl; [done|].
  intros [Hc Hs]%orb_false_iff. specialize (IH Hs).
  destruct (PyStr.rstrip_by p s) as [|c' r].
  - destruct (p c); simpl; [done|]. by rewrite Hc.
  - simpl in *. by rewrite Hc, IH.
Qed.

Lemma contains_last_part (sep ch : ascii) (s : string) :
  PyStr.contains ch s = false → PyStr.contains ch (PyStr.last_part sep s) = false.
Proof.
  induction s as [|c s IH]; simpl; [done|].
  intros [Hc Hs]%orb_false_iff.
  destruct (PyStr.contains sep s); [by apply IH|].
  destruct (Ascii.eqb c sep); [done|]. simpl. by rewrite Hc, Hs.
Qed.

Lemma contains_strip (ch : ascii) (s : string) :
  PyStr.contains ch s = false → PyStr.contains ch (PyStr.strip s) = false.
Proof. intros Hs. by apply contains_rstrip_by, contains_lstrip_by. Qed.

(** On a link without query string and fragment the function is the one the
    specification describes. *)
Lemma segment_id_plain_link (link : string) :
  PyStr.contains "?" link = false →
  PyStr.contains "#" link = false →
  _segment_id_from_link link = segment_id_of_url link.
Proof.
  intros Hq Hf. unfold _segment_id_from_link, segment_id_of_url.
  pose proof (contains_strip _ _ Hq) as Hq'.
  pose proof (contains_strip _ _ Hf) as Hf'.
  rewrite (split1_no_sep "#" _ Hf'). simpl fst.
  rewrite (split1_no_sep "?" _ Hq'). simpl fst.
  destruct (PyStr.nonempty link) eqn:Hl; simpl.
  - destruct (PyStr.nonempty (PyStr.strip link)) eqn:Hc; simpl.
    + unfold PyStr.rstrip_char.
      rewrite (contains_last_part "/" "?"), (contains_last_part "/" "#");
        by try apply contains_rstrip_by.
    + apply nonempty_false in Hc. by rewrite Hc.
  - apply nonempty_false in Hl. by rewrite Hl.
Qed.

(** C8.  The claim does not hold of the code.  The function cuts the query
    string and the fragment only from the text after the last slash, so a
    slash just before the query string, or inside it, changes which path
    segment is taken: for [.../segments/123/?filter=overall] it returns the
    empty string, where the last path segment of the link without its query
    string is 123.  On a link without query string and fragment, and on the
    common forms with them, it returns what the specification describes, and
    what it returns is always empty or a string of digits. *)
Theorem segment_id_before_query_is_lost :
  _segment_id_from_link "https://www.strava.com/segments/123/?filter=overall"
    = EmptyString
  ∧ segment_id_of_url "https://www.strava.com/segments/123/?filter=overall" = "123"
  ∧ _segment_id_from_link "https://www.strava.com/segments/123?next=/segments/456"
    = "456"
  ∧ segment_id_of_url "https://www.strava.com/segments/123?next=/segments/456" = "123"
  ∧ (∀ link,
        PyStr.contains "?" link = false →
        PyStr.contains "#" link = false →
        _segment_id_from_link link = segment_id_of_url link)
  ∧ (∀ link,
        _segment_id_from_link link ≠ EmptyString →
        PyStr.isdigit (_segment_id_from_link link) = true)
  ∧ _segment_id_from_link "https://www.strava.com/segments/2?filter=overall" = "2"
  ∧ _segment_id_from_link "https://www.strava.com/segments/2#top" = "2"
  ∧ _segment_id_from_link "https://www.strava.com/segments/2/" = "2"
  ∧ _segment_id_from_link "https://www.strava.com/segments/abc" = EmptyString
  ∧ _segment_id_from_link "https://www.strava.com/segments/12a?x=1" = EmptyString.
Proof.
  split; [vm_compute; reflexivity|]. split; [vm_compute; reflexivity|].
  split; [vm_compute; reflexivity|]. split; [vm_compute; reflexivity|].
  split; [apply segment_id_plain_link|].
  split; [apply segment_id_from_link_digits|].
  repeat split; vm_compute; reflexivity.
Qed.

(** * Further properties *)

(** ** Header extractor: normalisation and tokens *)

Lemma contains_app (ch : ascii) (a b : string) :
  PyStr.contains ch (a +:+ b) = PyStr.contains ch a || PyStr.contains ch b.
Proof.
  induction a as [|c a IH]; [done|].
  rewrite append_String. simpl. rewrite IH. by rewrite orb_assoc.
Qed.

Lemma append_assoc (a b c : string) : (a +:+ b) +:+ c = a +:+ (b +:+ c).
Proof. induction a as [|x a IH]; [done|]. rewrite !append_String. by rewrite IH. Qed.

Lemma append_nil_r (a : string) : a +:+ EmptyString = a.
Proof. induction a as [|x a IH]; [done|]. rewrite append_String. by rewrite IH. Qed.

(** A replacement leaves alone a text in which the first character of the
    searched text does not occur. *)
Lemma replace_go_absent (h : ascii) (old new : string) (a rest : string) :
  PyStr.contains h a = false →
  PyStr.replace_go (String h old) new O (a +:+ rest)
    = a +:+ PyStr.replace_go (String h old) new O rest.
Proof.
  induction a as [|c a IH]; intros Ha; [done|].
  simpl in Ha. apply orb_false_iff in Ha as [Hc Ha].
  rewrite !append_String. simpl.
  rewrite Ascii.eqb_sym, Hc. simpl. by rewrite IH.
Qed.

Lemma replace_absent (h : ascii) (old new s : string) :
  PyStr.contains h s = false → PyStr.replace (String h old) new s = s.
Proof.
  intros Hs. unfold PyStr.replace.
  rewrite <- (append_nil_r s) at 1. rewrite replace_go_absent by done.
  simpl. apply append_nil_r.
Qed.

Lemma sub_continuations_go_absent (a rest : string) :
  PyStr.contains "^" a = false → PyStr.contains "`" a = false →
  sub_continuations_go O (a +:+ rest) = a +:+ sub_continuations_go O rest.
Proof.
  induction a as [|c a IH]; intros Hc Hb; [done|].
  simpl in Hc, Hb.
  apply orb_false_iff in Hc as [Hc1 Hc], Hb as [Hb1 Hb].
  rewrite !append_String. simpl. rewrite Hc1, Hb1. simpl. by rewrite IH.
Qed.

Lemma unmarked_spec (s : string) :
  unmarked s = true ↔
  PyStr.contains "092" s = false ∧ PyStr.contains "013" s = false
  ∧ PyStr.contains "^" s = false ∧ PyStr.contains "`" s = false.
Proof.
  unfold unmarked. rewrite negb_true_iff, !orb_false_iff. tauto.
Qed.

Lemma normalize_unmarked (s : string) : unmarked s = true → normalize s = s.
Proof.
  intros (Hb & Hr & Hc & Ht)%unmarked_spec. unfold normalize, BACKSLASH, CR.
  rewrite !append_String, !append_empty.
  rewrite (replace_absent "092" _ _ s) by done.
  rewrite (replace_absent "092" _ _ s) by done.
  rewrite (replace_absent "013" _ _ s) by done.
  unfold sub_continuations. rewrite <- (append_nil_r s) at 1.
  rewrite sub_continuations_go_absent by done. simpl. apply append_nil_r.
Qed.

Lemma parse_curl_headers_unfold (curl_command : string) :
  parse_curl_headers curl_command =
    match Shlex.split (normalize curl_command) with
    | None => ∅
    | Some tokens => scan ∅ tokens
    end.
Proof.
  unfold parse_curl_headers. destruct curl_command; reflexivity.
Qed.

Lemma lex_in_quote (t rest tok : string) (q : bool) (acc : list string) :
  PyStr.contains "'" t = false →
  Shlex.lex (t +:+ String "'" rest) (Shlex.InQuote "'") tok q acc
    = Shlex.lex rest Shlex.InWord (tok +:+ t) true acc.
Proof.
  revert tok q. induction t as [|c t IH]; intros tok q Ht.
  - rewrite append_empty, append_nil_r. reflexivity.
  - simpl in Ht. apply orb_false_iff in Ht as [Hc Ht].
    rewrite append_String. simpl. rewrite Hc, andb_false_r.
    rewrite IH by done. unfold Shlex.snoc. by rewrite append_assoc.
Qed.

Lemma lex_unclosed (t tok : string) (q : bool) (acc : list string) :
  PyStr.contains "'" t = false →
  Shlex.lex t (Shlex.InQuote "'") tok q acc = None.
Proof.
  revert tok q. induction t as [|c t IH]; intros tok q Ht; [done|].
  simpl in Ht. apply orb_false_iff in Ht as [Hc Ht]. simpl.
  rewrite Hc, andb_false_r. by apply IH.
Qed.

Lemma lex_squote (t rest : string) (acc : list string) :
  PyStr.contains "'" t = false →
  Shlex.lex (squote t +:+ rest) Shlex.InSpace EmptyString false acc
    = Shlex.lex rest Shlex.InWord t true acc.
Proof.
  intros Ht. unfold squote. rewrite append_String, append_assoc.
  change (String "'" EmptyString +:+ rest) with (String "'" rest).
  simpl Shlex.lex at 1. rewrite lex_in_quote by done. by rewrite append_empty.
Qed.

Lemma quotable_spec (t : string) :
  quotable t = true ↔ unmarked t = true ∧ PyStr.contains "'" t = false.
Proof. unfold quotable. rewrite andb_true_iff, negb_true_iff. tauto. Qed.

Lemma command_of_cons (t : string) (tokens : list string) :
  command_of (t :: tokens) =
    match tokens with
    | [] => squote t
    | _ => squote t +:+ String " " (command_of tokens)
    end.
Proof. unfold command_of. simpl. by destruct tokens. Qed.

(** Reading a command of quoted arguments, followed by a space and more text,
    yields the arguments and goes on with the text. *)
Lemma lex_command_then (tokens : list string) : ∀ (rest : string) (acc : list string),
  forallb quotable tokens = true →
  Shlex.lex (command_of tokens +:+ String " " rest) Shlex.InSpace EmptyString false acc
    = Shlex.lex rest Shlex.InSpace EmptyString false (acc ++ tokens).
Proof.
  induction tokens as [|t tokens IH]; intros rest acc Hall.
  - simpl. by rewrite app_nil_r.
  - simpl in Hall. apply andb_true_iff in Hall as [[_ Ht]%quotable_spec Hall].
    rewrite command_of_cons. destruct tokens as [|t' tokens'].
    + rewrite lex_squote by done. simpl. by rewrite orb_true_r.
    + rewrite append_assoc, lex_squote by done.
      rewrite append_String. simpl Shlex.lex at 1. rewrite orb_true_r.
      rewrite IH by done. by rewrite <- app_assoc.
Qed.

Lemma lex_command (tokens : list string) : ∀ (acc : list string),
  forallb quotable tokens = true →
  Shlex.lex (command_of tokens) Shlex.InSpace EmptyString false acc
    = Some (acc ++ tokens).
Proof.
  induction tokens as [|t tokens IH]; intros acc Hall.
  - simpl. by rewrite app_nil_r.
  - simpl in Hall. apply andb_true_iff in Hall as [[_ Ht]%quotable_spec Hall].
    rewrite command_of_cons. destruct tokens as [|t' tokens'].
    + rewrite <- (append_nil_r (squote t)), lex_squote by done.
      simpl. by rewrite orb_true_r.
    + rewrite lex_squote by done. simpl Shlex.lex at 1. rewrite orb_true_r.
      rewrite IH by done. by rewrite <- app_assoc.
Qed.

Lemma unmarked_app (a b : string) :
  unmarked (a +:+ b) = unmarked a && unmarked b.
Proof.
  unfold unmarked. rewrite !contains_app.
  destruct (PyStr.contains "092" a), (PyStr.contains "013" a),
    (PyStr.contains "^" a), (PyStr.contains "`" a); simpl; try reflexivity;
    by rewrite ?orb_true_r.
Qed.

Lemma unmarked_squote (t : string) : unmarked (squote t) = unmarked t.
Proof.
  unfold squote.
  change (String "'" (t +:+ "'")) with (String "'" EmptyString +:+ (t +:+ "'")).
  rewrite !unmarked_app. simpl. by rewrite andb_true_r.
Qed.

Lemma unmarked_command (tokens : list string) :
  forallb quotable tokens = true → unmarked (command_of tokens) = true.
Proof.
  induction tokens as [|t tokens IH]; intros Hall; [done|].
  simpl in Hall. apply andb_true_iff in Hall as [[Ht _]%quotable_spec Hall].
  rewrite command_of_cons. destruct tokens as [|t' tokens'].
  - by rewrite unmarked_squote.
  - change (String " " (command_of (t' :: tokens')))
      with (String " " EmptyString +:+ command_of (t' :: tokens')).
    rewrite !unmarked_app, unmarked_squote, Ht, IH by done. reflexivity.
Qed.

(** X1.  A command written as single-quoted arguments separated by spaces is
    read back as exactly these arguments, so that its headers are those of
    the scan of the arguments; this holds for arguments without single quote,
    backslash, carriage return, caret and backtick, whatever else they hold
    (spaces, double quotes, line feeds, or nothing at all). *)
Theorem quoted_command_is_scanned (tokens : list string) :
  forallb quotable tokens = true →
  Shlex.split (normalize (command_of tokens)) = Some tokens
  ∧ parse_curl_headers (command_of tokens) = scan ∅ tokens.
Proof.
  intros Hall.
  assert (Shlex.split (normalize (command_of tokens)) = Some tokens) as Hsplit.
  { rewrite normalize_unmarked by by apply unmarked_command.
    unfold Shlex.split. by rewrite lex_command. }
  split; [done|]. by rewrite parse_curl_headers_unfold, Hsplit.
Qed.

Lemma quoted_command_is_scanned_witness :
  forallb quotable ["curl"; "-H"; "Cookie: a=b"; EmptyString] = true
  ∧ parse_curl_headers "'curl' '-H' 'Cookie: a=b' ''" = {[ "cookie" := "a=b" ]}.
Proof.
  split; [reflexivity|].
  destruct (quoted_command_is_scanned ["curl"; "-H"; "Cookie: a=b"; EmptyString] eq_refl)
    as [_ Hparse].
  exact (eq_trans Hparse eq_refl).
Defined.

(** X2.  An unclosed single quote makes the whole command unreadable: the
    headers of the well-formed arguments before it are lost too, and the
    result is the empty mapping. *)
Theorem unclosed_quote_loses_all_headers (tokens : list string) (tail : string) :
  forallb quotable tokens = true →
  quotable tail = true →
  parse_curl_headers (command_of tokens +:+ String " " (String "'" tail)) = ∅.
Proof.
  intros Hall [Htail Hquote]%quotable_spec.
  rewrite parse_curl_headers_unfold.
  rewrite normalize_unmarked.
  - unfold Shlex.split. rewrite lex_command_then by done.
    simpl Shlex.lex. by rewrite lex_unclosed.
  - change (String " " (String "'" tail)) with (" '" +:+ tail).
    by rewrite !unmarked_app, unmarked_command, Htail.
Qed.

Lemma unclosed_quote_loses_all_headers_witness :
  forallb quotable ["curl"; "-H"; "Cookie: a=b"] = true
  ∧ quotable "-H X: y" = true
  ∧ parse_curl_headers "'curl' '-H' 'Cookie: a=b' '-H X: y" = ∅.
Proof.
  split; [reflexivity|]. split; [reflexivity|].
  exact (unclosed_quote_loses_all_headers ["curl"; "-H"; "Cookie: a=b"] "-H X: y"
           eq_refl eq_refl).
Defined.

(** *** Line continuations *)

Lemma join_cons2 (sep a b : string) (rest : list string) :
  PyStr.join sep (a :: b :: rest) = a +:+ (sep +:+ PyStr.join sep (b :: rest)).
Proof. reflexivity. Qed.

Lemma contains_join (ch : ascii) (sep : string) (lines : list string) :
  PyStr.contains ch sep = false →
  forallb (λ l, negb (PyStr.contains ch l)) lines = true →
  PyStr.contains ch (PyStr.join sep lines) = false.
Proof.
  intros Hsep. induction lines as [|l lines IH]; intros Hall; [done|].
  simpl in Hall. apply andb_true_iff in Hall as [Hl%negb_true_iff Hall].
  destruct lines as [|l2 lines]; [done|].
  rewrite join_cons2, !contains_app, Hl, Hsep, IH by done. reflexivity.
Qed.

Lemma replace_join (h : ascii) (old new marker marker' : string) (lines : list string) :
  forallb (λ l, negb (PyStr.contains h l)) lines = true →
  (∀ s, PyStr.replace_go (String h old) new O (marker +:+ s)
        = marker' +:+ PyStr.replace_go (String h old) new O s) →
  PyStr.replace (String h old) new (PyStr.join marker lines) = PyStr.join marker' lines.
Proof.
  intros Hall Hmarker. unfold PyStr.replace.
  induction lines as [|l lines IH]; [done|].
  simpl in Hall. apply andb_true_iff in Hall as [Hl%negb_true_iff Hall].
  destruct lines as [|l2 lines].
  - by apply replace_absent.
  - rewrite !join_cons2, replace_go_absent, Hmarker, IH by done. reflexivity.
Qed.

Lemma ws_newline_len_line (a tail : string) (pos : nat) (found : option nat) :
  PyStr.contains "010" a = false →
  (tail = EmptyString ∨ ∃ c t, tail = String c t ∧ PyStr.is_space c = false) →
  ws_newline_len (a +:+ tail) pos found = found.
Proof.
  revert pos. induction a as [|c a IH]; intros pos Ha Htail.
  - rewrite append_empty. destruct Htail as [->|(c & t & -> & Hc)]; [done|].
    simpl. by rewrite Hc.
  - simpl in Ha. apply orb_false_iff in Ha as [Hc Ha].
    rewrite append_String. simpl. destruct (PyStr.is_space c); [|done].
    rewrite Hc. by apply IH.
Qed.

Lemma sub_continuations_join (c : ascii) (lines : list string) :
  c = "^"%char ∨ c = "`"%char →
  forallb line_text lines = true →
  sub_continuations (PyStr.join (String c LF) lines) = PyStr.join " " lines.
Proof.
  intros Hc Hall. unfold sub_continuations.
  induction lines as [|l lines IH]; [done|].
  simpl in Hall. apply andb_true_iff in Hall as [Hl Hall].
  unfold line_text in Hl.
  apply andb_true_iff in Hl as [(_ & _ & Hl1 & Hl2)%unmarked_spec Hl3%negb_true_iff].
  destruct lines as [|l2 lines].
  - simpl. rewrite <- (append_nil_r l) at 1.
    rewrite sub_continuations_go_absent by done. simpl. apply append_nil_r.
  - rewrite !join_cons2, sub_continuations_go_absent by done.
    f_equal. set (rest := PyStr.join (String c LF) (l2 :: lines)) in *.
    change (String c LF +:+ rest) with (String c (String "010"%char rest)).
    assert (ws_newline_len rest 1 (Some 1%nat) = Some 1%nat) as Hlen.
    { subst rest. simpl in Hall.
      apply andb_true_iff in Hall as [Hline _]. unfold line_text in Hline.
      apply andb_true_iff in Hline as [_ Hlf%negb_true_iff].
      destruct lines as [|l3 lines].
      - rewrite <- (append_nil_r l2). apply ws_newline_len_line; [done|by left].
      - rewrite join_cons2. apply ws_newline_len_line; [done|]. right.
        exists c, (LF +:+ PyStr.join (String c LF) (l3 :: lines)).
        split; [done|]. by destruct Hc as [-> | ->]. }
    rewrite <- IH by done.
    destruct Hc as [-> | ->]; simpl sub_continuations_go at 1;
      simpl ws_newline_len; rewrite Hlen; reflexivity.
Qed.

Lemma line_text_spec (l : string) :
  line_text l = true →
  PyStr.contains "092" l = false ∧ PyStr.contains "013" l = false
  ∧ PyStr.contains "^" l = false ∧ PyStr.contains "`" l = false
  ∧ PyStr.contains "010" l = false.
Proof.
  unfold line_text. intros [(? & ? & ? & ?)%unmarked_spec ?%negb_true_iff]%andb_true_iff.
  tauto.
Qed.

Lemma forallb_lines (ch : ascii) (lines : list string) :
  (∀ l, line_text l = true → PyStr.contains ch l = false) →
  forallb line_text lines = true →
  forallb (λ l, negb (PyStr.contains ch l)) lines = true.
Proof.
  intros Hch Hall. apply forallb_forall. intros l Hl.
  rewrite forallb_forall in Hall. by rewrite Hch by by apply Hall.
Qed.

Lemma normalize_joined_lines (lines : list string) :
  forallb line_text lines = true →
  normalize (PyStr.join " " lines) = PyStr.join " " lines.
Proof.
  intros Hall. apply normalize_unmarked, unmarked_spec.
  repeat split; (apply contains_join; [done|]);
    (apply forallb_lines; [|done]); intros l Hl%line_text_spec; tauto.
Qed.

(** X3.  Lines of a command joined by any of the continuation markers, a
    backslash, a caret or a backtick right before a line feed or a carriage
    return and line feed, are normalised to the same text, the lines joined by
    single spaces; the headers extracted are therefore the same for every
    marker and equal to those of the one-line command. *)
Theorem continuation_markers_agree (lines : list string) :
  forallb line_text lines = true →
  Forall (λ marker,
            normalize (PyStr.join marker lines) = PyStr.join " " lines
            ∧ parse_curl_headers (PyStr.join marker lines)
              = parse_curl_headers (PyStr.join " " lines))
         CONTINUATIONS.
Proof.
  intros Hall.
  assert (∀ marker,
            normalize (PyStr.join marker lines) = PyStr.join " " lines →
            normalize (PyStr.join marker lines) = PyStr.join " " lines
            ∧ parse_curl_headers (PyStr.join marker lines)
              = parse_curl_headers (PyStr.join " " lines)) as Hparse.
  { intros marker Hnorm. split; [done|].
    by rewrite !parse_curl_headers_unfold, Hnorm, normalize_joined_lines. }
  pose proof (forallb_lines "092" lines
                ltac:(intros l Hl%line_text_spec; tauto) Hall) as Hback.
  pose proof (forallb_lines "013" lines
                ltac:(intros l Hl%line_text_spec; tauto) Hall) as Hcr.
  pose proof (normalize_joined_lines lines Hall) as Hone.
  assert (∀ c, c = "^"%char ∨ c = "`"%char →
            PyStr.contains "092" (PyStr.join (String c LF) lines) = false) as Hb1.
  { intros c [-> | ->]; by apply contains_join. }
  assert (∀ c, c = "^"%char ∨ c = "`"%char →
            PyStr.contains "013" (PyStr.join (String c LF) lines) = false) as Hr1.
  { intros c [-> | ->]; by apply contains_join. }
  assert (∀ c, c = "^"%char ∨ c = "`"%char →
            PyStr.contains "092" (PyStr.join (String c (CR +:+ LF)) lines) = false) as Hb2.
  { intros c [-> | ->]; by apply contains_join. }
  assert (∀ c, c = "^"%char ∨ c = "`"%char →
            normalize (PyStr.join (String c LF) lines) = PyStr.join " " lines) as Hlf.
  { intros c Hc. unfold normalize, BACKSLASH.
    rewrite !append_String, !append_empty.
    rewrite (replace_absent "092" _ _ (PyStr.join (String c LF) lines))
      by (by apply Hb1).
    rewrite (replace_absent "092" _ _ (PyStr.join (String c LF) lines))
      by (by apply Hb1).
    unfold CR. rewrite append_String, append_empty.
    rewrite (replace_absent "013" _ _ (PyStr.join (String c LF) lines))
      by (by apply Hr1).
    by apply sub_continuations_join. }
  assert (∀ c, c = "^"%char ∨ c = "`"%char →
            normalize (PyStr.join (String c (CR +:+ LF)) lines) = PyStr.join " " lines)
    as Hcrlf.
  { intros c Hc. unfold normalize, BACKSLASH.
    rewrite !append_String, !append_empty.
    rewrite (replace_absent "092" _ _ (PyStr.join (String c (CR +:+ LF)) lines))
      by (by apply Hb2).
    rewrite (replace_absent "092" _ _ (PyStr.join (String c (CR +:+ LF)) lines))
      by (by apply Hb2).
    unfold CR. rewrite !append_String, !append_empty.
    rewrite (replace_join "013" LF LF (String c (String "013" LF)) (String c LF))
      by (done || (intros s; destruct Hc as [-> | ->]; reflexivity)).
    by apply sub_continuations_join. }
  assert (PyStr.contains "092" (PyStr.join " " lines) = false) as Hj1
    by (by apply contains_join).
  assert (PyStr.contains "013" (PyStr.join " " lines) = false) as Hj2
    by (by apply contains_join).
  assert (sub_continuations (PyStr.replace (String "013" LF) LF (PyStr.join " " lines))
          = PyStr.join " " lines) as Htail.
  { rewrite (replace_absent "013" _ _ _ Hj2).
    assert (unmarked (PyStr.join " " lines) = true) as (_ & _ & Hc & Ht)%unmarked_spec.
    { apply unmarked_spec.
      repeat split; (apply contains_join; [done|]);
        (apply forallb_lines; [|done]); intros l Hl%line_text_spec; tauto. }
    unfold sub_continuations. rewrite <- (append_nil_r (PyStr.join " " lines)) at 1.
    rewrite sub_continuations_go_absent by done. simpl. apply append_nil_r. }
  clear Hone.
  unfold CONTINUATIONS. repeat apply Forall_cons_2; [..|apply Forall_nil_2];
    apply Hparse.
  - unfold normalize, BACKSLASH, CR. rewrite !append_String, !append_empty.
    rewrite (replace_join "092" (String "013" LF) " " (String "092" LF) (String "092" LF))
      by (done || (intros s; reflexivity)).
    rewrite (replace_join "092" LF " " (String "092" LF) " ")
      by (done || (intros s; reflexivity)).
    exact Htail.
  - unfold normalize, BACKSLASH, CR. rewrite !append_String, !append_empty.
    rewrite (replace_join "092" (String "013" LF) " " (String "092" (String "013" LF)) " ")
      by (done || (intros s; reflexivity)).
    rewrite (replace_absent "092" _ _ _ Hj1).
    exact Htail.
  - apply Hlf. by left.
  - apply Hcrlf. by left.
  - apply Hlf. by right.
  - apply Hcrlf. by right.
Qed.

Lemma continuation_markers_agree_witness :
  let lines := ["curl 'https://www.strava.com/x'"; "  -H 'Cookie: a=b'"] in
  forallb line_text lines = true
  ∧ parse_curl_headers (PyStr.join ("^" +:+ CR +:+ LF) lines)
    = parse_curl_headers (PyStr.join " " lines).
Proof.
  intros lines. split; [reflexivity|].
  pose proof (continuation_markers_agree lines eq_refl) as Hall.
  rewrite Forall_forall in Hall.
  apply (Hall ("^" +:+ CR +:+ LF)).
  do 3 apply list_elem_of_further. apply list_elem_of_here.
Defined.

(** ** Header extractor: the shape of the names and values *)

Lemma lower_char_idem (c : ascii) :
  PyStr.lower_char (PyStr.lower_char c) = PyStr.lower_char c.
Proof. destruct c as [[] [] [] [] [] [] [] []]; reflexivity. Qed.

Lemma is_space_lower_char (c : ascii) :
  PyStr.is_space (PyStr.lower_char c) = PyStr.is_space c.
Proof. destruct c as [[] [] [] [] [] [] [] []]; reflexivity. Qed.

Lemma lower_idem (s : string) : PyStr.lower (PyStr.lower s) = PyStr.lower s.
Proof.
  induction s as [|c s IH]; [done|]. simpl. by rewrite lower_char_idem, IH.
Qed.

Lemma rstrip_by_idem (p : ascii → bool) (s : string) :
  PyStr.rstrip_by p (PyStr.rstrip_by p s) = PyStr.rstrip_by p s.
Proof.
  induction s as [|c s IH]; [done|]. simpl.
  destruct (PyStr.rstrip_by p s) as [|c' r] eqn:Hr.
  - destruct (p c) eqn:Hc; [done|]. simpl. by rewrite Hc.
  - change (PyStr.rstrip_by p (String c (String c' r)))
      with (match PyStr.rstrip_by p (String c' r) with
            | EmptyString => if p c then EmptyString else String c EmptyString
            | r0 => String c r0
            end).
    by rewrite IH.
Qed.

Lemma lstrip_by_head (p : ascii → bool) (s : string) :
  PyStr.lstrip_by p s = EmptyString
  ∨ ∃ c r, PyStr.lstrip_by p s = String c r ∧ p c = false.
Proof.
  induction s as [|c s IH]; [by left|]. simpl.
  destruct (p c) eqn:Hc; [done|]. right. by exists c, s.
Qed.

Lemma strip_idem (s : string) : PyStr.strip (PyStr.strip s) = PyStr.strip s.
Proof.
  unfold PyStr.strip, PyStr.lstrip, PyStr.rstrip.
  destruct (lstrip_by_head PyStr.is_space s) as [->|(c & r & -> & Hc)]; [done|].
  destruct (rstrip_by_keeps_head PyStr.is_space c r Hc) as [r' Hr'].
  rewrite Hr'. simpl PyStr.lstrip_by. rewrite Hc.
  rewrite <- Hr'. apply rstrip_by_idem.
Qed.

Lemma lstrip_lower (s : string) :
  PyStr.lstrip_by PyStr.is_space (PyStr.lower s)
  = PyStr.lower (PyStr.lstrip_by PyStr.is_space s).
Proof.
  induction s as [|c s IH]; [done|]. simpl.
  rewrite is_space_lower_char. by destruct (PyStr.is_space c).
Qed.

Lemma rstrip_lower (s : string) :
  PyStr.rstrip_by PyStr.is_space (PyStr.lower s)
  = PyStr.lower (PyStr.rstrip_by PyStr.is_space s).
Proof.
  induction s as [|c s IH]; [done|]. simpl. rewrite IH, is_space_lower_char.
  destruct (PyStr.rstrip_by PyStr.is_space s); simpl; [|done].
  by destruct (PyStr.is_space c).
Qed.

Lemma strip_lower (s : string) :
  PyStr.strip (PyStr.lower s) = PyStr.lower (PyStr.strip s).
Proof.
  unfold PyStr.strip, PyStr.lstrip, PyStr.rstrip.
  by rewrite lstrip_lower, rstrip_lower.
Qed.

Lemma tidy_insert (h : gmap string string) (name value : string) :
  tidy h →
  name ≠ EmptyString → PyStr.lower name = name → PyStr.strip name = name →
  PyStr.strip value = value →
  tidy (<[name := value]> h).
Proof.
  intros Hh Hne Hlow Hstrip Hval k v.
  destruct (decide (name = k)) as [<-|Hk].
  - rewrite lookup_insert_eq. by intros [= <-].
  - rewrite lookup_insert_ne by done. apply Hh.
Qed.

Lemma store_tidy (h : gmap string string) (raw : string) :
  tidy h → tidy (_store h raw).
Proof.
  intros Hh. unfold _store.
  destruct (_ || _); [done|]. destruct (PyStr.split1 ":" raw) as [name value].
  destruct (PyStr.nonempty _) eqn:Hne; simpl; [|done].
  apply tidy_insert; [done|by apply nonempty_true|apply lower_idem| |apply strip_idem].
  by rewrite strip_lower, strip_idem.
Qed.

Lemma apply_header_tidy (h : gmap string string) (v : string) :
  tidy h → tidy (apply_header h v).
Proof. intros Hh. unfold apply_header. destruct (PyStr.nonempty v); auto using store_tidy. Qed.

Lemma apply_cookie_tidy (h : gmap string string) (v : string) :
  tidy h → tidy (apply_cookie h v).
Proof.
  intros Hh. unfold apply_cookie.
  destruct (PyStr.nonempty v); [|done]. destruct (_ && _); [|done].
  apply tidy_insert; [done|done|reflexivity|reflexivity|apply strip_idem].
Qed.

Lemma scan_tidy (n : nat) : ∀ (tokens : list string) (h : gmap string string),
  (length tokens ≤ n)%nat → tidy h → tidy (scan h tokens).
Proof.
  induction n as [|n IH]; intros [|token rest] h Hlen Hh; simpl in *;
    [done|lia|done|].
  destruct (classify token).
  - destruct rest as [|v rest']; [done|].
    apply IH; [simpl in *; lia|by apply apply_header_tidy].
  - apply IH; [lia|by apply apply_header_tidy].
  - destruct rest as [|v rest']; [done|].
    apply IH; [simpl in *; lia|by apply apply_cookie_tidy].
  - apply IH; [lia|by apply apply_cookie_tidy].
  - apply IH; [lia|done].
Qed.

(** X4.  Whatever the command, every entry of the extracted mapping has a
    non-empty, lower-case name without surrounding whitespace and a value
    without surrounding whitespace; so a header is found under its lower-case
    name however the command spells it. *)
Theorem extracted_headers_are_tidy (curl_command name value : string) :
  parse_curl_headers curl_command !! name = Some value →
  name ≠ EmptyString ∧ PyStr.lower name = name ∧ PyStr.strip name = name
  ∧ PyStr.strip value = value.
Proof.
  revert name value. change (tidy (parse_curl_headers curl_command)).
  assert (tidy ∅) as Hempty by (intros k v Hk; by rewrite lookup_empty in Hk).
  rewrite parse_curl_headers_unfold.
  destruct (Shlex.split _) as [tokens|]; [|done].
  by apply (scan_tidy (length tokens)).
Qed.

Lemma extracted_headers_are_tidy_witness :
  parse_curl_headers "curl -H '  X-CSRF-Token :  tok  '" !! "x-csrf-token" = Some "tok"
  ∧ PyStr.lower "x-csrf-token" = "x-csrf-token" ∧ PyStr.strip "tok" = "tok".
Proof.
  assert (parse_curl_headers "curl -H '  X-CSRF-Token :  tok  '" !! "x-csrf-token"
          = Some "tok") as Hlook by (vm_compute; reflexivity).
  split; [exact Hlook|].
  destruct (extracted_headers_are_tidy _ _ _ Hlook) as (_ & Hlow & _ & Hval).
  split; [exact Hlow|exact Hval].
Defined.

(** ** Header assembly: what is returned *)

Lemma header_value_stripped (getenv : environ) (curl : gmap string string)
    (explicit : option string) (var key : string) :
  PyStr.strip (_header_value getenv curl explicit var key)
  = _header_value getenv curl explicit var key.
Proof.
  unfold _header_value. repeat (destruct (_ : bool)); cbv zeta;
    repeat (destruct (PyStr.nonempty _)); apply strip_idem.
Qed.

Lemma user_agent_nonempty (getenv : environ) (curl : gmap string string) :
  user_agent_value getenv curl ≠ EmptyString.
Proof.
  unfold user_agent_value. cbv zeta.
  destruct (PyStr.nonempty (PyStr.strip _)) eqn:Henv; [by apply nonempty_true|].
  destruct (PyStr.nonempty (default EmptyString _)) eqn:Hcurl; [by apply nonempty_true|].
  done.
Qed.

(** X5.  When [_build_headers] returns, it returns exactly the six request
    headers, and the cookie and the CSRF token among them are not empty and
    carry no surrounding whitespace; the user agent is not empty either.  An
    empty credential is never sent. *)
Theorem built_headers_are_complete (getenv : environ) (file : option string)
    (cookie_header csrf_token : option string) (segment_id : string)
    (headers : gmap string string) :
  _build_headers getenv file cookie_header csrf_token segment_id = Ok headers →
  dom headers = list_to_set ["Accept"; "Cookie"; "Referer"; "User-Agent";
                             "X-CSRF-Token"; "X-Requested-With"]
  ∧ (∃ cookie, headers !! "Cookie" = Some cookie
       ∧ cookie ≠ EmptyString ∧ PyStr.strip cookie = cookie)
  ∧ (∃ csrf, headers !! "X-CSRF-Token" = Some csrf
       ∧ csrf ≠ EmptyString ∧ PyStr.strip csrf = csrf)
  ∧ (∃ agent, headers !! "User-Agent" = Some agent ∧ agent ≠ EmptyString)
  ∧ headers !! "Referer" = Some ("https://www.strava.com/segments/" +:+ segment_id).
Proof.
  unfold _build_headers. cbv zeta.
  destruct (negb (PyStr.nonempty (_header_value _ _ cookie_header _ _))) eqn:Hc; [done|].
  destruct (negb (PyStr.nonempty (_header_value _ _ csrf_token _ _))) eqn:Hs; [done|].
  apply negb_false_iff, nonempty_true in Hc, Hs.
  intros [= <-]. split; [|split; [|split; [|split]]].
  - rewrite !dom_insert_L, dom_empty_L. simpl. set_solver.
  - eexists. split; [by simplify_map_eq|]. split; [done|apply header_value_stripped].
  - eexists. split; [by simplify_map_eq|]. split; [done|apply header_value_stripped].
  - eexists. split; [by simplify_map_eq|]. apply user_agent_nonempty.
  - by simplify_map_eq.
Qed.

Lemma built_headers_are_complete_witness :
  ∃ headers,
    _build_headers (λ _, None) None (Some " sid=1 ") (Some "tok") "42" = Ok headers
    ∧ ∃ cookie, headers !! "Cookie" = Some cookie
        ∧ cookie ≠ EmptyString ∧ PyStr.strip cookie = cookie.
Proof.
  eexists. split; [reflexivity|].
  exact (proj1 (proj2 (built_headers_are_complete (λ _, None) None (Some " sid=1 ")
                         (Some "tok") "42" _ eq_refl))).
Defined.

(** ** Effort reducer: the retained record is a fastest one *)

Lemma ltb_trans (x y z : spec_float) :
  PyFloat.ltb x y = true → PyFloat.ltb y z = true → PyFloat.ltb x z = true.
Proof.
  unfold PyFloat.ltb, SFltb, SFcompare.
  destruct x as [[]|[]| |[] m1 e1], y as [[]|[]| |[] m2 e2], z as [[]|[]| |[] m3 e3];
    try done;
    change (Pos.compare_cont Eq m1 m2) with (Pos.compare m1 m2);
    change (Pos.compare_cont Eq m2 m3) with (Pos.compare m2 m3);
    change (Pos.compare_cont Eq m1 m3) with (Pos.compare m1 m3);
    destruct (Z.compare_spec e1 e2), (Z.compare_spec e2 e3), (Z.compare_spec e1 e3);
    try done; try lia;
    destruct (Pos.compare_spec m1 m2), (Pos.compare_spec m2 m3),
      (Pos.compare_spec m1 m3); try done; lia.
Qed.

Lemma ltb_asym (x y : spec_float) :
  PyFloat.ltb x y = true → PyFloat.ltb y x = false.
Proof.
  intros Hxy. destruct (PyFloat.ltb y x) eqn:Hyx; [|done].
  by rewrite <- (ltb_irrefl x), (ltb_trans x y x).
Qed.

Lemma retained_from_at_most (SEGMENT_ID : string) (key : string * string)
    (efforts : list effort_record) : ∀ current kept,
  retained_from SEGMENT_ID key (Some current) efforts = Some kept →
  elapsed_of kept = elapsed_of current
  ∨ PyFloat.ltb (elapsed_of kept) (elapsed_of current) = true.
Proof.
  induction efforts as [|e efforts IH]; intros current kept; simpl.
  { intros [= ->]. by left. }
  unfold retain. destruct (decide _) as [_|_]; [|apply IH].
  destruct (PyFloat.ltb (elapsed_of e) (elapsed_of current)) eqn:Hlt; [|apply IH].
  intros [Heq|Hlt']%IH; right.
  - by rewrite Heq.
  - by apply (ltb_trans _ (elapsed_of e)).
Qed.

Lemma retained_from_fastest (SEGMENT_ID : string) (key : string * string)
    (efforts : list effort_record) : ∀ before kept effort,
  retained_from SEGMENT_ID key before efforts = Some kept →
  effort ∈ efforts → key_of SEGMENT_ID effort = key →
  PyFloat.ltb (elapsed_of effort) (elapsed_of kept) = false.
Proof.
  induction efforts as [|e efforts IH]; intros before kept effort; simpl.
  { by intros _ ?%elem_of_nil. }
  intros Hkept [Heq|Hin]%elem_of_cons Hkey; [|by eapply IH].
  subst e. unfold retain in Hkept. rewrite decide_True in Hkept by done.
  assert (∀ other, retained_from SEGMENT_ID key (Some other) efforts = Some kept →
            PyFloat.ltb (elapsed_of effort) (elapsed_of other) = false →
            PyFloat.ltb (elapsed_of effort) (elapsed_of kept) = false) as Hstays.
  { intros other [Heq|Hlt]%retained_from_at_most Hno; [by rewrite Heq|].
    destruct (PyFloat.ltb (elapsed_of effort) (elapsed_of kept)) eqn:Hk; [|done].
    by rewrite <- Hno, (ltb_trans _ _ _ Hk Hlt). }
  destruct before as [current|].
  - destruct (PyFloat.ltb (elapsed_of effort) (elapsed_of current)) eqn:Hlt.
    + apply (Hstays effort Hkept), ltb_irrefl.
    + by apply (Hstays current Hkept).
  - apply (Hstays effort Hkept), ltb_irrefl.
Qed.

(** X6.  When the key and the elapsed time of every effort can be read, the
    reducer returns, and the record it holds for a key is one of the input
    efforts of that key such that no input effort of the key has a strictly
    smaller elapsed time, in the order of Python floats with unreadable
    times read as positive infinity. *)
Theorem retained_effort_is_fastest (SEGMENT_ID : string)
    (efforts : list effort_record) :
  forallb (readable SEGMENT_ID) efforts = true →
  ∃ st, reduce_efforts SEGMENT_ID efforts = Ok st
    ∧ ∀ key kept, best_by_year st !! key = Some kept →
        kept ∈ efforts ∧ key_of SEGMENT_ID kept = key
        ∧ ∀ effort, effort ∈ efforts → key_of SEGMENT_ID effort = key →
            PyFloat.ltb (elapsed_of effort) (elapsed_of kept) = false.
Proof.
  intros Hall.
  destruct (reduce_from_reduced SEGMENT_ID efforts reducer_init [])
    as (st & Hst & _ & Hbest); [|done|done|].
  { split; [done|]. intros key. apply lookup_empty. }
  simpl in Hbest. exists st. split; [done|].
  intros key kept Hlook. rewrite Hbest in Hlook.
  destruct (retained_from_in _ _ _ _ _ Hlook) as [?|[Hin Hkey]]; [done|].
  split; [done|]. split; [done|].
  intros effort Heff Hk. by eapply retained_from_fastest.
Qed.

Lemma retained_effort_is_fastest_witness :
  forallb (readable DEFAULT_SEGMENT_ID) example_efforts = true
  ∧ ∃ st, reduce_efforts DEFAULT_SEGMENT_ID example_efforts = Ok st
      ∧ ∀ key kept, best_by_year st !! key = Some kept →
          ∀ effort, effort ∈ example_efforts → key_of DEFAULT_SEGMENT_ID effort = key →
            PyFloat.ltb (elapsed_of effort) (elapsed_of kept) = false.
Proof.
  assert (forallb (readable DEFAULT_SEGMENT_ID) example_efforts = true) as Hall
    by (vm_compute; reflexivity).
  split; [exact Hall|].
  destruct (retained_effort_is_fastest DEFAULT_SEGMENT_ID example_efforts Hall)
    as (st & Hst & Hbest).
  exists st. split; [exact Hst|].
  intros key kept Hlook. exact (proj2 (proj2 (Hbest key kept Hlook))).
Defined.

(** ** Effort reducer: efforts of pairwise different keys *)

Lemma first_appearance_distinct (keys : list (string * string)) :
  NoDup keys → first_appearance keys = keys.
Proof.
  induction 1 as [|k keys Hnin _ IH]; simpl; [done|].
  rewrite IH. f_equal. clear IH.
  induction keys as [|k' keys IH]; [done|].
  apply not_elem_of_cons in Hnin as [Hne Hnin].
  rewrite filter_cons_True by done. by rewrite IH.
Qed.

Lemma retained_from_absent (SEGMENT_ID : string) (key : string * string)
    (efforts : list effort_record) : ∀ kept,
  key ∉ map (key_of SEGMENT_ID) efforts →
  retained_from SEGMENT_ID key kept efforts = kept.
Proof.
  induction efforts as [|e efforts IH]; intros kept; simpl; [done|].
  intros [Hne Hnin]%not_elem_of_cons. rewrite IH by done.
  unfold retain. by rewrite decide_False.
Qed.

Lemma retained_distinct (SEGMENT_ID : string) (efforts : list effort_record)
    (effort : effort_record) :
  NoDup (map (key_of SEGMENT_ID) efforts) → effort ∈ efforts →
  retained SEGMENT_ID (key_of SEGMENT_ID effort) efforts = Some effort.
Proof.
  unfold retained.
  induction efforts as [|e efforts IH]; simpl; [by intros _ ?%elem_of_nil|].
  intros [Hnin Hnodup]%NoDup_cons [->|Hin]%elem_of_cons.
  - unfold retain. rewrite decide_True by done. by apply retained_from_absent.
  - unfold retain. rewrite decide_False; [by apply IH|].
    intros Heq. apply Hnin. rewrite Heq.
    apply list_elem_of_fmap. by exists effort.
Qed.

Lemma Forall2_impl_elem {A B : Type} (P Q : A → B → Prop) (l : list A) (k : list B) :
  Forall2 P l k → (∀ x y, x ∈ l → P x y → Q x y) → Forall2 Q l k.
Proof.
  induction 1 as [|x y l k Hxy _ IH]; intros Himpl; [apply Forall2_nil_2|].
  apply Forall2_cons. split.
  - apply Himpl; [apply list_elem_of_here|done].
  - apply IH. intros x' y' Hin. apply Himpl. by apply list_elem_of_further.
Qed.

(** X7.  When the key and the elapsed time of every effort can be read and no
    two efforts have the same key, nothing is dropped: the reducer lists the
    keys of the efforts in input order and holds every effort under its key,
    and the rows returned are the rows of the efforts, one each, in input
    order. *)
Theorem distinct_keys_keep_every_effort (SEGMENT_ID : string)
    (efforts : list effort_record) :
  forallb (readable SEGMENT_ID) efforts = true →
  NoDup (map (key_of SEGMENT_ID) efforts) →
  ∃ st, reduce_efforts SEGMENT_ID efforts = Ok st
    ∧ order st = map (key_of SEGMENT_ID) efforts
    ∧ (∀ effort, effort ∈ efforts →
         best_by_year st !! key_of SEGMENT_ID effort = Some effort)
    ∧ ∀ segment_name_map navn_value rows,
        efforts_to_sheet_rows SEGMENT_ID efforts segment_name_map navn_value = Ok rows →
        Forall2 (λ effort row,
                   format_row segment_name_map (navn_column_of navn_value)
                     (key_of SEGMENT_ID effort) effort = Ok row)
                efforts rows.
Proof.
  intros Hall Hnodup.
  destruct (reduce_from_reduced SEGMENT_ID efforts reducer_init [])
    as (st & Hst & Horder & Hbest); [|done|done|].
  { split; [done|]. intros key. apply lookup_empty. }
  simpl in Horder, Hbest. rewrite first_appearance_distinct in Horder by done.
  assert (∀ effort, effort ∈ efforts →
            best_by_year st !! key_of SEGMENT_ID effort = Some effort) as Hheld.
  { intros effort Hin. rewrite Hbest. by apply retained_distinct. }
  exists st. split; [done|]. split; [done|]. split; [done|].
  intros segment_name_map navn_value rows.
  unfold efforts_to_sheet_rows. fold (reduce_efforts SEGMENT_ID efforts).
  unfold reduce_efforts. rewrite Hst. run_bind.
  intros Hrows%format_rows_each. rewrite Horder in Hrows.
  apply Forall2_fmap_l in Hrows.
  eapply Forall2_impl_elem; [exact Hrows|]. simpl.
  intros effort row Hin (held & Hlook & Hrow).
  rewrite Hheld in Hlook by done. by injection Hlook as <-.
Qed.

Lemma distinct_keys_keep_every_effort_witness :
  let efforts := [example_effort "2024-05-01T08:00:00Z" 123 150 1;
                  example_effort "2023-06-01T08:00:00Z" 123 120 2] in
  ∃ st, reduce_efforts DEFAULT_SEGMENT_ID efforts = Ok st
    ∧ order st = [("123", "2024"); ("123", "2023")].
Proof.
  intros efforts.
  destruct (distinct_keys_keep_every_effort DEFAULT_SEGMENT_ID efforts)
    as (st & Hst & Horder & _).
  - vm_compute. reflexivity.
  - apply NoDup_cons. split; [|apply NoDup_singleton].
    intros Hin%list_elem_of_singleton. vm_compute in Hin. discriminate Hin.
  - exists st. split; [exact Hst|exact Horder].
Defined.

(** ** Effort reducer: rows are made of input efforts only *)

Lemma reduce_step_holds (SEGMENT_ID : string) (st st' : reducer)
    (effort : effort_record) :
  reduce_step SEGMENT_ID st effort = Ok st' →
  (∀ key held, best_by_year st' !! key = Some held →
     (held = effort ∧ effort_key SEGMENT_ID effort = Ok key)
     ∨ best_by_year st !! key = Some held)
  ∧ (order st' = order st ∧ best_by_year st ≠ ∅
     ∨ ∃ key, order st' = order st ++ [key]).
Proof.
  unfold reduce_step.
  destruct (effort_key SEGMENT_ID effort) as [key|] eqn:Hkey; run_bind; [|done].
  assert (∀ k held, <[key := effort]> (best_by_year st) !! k = Some held →
            (held = effort ∧ Ok key = Ok k) ∨ best_by_year st !! k = Some held)
    as Hinsert.
  { intros k held. destruct (decide (key = k)) as [->|Hne].
    - rewrite lookup_insert_eq. intros [= <-]. by left.
    - rewrite lookup_insert_ne by done. by right. }
  destruct (best_by_year st !! key) as [existing|] eqn:Hlook.
  - assert (best_by_year st ≠ ∅) as Hne.
    { intros Hempty. by rewrite Hempty, lookup_empty in Hlook. }
    destruct (_elapsed_seconds (get effort "elapsed_time")); run_bind; [|done].
    destruct (_elapsed_seconds (get existing "elapsed_time")); run_bind; [|done].
    destruct (PyFloat.ltb _ _); intros [= <-]; simpl.
    + split; [done|by left].
    + split; [by right|by left].
  - intros [= <-]. simpl. split; [done|]. right. by exists key.
Qed.

Lemma reduce_from_holds (SEGMENT_ID : string) (all : list effort_record)
    (efforts : list effort_record) : ∀ st st',
  reduce_from SEGMENT_ID st efforts = Ok st' →
  (∀ effort, effort ∈ efforts → effort ∈ all) →
  (∀ key held, best_by_year st !! key = Some held →
     held ∈ all ∧ effort_key SEGMENT_ID held = Ok key) →
  (∀ key held, best_by_year st' !! key = Some held →
     held ∈ all ∧ effort_key SEGMENT_ID held = Ok key)
  ∧ (length (order st) ≤ length (order st') ≤ length (order st) + length efforts)%nat
  ∧ (best_by_year st = ∅ → efforts ≠ [] → length (order st) < length (order st'))%nat.
Proof.
  induction efforts as [|effort efforts IH]; intros st st'; simpl.
  { intros [= <-] _ Hheld. split; [done|]. split; [lia|done]. }
  destruct (reduce_step SEGMENT_ID st effort) as [st1|] eqn:Hstep; run_bind; [|done].
  intros Hrest Hall Hheld.
  destruct (reduce_step_holds _ _ _ _ Hstep) as [Hbest Horder].
  destruct (IH st1 st' Hrest) as (Hheld' & Hlen & _).
  { intros e He. apply Hall. by apply list_elem_of_further. }
  { intros key held [[-> Hkey]|Hold]%Hbest; [|by apply Hheld].
    split; [apply Hall, list_elem_of_here|done]. }
  split; [done|].
  destruct Horder as [[Horder Hne]|[key Horder]]; rewrite Horder in Hlen.
  - split; [lia|done].
  - rewrite length_app in Hlen. simpl in Hlen. split; [lia|]. intros _ _. lia.
Qed.

(** X8.  Whatever the efforts are, when [efforts_to_sheet_rows] returns, there
    are at most as many rows as efforts, there is a row as soon as there is an
    effort, and every row is the formatted row of one of the input efforts
    under that effort's own key. *)
Theorem rows_come_from_efforts (SEGMENT_ID : string) (efforts : list effort_record)
    (segment_name_map : option (gmap string string)) (navn_value : option string)
    (rows : list string) :
  efforts_to_sheet_rows SEGMENT_ID efforts segment_name_map navn_value = Ok rows →
  (length rows ≤ length efforts)%nat
  ∧ (efforts ≠ [] → rows ≠ [])
  ∧ Forall (λ row, ∃ effort key,
              effort ∈ efforts
              ∧ effort_key SEGMENT_ID effort = Ok key
              ∧ format_row segment_name_map (navn_column_of navn_value) key effort
                = Ok row) rows.
Proof.
  unfold efforts_to_sheet_rows, reduce_efforts.
  destruct (reduce_from SEGMENT_ID reducer_init efforts) as [st|] eqn:Hst;
    run_bind; [|done].
  intros Hrows%format_rows_each.
  destruct (reduce_from_holds SEGMENT_ID efforts efforts _ _ Hst)
    as (Hheld & Hlen & Hsome); [done| |].
  { intros key held. simpl. by rewrite lookup_empty. }
  simpl in Hlen, Hsome. rewrite (Forall2_length _ _ _ Hrows) in Hlen, Hsome.
  split; [lia|]. split.
  - intros Hne ->. specialize (Hsome eq_refl Hne). simpl in Hsome. lia.
  - apply Forall_forall. intros row Hrow.
    destruct (proj1 (list_elem_of_lookup _ _) Hrow) as [i Hi].
    destruct (Forall2_lookup_r _ _ _ _ _ Hrows Hi) as (key & _ & effort & Hlook & Hfmt).
    exists effort, key. destruct (Hheld key effort Hlook) as [Hin Hkey]. done.
Qed.

Lemma rows_come_from_efforts_witness :
  ∃ rows,
    efforts_to_sheet_rows DEFAULT_SEGMENT_ID example_efforts None None = Ok rows
    ∧ (length rows ≤ length example_efforts)%nat ∧ rows ≠ [].
Proof.
  eexists. split; [vm_compute; reflexivity|].
  destruct (rows_come_from_efforts DEFAULT_SEGMENT_ID example_efforts None None _
              ltac:(vm_compute; reflexivity)) as (Hlen & Hne & _).
  split; [exact Hlen|]. apply Hne. discriminate.
Defined.

(** ** Row formatter: a row and its columns *)

Lemma str_split_absent (ch : ascii) (s : string) :
  PyStr.contains ch s = false → str_split ch s = [s].
Proof.
  induction s as [|c s IH]; simpl; [done|].
  intros [Hc Hs]%orb_false_iff. by rewrite Hc, IH.
Qed.

Lemma str_split_app (ch : ascii) (a b : string) :
  PyStr.contains ch a = false →
  str_split ch (a +:+ String ch b) = a :: str_split ch b.
Proof.
  induction a as [|c a IH]; simpl.
  - intros _. by rewrite Ascii.eqb_refl.
  - intros [Hc Ha]%orb_false_iff. by rewrite Hc, IH.
Qed.

Lemma str_split_join (ch : ascii) (fields : list string) :
  fields ≠ [] →
  Forall (λ field, PyStr.contains ch field = false) fields →
  str_split ch (PyStr.join (String ch EmptyString) fields) = fields.
Proof.
  induction fields as [|a fields IH]; [done|]. intros _ [Ha Hrest]%Forall_cons.
  destruct fields as [|b fields]; [by apply str_split_absent|].
  rewrite join_cons2. change (String ch EmptyString +:+ ?x) with (String ch x).
  rewrite str_split_app by done. by rewrite IH.
Qed.

Lemma digit_char_not_tab (x : Z) :
  0 < x → Ascii.eqb (Lit.digit_char (x mod 10)) "009" = false.
Proof.
  intros Hx. pose proof (Z.mod_pos_bound x 10 ltac:(lia)) as Hd.
  set (d := x mod 10) in *. clearbody d.
  assert (d = 0 ∨ d = 1 ∨ d = 2 ∨ d = 3 ∨ d = 4 ∨ d = 5 ∨ d = 6 ∨ d = 7
          ∨ d = 8 ∨ d = 9) as Hcases by lia.
  repeat destruct Hcases as [->|Hcases]; try reflexivity. by subst d.
Qed.

Lemma tab_free_digits_of_go (fuel : nat) : ∀ (x : Z) (acc : string),
  PyStr.contains "009" (Lit.digits_of_go fuel x acc) = PyStr.contains "009" acc.
Proof.
  induction fuel as [|fuel IH]; intros x acc; simpl; [done|].
  destruct (x <=? 0) eqn:Hx; [done|]. apply Z.leb_gt in Hx.
  rewrite IH. cbn [PyStr.contains]. by rewrite digit_char_not_tab.
Qed.

Lemma tab_free_str_of_Z (z : Z) : PyStr.contains "009" (Lit.str_of_Z z) = false.
Proof.
  destruct z as [|p|p]; unfold Lit.str_of_Z; [reflexivity| |].
  - by rewrite tab_free_digits_of_go.
  - cbn [PyStr.contains]. by rewrite tab_free_digits_of_go.
Qed.

Lemma tab_free_fmt_02d (n : Z) : PyStr.contains "009" (fmt_02d n) = false.
Proof.
  unfold fmt_02d. destruct (_ && _); [|apply tab_free_str_of_Z].
  rewrite contains_app, tab_free_str_of_Z. reflexivity.
Qed.

Lemma tab_free_elapsed (seconds : value) (text : string) :
  _format_elapsed_time seconds = Ok text → PyStr.contains "009" text = false.
Proof.
  assert (∀ n, PyStr.contains "009"
                 (fmt_02d (n / 60) +:+ ":" +:+ fmt_02d (n mod 60)) = false) as Hmmss.
  { intros n. by rewrite !contains_app, !tab_free_fmt_02d. }
  unfold _format_elapsed_time.
  destruct seconds as [|b|z|f|s|l|d]; simpl; try done.
  - by intros [= <-].
  - intros [= <-]. apply Hmmss.
  - intros [= <-]. apply Hmmss.
  - destruct (PyFloat.round_half_even f); run_bind; [|done].
    intros [= <-]. apply Hmmss.
Qed.

Lemma round_metric_text (v : value) (text : string) :
  _round_metric v = Ok text → text = EmptyString ∨ ∃ n, text = Lit.str_of_Z n.
Proof.
  rewrite round_metric_unfold.
  destruct (PyDecimal.parse _); [|intros [= <-]; by left].
  destruct (PyDecimal.to_integral_half_up _); [|intros [= <-]; by left].
  destruct (PyDecimal.to_int _); run_bind; [|done].
  intros [= <-]. right. by eexists.
Qed.

Lemma tab_free_metric (v : value) (text : string) :
  _round_metric v = Ok text → PyStr.contains "009" text = false.
Proof.
  intros [->|[n ->]]%round_metric_text; [done|apply tab_free_str_of_Z].
Qed.

(** X9.  A row whose year, segment name, NAVN text and effort id contain no
    tab is split by [split] at the tabs into exactly the eight columns it was
    joined from: the elapsed time and the three metric columns never contain a
    tab. *)
Theorem row_splits_into_its_columns
    (segment_name_map : option (gmap string string)) (navn_column : string)
    (key : string * string) (effort : effort_record) (row : string) :
  format_row segment_name_map navn_column key effort = Ok row →
  tab_free (snd key) = true →
  tab_free (default (fst key) (default ∅ segment_name_map !! fst key)) = true →
  tab_free navn_column = true →
  tab_free (py_str (get effort "id")) = true →
  ∃ fields,
    row_fields segment_name_map navn_column key effort = Ok fields
    ∧ length fields = 8%nat
    ∧ csv_rows [row] = [fields].
Proof.
  unfold tab_free. destruct key as [segment_id_str year]. cbn [fst snd].
  intros Hrow Hyear%negb_true_iff Hname%negb_true_iff Hnavn%negb_true_iff
    Hid%negb_true_iff.
  unfold format_row in Hrow.
  destruct (row_fields _ _ _ _) as [fields|] eqn:Hfields; [|done].
  cbn [mbind result_bind] in Hrow.
  injection Hrow as <-. exists fields. split; [done|].
  unfold row_fields in Hfields.
  destruct (_format_elapsed_time _) as [elapsed|] eqn:Helapsed; run_bind; [|done].
  destruct (_round_metric (first_truthy effort WATTS_FIELDS)) as [watts|] eqn:Hwatts;
    run_bind; [|done].
  destruct (_round_metric (first_truthy effort BPM_FIELDS)) as [bpm|] eqn:Hbpm;
    run_bind; [|done].
  destruct (_round_metric (first_truthy effort CADENCE_FIELDS)) as [cadence|]
    eqn:Hcadence; run_bind; [|done].
  injection Hfields as <-. split; [done|].
  unfold csv_rows. cbn [map]. f_equal. apply (str_split_join "009"); [done|].
  apply tab_free_elapsed in Helapsed.
  apply tab_free_metric in Hwatts, Hbpm, Hcadence.
  repeat (apply Forall_cons; split); try done; try apply Forall_nil_2.
  destruct (truthy (get effort "id")); [|done].
  by rewrite contains_app, Hid.
Qed.

Lemma row_splits_into_its_columns_witness :
  ∃ row,
    format_row None "Morten" ("555", "2024") sound_effort = Ok row
    ∧ csv_rows [row] = [["2024"; "555"; "Morten"; "01:23";
                         "https://www.strava.com/segment_efforts/7";
                         EmptyString; EmptyString; EmptyString]].
Proof.
  eexists. split; [vm_compute; reflexivity|].
  destruct (row_splits_into_its_columns None "Morten" ("555", "2024") sound_effort _
              ltac:(vm_compute; reflexivity) eq_refl eq_refl eq_refl eq_refl)
    as (fields & Hfields & _ & Hsplit).
  rewrite Hsplit. f_equal. vm_compute in Hfields. by injection Hfields as <-.
Defined.

(** ** Sheet metadata mapper: links that carry an id *)

Lemma rstrip_by_cons (p : ascii → bool) (c : ascii) (s : string) :
  p c = false ∨ PyStr.rstrip_by p s ≠ EmptyString →
  PyStr.rstrip_by p (String c s) = String c (PyStr.rstrip_by p s).
Proof.
  intros Hkeep. simpl. destruct (PyStr.rstrip_by p s); [|done].
  destruct Hkeep as [->|Hne]; done.
Qed.

Lemma rstrip_by_app (p : ascii → bool) (a b : string) :
  PyStr.rstrip_by p b ≠ EmptyString →
  PyStr.rstrip_by p (a +:+ b) = a +:+ PyStr.rstrip_by p b.
Proof.
  intros Hb. induction a as [|c a IH]; [done|].
  rewrite !append_String, rstrip_by_cons, IH; [done|].
  right. rewrite IH. by destruct a.
Qed.

Lemma rstrip_by_app_kept (p : ascii → bool) (a b : string) :
  str_forall (λ c, negb (p c)) a = true →
  PyStr.rstrip_by p (a +:+ b) = a +:+ PyStr.rstrip_by p b.
Proof.
  induction a as [|c a IH]; [done|]. simpl str_forall.
  intros [Hc%negb_true_iff Ha]%andb_true_iff.
  rewrite !append_String, rstrip_by_cons, IH by auto. done.
Qed.

Lemma rstrip_by_all (p : ascii → bool) (s : string) :
  str_forall p s = true → PyStr.rstrip_by p s = EmptyString.
Proof.
  induction s as [|c s IH]; [done|]. simpl.
  intros [Hc Hs]%andb_true_iff. by rewrite IH, Hc.
Qed.

Lemma lstrip_by_app (p : ascii → bool) (a : string) (c : ascii) (r : string) :
  p c = false →
  PyStr.lstrip_by p (a +:+ String c r) = PyStr.lstrip_by p a +:+ String c r.
Proof.
  intros Hc. induction a as [|x a IH]; simpl; [by rewrite Hc|].
  by destruct (p x).
Qed.

Lemma last_part_app (ch : ascii) (a b : string) :
  PyStr.contains ch b = false → PyStr.last_part ch (a +:+ String ch b) = b.
Proof.
  intros Hb. induction a as [|c a IH].
  - rewrite append_empty. simpl. by rewrite Hb, Ascii.eqb_refl.
  - rewrite append_String. simpl. by rewrite contains_app_char.
Qed.

Lemma split1_fst_app (ch : ascii) (a b : string) :
  PyStr.contains ch a = false →
  fst (PyStr.split1 ch (a +:+ b)) = a +:+ fst (PyStr.split1 ch b).
Proof.
  induction a as [|c a IH]; [done|]. simpl.
  intros [Hc Ha]%orb_false_iff. rewrite Hc.
  specialize (IH Ha). destruct (PyStr.split1 ch (a +:+ b)). simpl in *. by rewrite IH.
Qed.

Lemma digit_char_plain (c : ascii) :
  PyStr.is_digit_char c = true →
  PyStr.is_space c = false ∧ Ascii.eqb c "/" = false
  ∧ Ascii.eqb c "?" = false ∧ Ascii.eqb c "#" = false.
Proof. destruct c as [[] [] [] [] [] [] [] []]; done. Qed.

Lemma all_digits_plain (s : string) :
  PyStr.all_digits s = true →
  str_forall (λ c, negb (PyStr.is_space c)) s = true
  ∧ str_forall (λ c, negb (Ascii.eqb c "/")) s = true
  ∧ PyStr.contains "/" s = false
  ∧ PyStr.contains "?" s = false ∧ PyStr.contains "#" s = false.
Proof.
  induction s as [|c s IH]; [done|]. simpl.
  intros [(Hs & Hl & Hq & Hf)%digit_char_plain (? & ? & ? & ? & ?)%IH]%andb_true_iff.
  rewrite Hs, Hl, Hq, Hf. simpl. done.
Qed.

Lemma contains_kept (ch : ascii) (s : string) :
  PyStr.contains ch s = false →
  str_forall (λ c, negb (Ascii.eqb c ch)) s = true.
Proof.
  induction s as [|c s IH]; [done|]. simpl.
  intros [-> Hs]%orb_false_iff. by apply IH.
Qed.

(** The link after [strip] and [rstrip] of slashes. *)
Lemma link_cleaned (base id tail : string) :
  PyStr.isdigit id = true → link_tail tail = true →
  ∃ rest,
    PyStr.rstrip_char "/" (PyStr.strip (base +:+ String "/" (id +:+ tail)))
      = PyStr.lstrip base +:+ String "/" (id +:+ rest)
    ∧ PyStr.contains "/" rest = false
    ∧ (rest = EmptyString
       ∨ ∃ c r, rest = String c r ∧ (c = "?"%char ∨ c = "#"%char)).
Proof.
  unfold PyStr.isdigit. intros [Hne Hdigits]%andb_true_iff Htail.
  destruct (all_digits_plain _ Hdigits) as (Hspace & Hslash & Hnoslash & _ & _).
  destruct id as [|d id']; [done|]. clear Hne.
  assert (∀ p t, str_forall (λ c, negb (p c)) (String d id') = true →
            PyStr.rstrip_by p (String d id' +:+ t) ≠ EmptyString) as Hkept.
  { intros p t Hp. by rewrite rstrip_by_app_kept. }
  assert (∀ p a t, str_forall (λ c, negb (p c)) (String d id') = true →
            PyStr.rstrip_by p (a +:+ String "/" (String d id' +:+ t))
            = a +:+ String "/" (String d id' +:+ PyStr.rstrip_by p t)) as Hrstrip.
  { intros p a t Hp.
    assert (PyStr.rstrip_by p (String "/" (String d id' +:+ t))
            = String "/" (String d id' +:+ PyStr.rstrip_by p t)) as Hb.
    { rewrite rstrip_by_cons by (right; by apply Hkept).
      by rewrite rstrip_by_app_kept. }
    rewrite rstrip_by_app; by rewrite Hb. }
  unfold PyStr.strip, PyStr.lstrip, PyStr.rstrip, PyStr.rstrip_char.
  rewrite lstrip_by_app by done. rewrite Hrstrip by done. rewrite Hrstrip by done.
  eexists. split; [reflexivity|].
  unfold link_tail in Htail. apply orb_true_iff in Htail as [Hall|Hquery].
  - rewrite (rstrip_by_all (λ c, Ascii.eqb c "/")); [by split; [|left]|].
    assert (PyStr.rstrip_by PyStr.is_space tail = tail) as ->; [|done].
    clear -Hall. induction tail as [|c t IH]; [done|]. simpl in Hall.
    apply andb_true_iff in Hall as [Hc Ht]. apply Ascii.eqb_eq in Hc as ->.
    rewrite rstrip_by_cons by (by left). by rewrite IH.
  - apply andb_true_iff in Hquery as [Hno%negb_true_iff Hhead].
    pose proof (contains_rstrip_by PyStr.is_space _ _ Hno) as Hno'.
    assert (PyStr.rstrip_by (λ c, Ascii.eqb c "/") (PyStr.rstrip_by PyStr.is_space tail)
            = PyStr.rstrip_by PyStr.is_space tail) as ->.
    { rewrite <- (append_nil_r (PyStr.rstrip_by PyStr.is_space tail)) at 1.
      rewrite rstrip_by_app_kept by (by apply contains_kept). by rewrite append_nil_r. }
    split; [done|]. destruct tail as [|c r]; [by left|]. right.
    assert (c = "?"%char ∨ c = "#"%char) as Hc.
    { apply orb_true_iff in Hhead as [->%Ascii.eqb_eq| ->%Ascii.eqb_eq]; tauto. }
    exists c, (PyStr.rstrip_by PyStr.is_space r).
    split; [|done]. apply rstrip_by_cons. left. by destruct Hc as [->| ->].
Qed.

(** X10.  A link made of any text, a slash, a number, and then nothing,
    slashes only, or a query string or fragment without a slash, gives back
    the number. *)
Theorem link_gives_back_its_id (base id tail : string) :
  PyStr.isdigit id = true → link_tail tail = true →
  _segment_id_from_link (base +:+ "/" +:+ id +:+ tail) = id.
Proof.
  intros Hid Htail.
  change (base +:+ "/" +:+ id +:+ tail) with (base +:+ String "/" (id +:+ tail)).
  destruct (link_cleaned base id tail Hid Htail) as (rest & Hclean & Hno & Hrest).
  pose proof Hid as [_ Hdigits]%andb_true_iff.
  destruct (all_digits_plain _ Hdigits) as (_ & _ & Hslash & Hquery & Hfrag).
  unfold _segment_id_from_link.
  rewrite nonempty_app_char. cbn [negb].
  assert (PyStr.nonempty (PyStr.strip (base +:+ String "/" (id +:+ tail))) = true)
    as ->.
  { destruct (PyStr.strip _); [|done].
    destruct (PyStr.lstrip base); done. }
  cbn [negb]. rewrite Hclean.
  rewrite last_part_app by (by rewrite contains_app, Hslash, Hno).
  destruct Hrest as [->|(c & r & -> & [->| ->])].
  - rewrite append_nil_r, Hquery, Hfrag. by rewrite Hid.
  - rewrite contains_app_char, split1_app by done. cbn [fst].
    by rewrite Hfrag, Hid.
  - assert (fst (PyStr.split1 "#" (id +:+ String "#" r)) = id) as Hcut
      by (by rewrite split1_app).
    destruct (PyStr.contains "?" (id +:+ String "#" r)) eqn:Hq.
    + rewrite split1_fst_app by done. cbn [PyStr.split1 Ascii.eqb Bool.eqb].
      destruct (PyStr.split1 "?" r) as [r1 ?]. cbn [fst].
      rewrite contains_app_char, split1_app by done. cbn [fst]. by rewrite Hid.
    + rewrite contains_app_char, Hcut. by rewrite Hid.
Qed.

Lemma link_gives_back_its_id_witness :
  _segment_id_from_link "https://www.strava.com/segments/4580190?filter=overall"
  = "4580190".
Proof.
  exact (link_gives_back_its_id "https://www.strava.com/segments" "4580190"
           "?filter=overall" eq_refl eq_refl).
Defined.

(** ** Sheet metadata mapper: [build_segment_name_map] *)

Lemma names_guard (row : gmap string string) :
  PyStr.nonempty (row_segment_id row)
  && PyStr.nonempty (PyStr.strip (cell row "Id-navn")) = true
  ↔ names row (row_segment_id row).
Proof.
  unfold names. rewrite andb_true_iff, !nonempty_true. tauto.
Qed.

Lemma build_segment_name_map_from_spec (rows : list (gmap string string)) :
  ∀ (mapping : gmap string string) (id name : string),
  build_segment_name_map_from mapping rows !! id = Some name ↔
    (∃ before row after,
        rows = before ++ row :: after
        ∧ names row id ∧ PyStr.strip (cell row "Id-navn") = name
        ∧ Forall (λ later, ¬ names later id) after)
    ∨ (mapping !! id = Some name ∧ Forall (λ row, ¬ names row id) rows).
Proof.
  induction rows as [|r rows IH]; intros mapping id name; simpl.
  { split; [intros ?; right; by split|].
    intros [(before & row & after & Hrows & _)|[? _]]; [|done].
    by destruct before. }
  destruct (_ && _) eqn:Hguard.
  - apply names_guard in Hguard. rewrite IH. split.
    + intros [(before & row & after & -> & Hrow)|[Hlook Hafter]].
      * left. by exists (r :: before), row, after.
      * destruct (decide (row_segment_id r = id)) as [<-|Hne].
        -- rewrite lookup_insert_eq in Hlook. injection Hlook as <-.
           left. by exists [], r, rows.
        -- rewrite lookup_insert_ne in Hlook by done. right. split; [done|].
           apply Forall_cons. split; [|done]. by intros [? _].
    + intros [(before & row & after & Hrows & Hrow & Hname & Hafter)|[Hlook Hnone]].
      * destruct before as [|r' before]; simpl in Hrows.
        -- injection Hrows as -> ->. right. destruct Hrow as (<- & _).
           by rewrite lookup_insert_eq, Hname.
        -- injection Hrows as -> ->. left. by exists before, row, after.
      * apply Forall_cons in Hnone as [Hr Hnone]. right. split; [|done].
        rewrite lookup_insert_ne; [done|].
        intros Heq. apply Hr. by rewrite <- Heq.
  - assert (∀ x, ¬ names r x) as Hnot.
    { intros x (<- & Hx). apply not_true_iff_false in Hguard. apply Hguard.
      by apply names_guard. }
    rewrite IH. split.
    + intros [(before & row & after & -> & Hrow)|[Hlook Hafter]].
      * left. by exists (r :: before), row, after.
      * right. split; [done|]. apply Forall_cons. by split.
    + intros [(before & row & after & Hrows & Hrow & Hname & Hafter)|[Hlook Hnone]].
      * destruct before as [|r' before]; simpl in Hrows.
        -- injection Hrows as -> ->. by destruct (Hnot id).
        -- injection Hrows as -> ->. left. by exists before, row, after.
      * apply Forall_cons in Hnone as [_ Hnone]. by right.
Qed.

(** X11.  The name mapping holds [name] for a segment id exactly when some
    row gives the id a name, [name] is the stripped [Id-navn] cell of that
    row, and no later row gives the id a name: the last naming row wins, and
    rows without an id in their link or with a blank name change nothing. *)
Theorem name_map_last_row_wins (rows : list (gmap string string))
    (id name : string) :
  build_segment_name_map rows !! id = Some name ↔
    ∃ before row after,
      rows = before ++ row :: after
      ∧ names row id ∧ PyStr.strip (cell row "Id-navn") = name
      ∧ Forall (λ later, ¬ names later id) after.
Proof.
  unfold build_segment_name_map. rewrite build_segment_name_map_from_spec.
  rewrite lookup_empty. split; [|by left]. by intros [?|[? _]].
Qed.

(** X12.  Every entry of the name mapping has a key that is a number and is
    among the ids returned by [extract_segment_ids] for the same rows, and a
    name that is not empty and has no surrounding whitespace. *)
Theorem name_map_entries (rows : list (gmap string string)) (id name : string) :
  build_segment_name_map rows !! id = Some name →
  PyStr.isdigit id = true
  ∧ id ∈ extract_segment_ids rows
  ∧ name ≠ EmptyString ∧ PyStr.strip name = name.
Proof.
  unfold build_segment_name_map. rewrite build_segment_name_map_from_spec.
  rewrite lookup_empty.
  intros [(before & row & after & -> & (Hid & Hne & Hnamed) & <- & _)|[? _]]; [|done].
  split; [|split; [|split; [done|apply strip_idem]]].
  - rewrite <- Hid in *. by apply segment_id_from_link_digits.
  - unfold extract_segment_ids.
    apply (extract_from_spec _ [] ∅); [set_solver|apply NoDup_nil_2|].
    right. split; [done|]. exists row. split; [|done].
    apply elem_of_app. right. apply list_elem_of_here.
Qed.

Lemma name_map_entries_witness :
  let rows : list (gmap string string) :=
    [{[ "Id-navn" := " soria "; "Segment" := "https://www.strava.com/segments/4580190" ]};
     {[ "Id-navn" := EmptyString; "Segment" := EmptyString ]}] in
  build_segment_name_map rows !! "4580190" = Some "soria"
  ∧ "4580190" ∈ extract_segment_ids rows.
Proof.
  intros rows.
  assert (build_segment_name_map rows !! "4580190" = Some "soria") as Hlook
    by (vm_compute; reflexivity).
  split; [exact Hlook|].
  exact (proj1 (proj2 (name_map_entries rows "4580190" "soria" Hlook))).
Defined.

(** ** Row formatter: efforts for which the rows are produced *)

Lemma str_forall_app (p : ascii → bool) (a b : string) :
  str_forall p (a +:+ b) = str_forall p a && str_forall p b.
Proof.
  induction a as [|c a IH]; [done|]. simpl. by rewrite IH, andb_assoc.
Qed.










Lemma digit_char_numeric (x : Z) :
  0 < x → numeric_char (Lit.digit_char (x mod 10)) = true.
Proof.
  intros Hx. pose proof (Z.mod_pos_bound x 10 ltac:(lia)) as Hd.
  set (d := x mod 10) in *. clearbody d.
  assert (d = 0 ∨ d = 1 ∨ d = 2 ∨ d = 3 ∨ d = 4 ∨ d = 5 ∨ d = 6 ∨ d = 7
          ∨ d = 8 ∨ d = 9) as Hcases by lia.
  repeat destruct Hcases as [->|Hcases]; try reflexivity. by subst d.
Qed.

Lemma numeric_digits_of_go (fuel : nat) : ∀ (x : Z) (acc : string),
  str_forall numeric_char (Lit.digits_of_go fuel x acc) = str_forall numeric_char acc.
Proof.
  induction fuel as [|fuel IH]; intros x acc; simpl; [done|].
  destruct (x <=? 0) eqn:Hx; [done|]. apply Z.leb_gt in Hx.
  rewrite IH. cbn [str_forall]. by rewrite digit_char_numeric.
Qed.

Lemma numeric_str_of_Z (z : Z) : str_forall numeric_char (Lit.str_of_Z z) = true.
Proof.
  destruct z as [|p|p]; unfold Lit.str_of_Z; [reflexivity| |].
  - by rewrite numeric_digits_of_go.
  - cbn [str_forall]. by rewrite numeric_digits_of_go.
Qed.













(** ** Name prompt *)




Lemma wrote_not_shown (options : list string) (prompt text : string) :
  Wrote text ∉ print_options options ++ [Prompted prompt].
Proof.
  assert (∀ idx, Wrote text ∉ print_numbered idx options) as Hnum.
  { induction options as [|o options IH]; intros idx; simpl.
    - apply not_elem_of_nil.
    - apply not_elem_of_cons. split; [done|apply IH]. }
  rewrite elem_of_app, list_elem_of_singleton.
  intros [Hin|?]; [|done]. destruct options as [|o options].
  - by apply list_elem_of_singleton in Hin.
  - unfold print_options in Hin.
    apply elem_of_cons in Hin as [?|Hin]; [done|].
    apply elem_of_app in Hin as [Hin|Hin%list_elem_of_singleton]; [|done].
    by apply Hnum in Hin.
Qed.



(** X15.  The cache file is written only with the name that is returned:
    every write of a call is of a non-empty name to a non-empty path, the
    call returns that name, and the write is the last thing the call does.
    In particular a call that raises has written nothing. *)
Theorem cache_holds_only_returned_names (w : world) (cache_path : string)
    (suggested_names : option (list string)) (events : list event)
    (result : outcome) (text : string) :
  load_or_prompt_navn w cache_path suggested_names = (events, result) →
  Wrote text ∈ events →
  result = Returns text ∧ text ≠ EmptyString ∧ cache_path ≠ EmptyString
  ∧ ∃ shown, events = shown ++ [Wrote text] ∧ Wrote text ∉ shown.
Proof.
  unfold load_or_prompt_navn.
  destruct (PyStr.nonempty (_read_cached_navn _ _)).
  { intros [= <- <-] Hin. by apply elem_of_nil in Hin. }
  destruct (PyStr.nonempty (PyStr.strip (typed w))); simpl.
  2: { intros [= <- <-] Hin. by apply wrote_not_shown in Hin. }
  destruct (chosen_navn _ _ _) as [navn_value|].
  2: { intros [= <- <-] Hin. by apply wrote_not_shown in Hin. }
  destruct (PyStr.nonempty navn_value) eqn:Hvalue; simpl.
  2: { intros [= <- <-] Hin. by apply wrote_not_shown in Hin. }
  unfold _write_cached_navn.
  destruct (PyStr.nonempty cache_path) eqn:Hpath; simpl.
  2: { intros [= <- <-] Hin. rewrite app_nil_r in Hin.
       by apply wrote_not_shown in Hin. }
  destruct (cache_writable w).
  2: { intros [= <- <-] Hin. by apply wrote_not_shown in Hin. }
  intros [= <- <-] [Hin|Hin%list_elem_of_singleton]%elem_of_app.
  { by apply wrote_not_shown in Hin. }
  injection Hin as ->.
  split; [done|]. split; [by apply nonempty_true|]. split; [by apply nonempty_true|].
  eexists. split; [reflexivity|apply wrote_not_shown].
Qed.

Lemma cache_holds_only_returned_names_witness :
  let w := {| cache_file := None; cache_writable := true; typed := " Fresh ";
              fetched_names := []; int_max_str_digits := 4300 |} in
  snd (load_or_prompt_navn w "navn.txt" (Some [])) = Returns "Fresh".
Proof.
  intros w.
  destruct (load_or_prompt_navn w "navn.txt" (Some [])) as [events result] eqn:Hcall.
  refine (proj1 (cache_holds_only_returned_names w "navn.txt" (Some []) events result
                   "Fresh" Hcall _)).
  vm_compute in Hcall. injection Hcall as <- <-.
  apply elem_of_cons. right. apply elem_of_cons. right. apply list_elem_of_here.
Defined.

(** *** Choosing a suggestion by its number *)

Lemma digit_val_digit_char (d : Z) :
  0 <= d <= 9 → Lit.digit_val (Lit.digit_char d) = Some d.
Proof.
  intros Hd.
  assert (d = 0 ∨ d = 1 ∨ d = 2 ∨ d = 3 ∨ d = 4 ∨ d = 5 ∨ d = 6 ∨ d = 7
          ∨ d = 8 ∨ d = 9) as Hcases by lia.
  repeat destruct Hcases as [->|Hcases]; try reflexivity. by subst d.
Qed.

(** Reading back the digits written by [str]. *)
Lemma digits_digits_of_go (fuel : nat) : ∀ (x : Z) (acc : string) (a c : Z),
  0 <= x < 2 ^ Z.of_nat fuel →
  ∃ k, 0 <= k
    ∧ Lit.digits (Lit.digits_of_go fuel x acc) a c = Lit.digits acc (a * 10 ^ k + x) (c + k)
    ∧ (x = 0 → k = 0)
    ∧ (0 < x → 0 < k ∧ 10 ^ (k - 1) <= x).
Proof.
  induction fuel as [|fuel IH]; intros x acc a c Hx.
  { exists 0. simpl in *. assert (x = 0) as -> by lia.
    split; [done|]. split; [f_equal; lia|]. split; [done|lia]. }
  cbn [Lit.digits_of_go]. destruct (x <=? 0) eqn:Hle.
  { apply Z.leb_le in Hle. assert (x = 0) as -> by lia. exists 0.
    split; [done|]. split; [f_equal; lia|]. split; [done|lia]. }
  apply Z.leb_gt in Hle.
  assert (0 <= x / 10 < 2 ^ Z.of_nat fuel) as Hdiv.
  { split; [apply Z.div_pos; lia|].
    rewrite Nat2Z.inj_succ, Z.pow_succ_r in Hx by lia.
    apply Z.div_lt_upper_bound; lia. }
  pose proof (Z.mod_pos_bound x 10 ltac:(lia)) as Hmod.
  pose proof (Z.div_mod x 10 ltac:(lia)) as Hsplit.
  destruct (IH (x / 10) (String (Lit.digit_char (x mod 10)) acc) a c Hdiv)
    as (k & Hk & -> & Hzero & Hlow).
  exists (k + 1). split; [lia|].
  cbn [Lit.digits]. rewrite digit_val_digit_char by lia.
  rewrite Z.pow_add_r, Z.pow_1_r by lia.
  split; [f_equal; lia|]. split; [lia|]. intros _. split; [lia|].
  replace (k + 1 - 1) with k by lia.
  destruct (decide (x / 10 = 0)) as [Hnone|Hsome].
  - rewrite (Hzero Hnone). simpl. lia.
  - destruct Hlow as [Hk' Hpow]; [lia|].
    replace k with (k - 1 + 1) at 1 by lia.
    rewrite Z.pow_add_r, Z.pow_1_r by lia. lia.
Qed.

Lemma digits_str_of_Z (k : Z) :
  0 <= k →
  ∃ cnt, Lit.digits (Lit.str_of_Z k) 0 0 = (k, cnt, EmptyString)
       ∧ 0 < cnt ∧ 10 ^ (cnt - 1) <= Z.max k 1.
Proof.
  intros Hk. destruct k as [|p|p]; [|clear Hk|lia].
  { exists 1. split; [reflexivity|]. split; [lia|]. simpl. lia. }
  unfold Lit.str_of_Z.
  pose proof (Z.log2_spec (Z.pos p) ltac:(lia)) as Hlog.
  pose proof (Z.log2_nonneg (Z.pos p)) as Hnonneg.
  destruct (digits_digits_of_go (S (Z.to_nat (Z.log2 (Z.pos p)))) (Z.pos p)
              EmptyString 0 0) as (cnt & Hcnt & Hread & _ & Hlow).
  { rewrite Nat2Z.inj_succ, Z2Nat.id by done. lia. }
  exists cnt. rewrite Hread. cbn [Lit.digits].
  destruct Hlow as [Hpos Hpow]; [lia|].
  split; [repeat f_equal; lia|]. split; [done|]. lia.
Qed.

Lemma all_digits_digits_of_go (fuel : nat) : ∀ (x : Z) (acc : string),
  PyStr.all_digits (Lit.digits_of_go fuel x acc) = PyStr.all_digits acc.
Proof.
  induction fuel as [|fuel IH]; intros x acc; simpl; [done|].
  destruct (x <=? 0) eqn:Hx; [done|]. apply Z.leb_gt in Hx.
  rewrite IH. cbn [PyStr.all_digits].
  assert (PyStr.is_digit_char (Lit.digit_char (x mod 10)) = true) as ->; [|done].
  pose proof (Z.mod_pos_bound x 10 ltac:(lia)) as Hd.
  set (d := x mod 10) in *. clearbody d.
  assert (d = 0 ∨ d = 1 ∨ d = 2 ∨ d = 3 ∨ d = 4 ∨ d = 5 ∨ d = 6 ∨ d = 7
          ∨ d = 8 ∨ d = 9) as Hcases by lia.
  repeat destruct Hcases as [->|Hcases]; try reflexivity. by subst d.
Qed.

Lemma isdigit_str_of_Z (k : Z) : 0 <= k → PyStr.isdigit (Lit.str_of_Z k) = true.
Proof.
  intros Hk. unfold PyStr.isdigit. apply andb_true_iff. split.
  - destruct (digits_str_of_Z k Hk) as (cnt & Hread & Hcnt & _).
    destruct (Lit.str_of_Z k); [|done]. simpl in Hread. injection Hread. lia.
  - destruct k as [|p|p]; [done| |lia]. unfold Lit.str_of_Z.
    by rewrite all_digits_digits_of_go.
Qed.

Lemma str_forall_impl (p q : ascii → bool) (s : string) :
  (∀ c, p c = true → q c = true) →
  str_forall p s = true → str_forall q s = true.
Proof.
  intros Himpl. induction s as [|c s IH]; [done|]. simpl.
  intros [Hc Hs]%andb_true_iff. by rewrite (Himpl c Hc), IH.
Qed.

Lemma all_digits_forall (s : string) :
  PyStr.all_digits s = str_forall PyStr.is_digit_char s.
Proof. induction s as [|c s IH]; [done|]. simpl. by rewrite IH. Qed.

Lemma strip_plain (s : string) :
  str_forall (λ c, negb (PyStr.is_space c)) s = true → PyStr.strip s = s.
Proof.
  intros Hs. unfold PyStr.strip, PyStr.lstrip, PyStr.rstrip.
  assert (PyStr.lstrip_by PyStr.is_space s = s) as ->.
  { destruct s as [|c s]; [done|]. simpl in *.
    apply andb_true_iff in Hs as [Hc%negb_true_iff _]. by rewrite Hc. }
  rewrite <- (append_nil_r s) at 1.
  rewrite rstrip_by_app_kept by done. apply append_nil_r.
Qed.

(** A number written by [str], followed by full stops only, is read at the
    prompt as that number. *)
Lemma numbered_input (max_str_digits k : Z) (dots : string) :
  0 <= k →
  str_forall (λ c, Ascii.eqb c ".") dots = true →
  max_str_digits <= 0 ∨ k < 10 ^ max_str_digits →
  let text := Lit.str_of_Z k +:+ dots in
  PyStr.nonempty (PyStr.strip text) = true
  ∧ PyStr.isdigit (PyStr.rstrip_char "." (PyStr.strip text)) = true
  ∧ py_int_digits max_str_digits (PyStr.rstrip_char "." (PyStr.strip text)) = Ok k.
Proof.
  intros Hk Hdots Hlimit text.
  pose proof (isdigit_str_of_Z k Hk) as Hisdigit.
  pose proof Hisdigit as [Hne Hdigits]%andb_true_iff.
  rewrite all_digits_forall in Hdigits.
  assert (PyStr.strip text = text) as ->.
  { apply strip_plain. unfold text. rewrite str_forall_app. apply andb_true_iff.
    split; (eapply str_forall_impl; [|done]).
    - intros c Hc. by destruct c as [[] [] [] [] [] [] [] []].
    - by intros c ->%Ascii.eqb_eq. }
  assert (PyStr.rstrip_char "." text = Lit.str_of_Z k) as ->.
  { unfold PyStr.rstrip_char, text. rewrite rstrip_by_app_kept.
    - by rewrite rstrip_by_all, append_nil_r.
    - eapply str_forall_impl; [|exact Hdigits].
      intros c Hc. by destruct c as [[] [] [] [] [] [] [] []]. }
  split; [unfold text; by destruct (Lit.str_of_Z k)|]. split; [done|].
  unfold py_int_digits.
  destruct (digits_str_of_Z k Hk) as (cnt & -> & Hcnt & Hlow).
  assert ((0 <? max_str_digits) && (max_str_digits <? cnt) = false) as ->.
  { apply andb_false_iff.
    destruct (decide (0 < max_str_digits)) as [Hsome|?]; [|left; lia].
    destruct Hlimit as [?|Hsmall]; [lia|].
    right. apply Z.ltb_ge.
    destruct (decide (cnt <= max_str_digits)) as [?|Hmore]; [done|].
    assert (10 ^ max_str_digits <= 10 ^ (cnt - 1)) by (apply Z.pow_le_mono_r; lia).
    assert (1 < 10 ^ max_str_digits) by (apply Z.pow_gt_1; lia).
    lia. }
  assert ((0 <? cnt) = true) as -> by lia. done.
Qed.

Lemma print_numbered_elem (options : list string) : ∀ (idx : Z) (i : nat) (name : string),
  options !! i = Some name →
  Printed (Lit.str_of_Z (idx + Z.of_nat i) +:+ ". " +:+ name)
    ∈ print_numbered idx options.
Proof.
  induction options as [|o options IH]; intros idx i name; [done|].
  destruct i as [|i]; cbn [print_numbered].
  - intros [= ->]. change (Z.of_nat 0) with 0. rewrite Z.add_0_r.
    apply list_elem_of_here.
  - intros Hi. apply list_elem_of_further.
    replace (idx + Z.of_nat (S i)) with (idx + 1 + Z.of_nat i) by lia.
    by apply IH.
Qed.

(** X16.  Typing the number that is printed before a suggestion, with or
    without the full stop after it, chooses that suggestion: when there is no
    cached name, the suggestion is not empty and the cache file can be
    written (or there is no cache path), the line of the suggestion has been
    printed and the call returns the suggestion.  The number must have no
    more digits than the interpreter converts. *)
Theorem typed_number_picks_suggestion (w : world) (cache_path : string)
    (suggested_names : option (list string)) (options : list string)
    (i : nat) (name dots : string) :
  _read_cached_navn cache_path (cache_file w) = EmptyString →
  default (fetched_names w) suggested_names = options →
  options !! i = Some name → name ≠ EmptyString →
  typed w = Lit.str_of_Z (Z.of_nat i + 1) +:+ dots →
  str_forall (λ c, Ascii.eqb c ".") dots = true →
  int_max_str_digits w <= 0 ∨ Z.of_nat i + 1 < 10 ^ int_max_str_digits w →
  cache_path = EmptyString ∨ cache_writable w = true →
  Printed (Lit.str_of_Z (Z.of_nat i + 1) +:+ ". " +:+ name)
    ∈ fst (load_or_prompt_navn w cache_path suggested_names)
  ∧ snd (load_or_prompt_navn w cache_path suggested_names) = Returns name.
Proof.
  intros Hcache Hoptions Hi Hname%nonempty_true Htyped Hdots Hlimit Hwrite.
  destruct (numbered_input (int_max_str_digits w) (Z.of_nat i + 1) dots
              ltac:(lia) Hdots Hlimit) as (Hne & Hisdigit & Hint).
  rewrite <- Htyped in Hne, Hisdigit, Hint.
  assert (match suggested_names with
          | Some names => names
          | None => fetched_names w
          end = options) as Hopts by (by destruct suggested_names).
  assert (chosen_navn (int_max_str_digits w) options (PyStr.strip (typed w)) = Ok name)
    as Hchosen.
  { unfold chosen_navn. destruct options as [|o options]; [done|].
    rewrite Hisdigit, Hint. run_bind.
    pose proof (lookup_lt_Some _ _ _ Hi) as Hlt.
    replace (Z.of_nat i + 1 - 1) with (Z.of_nat i) by lia.
    assert ((0 <=? Z.of_nat i) && (Z.of_nat i <? Z.of_nat (length (o :: options)))
            = true) as -> by lia.
    rewrite Nat2Z.id. f_equal. by apply nth_lookup_Some. }
  assert (Printed (Lit.str_of_Z (Z.of_nat i + 1) +:+ ". " +:+ name)
            ∈ print_options options ++ [Prompted "NAVN: "]) as Hprinted.
  { apply elem_of_app. left. destruct options as [|o options]; [done|].
    unfold print_options. apply list_elem_of_further, elem_of_app. left.
    rewrite (Z.add_comm (Z.of_nat i) 1). by apply print_numbered_elem. }
  unfold load_or_prompt_navn. rewrite Hcache, Hopts, Hne, Hchosen, Hname.
  cbn [PyStr.nonempty negb]. unfold _write_cached_navn.
  destruct Hwrite as [->| ->].
  - cbn [PyStr.nonempty negb fst snd]. split; [|done].
    apply elem_of_app. by left.
  - destruct (PyStr.nonempty cache_path); cbn [negb fst snd]; (split; [|done]);
      apply elem_of_app; by left.
Qed.

Lemma typed_number_picks_suggestion_witness :
  let w := {| cache_file := None; cache_writable := true; typed := "3.";
              fetched_names := []; int_max_str_digits := 4300 |} in
  snd (load_or_prompt_navn w "navn.txt" (Some ["Ana"; "Bob"; "Cara"])) = Returns "Cara".
Proof.
  intros w.
  refine (proj2 (typed_number_picks_suggestion w "navn.txt" (Some ["Ana"; "Bob"; "Cara"])
                   ["Ana"; "Bob"; "Cara"] 2 "Cara" "." eq_refl eq_refl eq_refl
                   ltac:(discriminate) eq_refl eq_refl _ (or_intror eq_refl))).
  right. apply Z.lt_le_trans with (10 ^ 1); [done|].
  apply Z.pow_le_mono_r; done.
Defined.

(** ** Athlete names *)

Lemma trimmed_strip (cell : string) :
  PyStr.nonempty (PyStr.strip cell) = true → trimmed (PyStr.strip cell).
Proof. intros Hne. split; [by apply nonempty_true|apply strip_idem]. Qed.

Lemma trimmed_snoc (names : list string) (value : string) :
  Forall trimmed names → PyStr.strip value = value →
  Forall trimmed (if PyStr.nonempty value then names ++ [value] else names).
Proof.
  intros Hnames Hvalue. destruct (PyStr.nonempty value) eqn:Hne; [|done].
  apply Forall_app. split; [done|]. apply Forall_singleton.
  split; [by apply nonempty_true|done].
Qed.

Lemma append_from_column_trimmed (limit : Z) (index : nat)
    (rows : list (list string)) : ∀ names,
  Forall trimmed names → Forall trimmed (_append_from_column limit names rows index).
Proof.
  induction rows as [|row rows IH]; intros names Hnames; simpl; [done|].
  destruct (row !! index) as [cell|]; [|by apply IH].
  pose proof (trimmed_snoc names (PyStr.strip cell) Hnames (strip_idem cell)) as Hnext.
  destruct (limit <=? _); [done|by apply IH].
Qed.

Lemma first_value_stripped (values : list field) (value : string) :
  first_value values = Ok value → PyStr.strip value = value.
Proof.
  induction values as [|[cell| |[|c cells]] values IH]; simpl; try done.
  - by intros [= <-].
  - destruct (_ && _); [|done]. intros [= <-]. apply strip_idem.
Qed.

Lemma named_cell_stripped (row : dict_row) (column value : string) :
  named_cell row column = Ok value → PyStr.strip value = value.
Proof.
  unfold named_cell.
  destruct (dict_get row (Some column)) as [[cell| |[|c cells]]|]; try done;
    intros [= <-]; [apply strip_idem|done..].
Qed.

Lemma names_from_dicts_trimmed (limit : Z) (reader : list dict_row) :
  ∀ name_column names found,
  Forall trimmed names →
  names_from_dicts limit name_column names reader = Ok found →
  Forall trimmed found.
Proof.
  induction reader as [|row reader IH]; intros name_column names found Hnames; simpl.
  { by intros [= <-]. }
  set (column := match name_column with
                 | Some c => Some c
                 | None => find_name_column (map fst row)
                 end).
  destruct (match column with
            | Some c => named_cell row c
            | None => first_value (map snd row)
            end) as [cell_value|] eqn:Hcell; run_bind; [|done].
  assert (PyStr.strip cell_value = cell_value) as Hstripped.
  { destruct column; [by eapply named_cell_stripped|by eapply first_value_stripped]. }
  pose proof (trimmed_snoc names cell_value Hnames Hstripped) as Hnext.
  destruct (limit <=? _); [by intros [= <-]|by apply IH].
Qed.

(** X17.  When [fetch_athlete_names] returns, it returns at most [limit]
    names, none for a limit that is not positive, and every name is
    non-empty and has no surrounding whitespace. *)
Theorem athlete_names_are_few_and_trimmed (limit : Z)
    (response : option (list (list string))) (found : list string) :
  fetch_athlete_names limit response = Ok found →
  Z.of_nat (length found) <= Z.max limit 0 ∧ Forall trimmed found.
Proof.
  unfold fetch_athlete_names. destruct (limit <=? 0) eqn:Hlimit.
  { intros [= <-]. split; [simpl; lia|done]. }
  apply Z.leb_gt in Hlimit.
  destruct response as [[|header data_rows]|]; try (intros [= <-]; split; [simpl; lia|done]).
  set (index := if (1 <? length header)%nat then 1%nat else 0%nat).
  pose proof (append_from_column_trimmed limit index data_rows [] ltac:(done)) as Hfirst.
  destruct (match _append_from_column limit [] data_rows index with
            | [] => _
            | _ => _
            end) as [names|] eqn:Hnames; run_bind; [|done].
  intros [= <-]. split; [rewrite length_take; lia|].
  apply Forall_take.
  destruct (_append_from_column limit [] data_rows index) as [|n ns].
  - by eapply names_from_dicts_trimmed.
  - by injection Hnames as <-.
Qed.

Lemma athlete_names_are_few_and_trimmed_witness :
  fetch_athlete_names 2 (Some [["Lag"; "Navn"]; ["A"; " Tor "]; ["B"; "Lise"];
                               ["C"; "Kari"]])
  = Ok ["Tor"; "Lise"]
  ∧ Forall trimmed ["Tor"; "Lise"].
Proof.
  assert (fetch_athlete_names 2 (Some [["Lag"; "Navn"]; ["A"; " Tor "]; ["B"; "Lise"];
                                       ["C"; "Kari"]])
          = Ok ["Tor"; "Lise"]) as Hfound by (vm_compute; reflexivity).
  split; [exact Hfound|].
  exact (proj2 (athlete_names_are_few_and_trimmed 2 _ _ Hfound)).
Defined.

Lemma column_names_cons (index : nat) (row : list string) (rows : list (list string)) :
  column_names index (row :: rows) =
    match row !! index with
    | Some cell =>
        if PyStr.nonempty (PyStr.strip cell)
        then PyStr.strip cell :: column_names index rows
        else column_names index rows
    | None => column_names index rows
    end.
Proof.
  unfold column_names. simpl. destruct (row !! index) as [cell|]; [|done]. simpl.
  destruct (PyStr.nonempty (PyStr.strip cell)) eqn:Hne.
  - apply nonempty_true in Hne. by rewrite filter_cons_True.
  - apply nonempty_false in Hne. rewrite filter_cons_False; [done|]. by intros ?.
Qed.

Lemma append_from_column_spec (limit : Z) (index : nat) (rows : list (list string)) :
  ∀ names,
  Z.of_nat (length names) < limit →
  _append_from_column limit names rows index
  = take (Z.to_nat limit) (names ++ column_names index rows).
Proof.
  induction rows as [|row rows IH]; intros names Hroom; simpl.
  { unfold column_names. simpl. rewrite app_nil_r, take_ge; [done|lia]. }
  rewrite column_names_cons. destruct (row !! index) as [cell|]; [|by apply IH].
  destruct (PyStr.nonempty (PyStr.strip cell)).
  - destruct (limit <=? _) eqn:Hfull; rewrite length_app in Hfull; simpl in Hfull.
    + apply Z.leb_le in Hfull.
      rewrite (cons_middle (PyStr.strip cell) names (column_names index rows)).
      rewrite (app_assoc names [PyStr.strip cell]). symmetry.
      apply take_app_length'. rewrite length_app. simpl. lia.
    + apply Z.leb_gt in Hfull. rewrite IH by (rewrite length_app; simpl; lia).
      by rewrite <- (app_assoc names [PyStr.strip cell]).
  - assert ((limit <=? Z.of_nat (length names)) = false) as -> by lia.
    by apply IH.
Qed.

(** X18.  When some data row has a non-blank cell in the name column (the
    second column when the header has more than one cell, else the first),
    the names returned are the first [limit] non-blank cells of that column,
    stripped, in the order of the rows; rows too short for the column and
    blank cells are passed over, and the header row is never a name. *)
Theorem athlete_names_come_from_the_column (limit : Z)
    (header : list string) (data_rows : list (list string)) :
  0 < limit →
  let index := if (1 <? length header)%nat then 1%nat else 0%nat in
  column_names index data_rows ≠ [] →
  fetch_athlete_names limit (Some (header :: data_rows))
  = Ok (take (Z.to_nat limit) (column_names index data_rows)).
Proof.
  intros Hlimit index Hsome. unfold fetch_athlete_names.
  assert ((limit <=? 0) = false) as -> by lia.
  fold index. rewrite append_from_column_spec by (simpl; lia). simpl app.
  destruct (take (Z.to_nat limit) (column_names index data_rows)) as [|n ns] eqn:Htake.
  - exfalso. destruct (column_names index data_rows) as [|c cs]; [done|].
    destruct (Z.to_nat limit) eqn:Hn; [lia|done].
  - run_bind. rewrite <- Htake. by rewrite take_take, Nat.min_id.
Qed.

Lemma athlete_names_come_from_the_column_witness :
  fetch_athlete_names 2 (Some [["Lag"; "Navn"]; ["A"; " Tor "]; ["B"]; ["C"; "  "];
                               ["D"; "Lise"]; ["E"; "Kari"]])
  = Ok ["Tor"; "Lise"].
Proof.
  exact (athlete_names_come_from_the_column 2 ["Lag"; "Navn"]
           [["A"; " Tor "]; ["B"]; ["C"; "  "]; ["D"; "Lise"]; ["E"; "Kari"]]
           ltac:(done) ltac:(discriminate)).
Defined.

(** *** The second reading *)

Lemma dict_set_items (P : option string * field → Prop) (d : dict_row)
    (key : option string) (value : field) :
  Forall P d → P (key, value) → Forall P (dict_set d key value).
Proof.
  intros Hd Hitem. induction d as [|[k v] d IH]; simpl.
  { by apply Forall_singleton. }
  apply Forall_cons in Hd as [Hkv Hd].
  destruct (decide (k = key)) as [->|_]; apply Forall_cons; auto.
Qed.

Lemma dict_set_keys (d : dict_row) (key : option string) (value : field)
    (k : option string) :
  k ∈ map fst (dict_set d key value) ↔ k = key ∨ k ∈ map fst d.
Proof.
  induction d as [|[k' v] d IH]; simpl.
  { rewrite list_elem_of_singleton. split; [by left|]. intros [?|Hin]; [done|].
    by apply elem_of_nil in Hin. }
  destruct (decide (k' = key)) as [->|Hne]; simpl; rewrite !elem_of_cons.
  - tauto.
  - rewrite IH. tauto.
Qed.

Lemma zip_row_items (P : option string * field → Prop)
    (fieldnames : list string) : ∀ (row : list string) (d : dict_row),
  (∀ name cell, P (Some name, Text cell)) →
  Forall P d → Forall P (zip_row d fieldnames row).
Proof.
  induction fieldnames as [|name fieldnames IH]; intros [|cell row] d HP Hd;
    simpl; try done.
  apply IH; [done|]. by apply dict_set_items.
Qed.

Lemma zip_row_keys (fieldnames : list string) : ∀ (row : list string) (d : dict_row)
    (k : option string),
  k ∈ map fst d ∨ k ∈ map Some (take (length row) fieldnames) →
  k ∈ map fst (zip_row d fieldnames row).
Proof.
  induction fieldnames as [|name fieldnames IH]; intros [|cell row] d k; simpl.
  - intros [?|Hin]; [done|]. by apply elem_of_nil in Hin.
  - intros [?|Hin]; [done|]. by apply elem_of_nil in Hin.
  - intros [?|Hin]; [done|]. by apply elem_of_nil in Hin.
  - rewrite elem_of_cons. intros [Hin|[->|Hin]]; apply IH.
    + left. apply dict_set_keys. by right.
    + left. apply dict_set_keys. by left.
    + by right.
Qed.

Lemma fill_items (P : option string * field → Prop) (keys : list string) :
  ∀ d : dict_row,
  (∀ key, P (Some key, Missing)) →
  Forall P d → Forall P (foldl (λ d key, dict_set d (Some key) Missing) d keys).
Proof.
  induction keys as [|key keys IH]; intros d HP Hd; simpl; [done|].
  apply IH; [done|]. by apply dict_set_items.
Qed.

Lemma fill_keys (keys : list string) : ∀ (d : dict_row) (k : option string),
  k ∈ map fst d ∨ k ∈ map Some keys →
  k ∈ map fst (foldl (λ d key, dict_set d (Some key) Missing) d keys).
Proof.
  induction keys as [|key keys IH]; intros d k; simpl.
  - intros [?|Hin]; [done|]. by apply elem_of_nil in Hin.
  - rewrite elem_of_cons. intros [Hin|[->|Hin]]; apply IH.
    + left. apply dict_set_keys. by right.
    + left. apply dict_set_keys. by left.
    + by right.
Qed.

Lemma dict_of_row_keyed (fieldnames row : list string) :
  Forall keyed_item (dict_of_row fieldnames row).
Proof.
  unfold dict_of_row.
  pose proof (zip_row_items keyed_item fieldnames row [] ltac:(done) ltac:(done)) as Hzip.
  destruct (length fieldnames <? length row)%nat; [by apply dict_set_items|].
  destruct (length row <? length fieldnames)%nat; [by apply fill_items|done].
Qed.

Lemma dict_of_row_cells (fieldnames row : list string) :
  (length row ≤ length fieldnames)%nat →
  Forall cell_item (dict_of_row fieldnames row).
Proof.
  intros Hshort. unfold dict_of_row.
  pose proof (zip_row_items cell_item fieldnames row [] ltac:(done) ltac:(done)) as Hzip.
  destruct (length fieldnames <? length row)%nat eqn:Hlong;
    [apply Nat.ltb_lt in Hlong; lia|].
  destruct (length row <? length fieldnames)%nat; [by apply fill_items|done].
Qed.

Lemma dict_of_row_keys (fieldnames row : list string) (name : string) :
  name ∈ fieldnames → Some name ∈ map fst (dict_of_row fieldnames row).
Proof.
  intros Hin. unfold dict_of_row.
  destruct (length fieldnames <? length row)%nat eqn:Hlong.
  - apply Nat.ltb_lt in Hlong. apply dict_set_keys. right.
    apply zip_row_keys. right. rewrite take_ge by lia.
    apply list_elem_of_fmap. by exists name.
  - apply Nat.ltb_ge in Hlong.
    destruct (length row <? length fieldnames)%nat eqn:Hshort.
    + rewrite <- (take_drop (length row) fieldnames) in Hin.
      apply elem_of_app in Hin as [Hin|Hin].
      * apply fill_keys. left. apply zip_row_keys. right.
        apply list_elem_of_fmap. by exists name.
      * apply fill_keys. right. apply list_elem_of_fmap. by exists name.
    + apply Nat.ltb_ge in Hshort. apply zip_row_keys. right.
      rewrite take_ge by lia. apply list_elem_of_fmap. by exists name.
Qed.

Lemma find_name_column_some (keys : list (option string)) (column : string) :
  Some column ∈ keys →
  PyStr.nonempty column && is_infix "navn" (PyStr.lower column) = true →
  ∃ found, find_name_column keys = Some found.
Proof.
  intros Hin Hnavn. induction keys as [|[k|] keys IH]; cbn [find_name_column].
  - by apply elem_of_nil in Hin.
  - destruct (PyStr.nonempty k && is_infix "navn" (PyStr.lower k)) eqn:Hk;
      [by eexists|].
    apply elem_of_cons in Hin as [[= <-]|Hin]; [congruence|by apply IH].
  - apply elem_of_cons in Hin as [?|Hin]; [done|by apply IH].
Qed.

Lemma named_cell_returns (row : dict_row) (column : string) :
  Forall keyed_item row → ∃ value, named_cell row column = Ok value.
Proof.
  intros Hrow. unfold named_cell.
  destruct (dict_get row (Some column)) as [[cell| |[|c cells]]|] eqn:Hget;
    try (by eexists).
  exfalso. induction row as [|[k v] row IH]; simpl in Hget; [done|].
  apply Forall_cons in Hrow as [Hkv Hrow].
  destruct (decide (k = Some column)) as [->|_]; [|by apply IH].
  injection Hget as ->. done.
Qed.

Lemma first_value_returns (row : dict_row) :
  Forall cell_item row → ∃ value, first_value (map snd row) = Ok value.
Proof.
  induction row as [|[k v] row IH]; simpl; [by eexists|].
  intros [Hkv Hrow]%Forall_cons.
  destruct v as [cell| |cells]; [|by apply IH|done].
  destruct (_ && _); [by eexists|by apply IH].
Qed.

Lemma names_from_dicts_returns (limit : Z) (reader : list dict_row) :
  Forall (λ row, Forall keyed_item row
                 ∧ (Forall cell_item row
                    ∨ ∃ column, find_name_column (map fst row) = Some column)) reader →
  ∀ name_column names,
  ∃ found, names_from_dicts limit name_column names reader = Ok found.
Proof.
  induction 1 as [|row reader [Hkeyed Hrow] _ IH]; intros name_column names; simpl.
  { by eexists. }
  assert (∃ column cell_value,
            match
              match name_column with
              | Some c => Some c
              | None => find_name_column (map fst row)
              end
            with
            | Some c => named_cell row c
            | None => first_value (map snd row)
            end = Ok cell_value
            ∧ match name_column with
              | Some c => Some c
              | None => find_name_column (map fst row)
              end = column) as (column & cell_value & -> & ->).
  { destruct name_column as [c|].
    - destruct (named_cell_returns row c Hkeyed) as [value ->]. by eexists _, _.
    - destruct Hrow as [Hcells|[c ->]].
      + destruct (find_name_column (map fst row)) as [c|].
        * destruct (named_cell_returns row c Hkeyed) as [value ->]. by eexists _, _.
        * destruct (first_value_returns row Hcells) as [value ->]. by eexists _, _.
      + destruct (named_cell_returns row c Hkeyed) as [value ->]. by eexists _, _. }
  run_bind. destruct (limit <=? _); [by eexists|apply IH].
Qed.

(** X19.  [fetch_athlete_names] raises nothing when the header has a cell
    whose name contains [navn], or when no data row is longer than the
    header.  Without either it can raise: for the header [Lag] alone and a
    row with a blank first cell and a second cell, the second reading meets
    the list of the cells beyond the header and raises [AttributeError]. *)
Theorem athlete_names_are_returned (limit : Z) (header : list string)
    (data_rows : list (list string)) :
  (has_name_column header = true
   ∨ Forall (λ row, (length row ≤ length header)%nat) data_rows →
   ∃ found, fetch_athlete_names limit (Some (header :: data_rows)) = Ok found)
  ∧ fetch_athlete_names 6 (Some [["Lag"]; [EmptyString; "x"]]) = Raise AttributeError.
Proof.
  split; [|vm_compute; reflexivity].
  intros Hsafe. unfold fetch_athlete_names.
  destruct (limit <=? 0); [by eexists|].
  destruct (_append_from_column _ _ _ _) as [|n ns]; [|run_bind; by eexists].
  destruct (names_from_dicts_returns limit (dict_rows (header :: data_rows)))
    with (name_column := @None string) (names := @nil string) as [found ->];
    [|run_bind; by eexists].
  unfold dict_rows. apply Forall_fmap, Forall_forall. intros row Hrow. simpl.
  apply list_elem_of_filter in Hrow as [_ Hrow].
  split; [apply dict_of_row_keyed|].
  destruct Hsafe as [Hnavn|Hshort].
  - right. unfold has_name_column in Hnavn.
    apply existsb_exists in Hnavn as (column & Hin%list_elem_of_In & Hnavn).
    eapply find_name_column_some; [|exact Hnavn]. by apply dict_of_row_keys.
  - left. apply dict_of_row_cells. rewrite Forall_forall in Hshort. by apply Hshort.
Qed.

Lemma athlete_names_are_returned_witness :
  ∃ found,
    fetch_athlete_names 6 (Some [["Navn"; "Lag"]; ["Tor"; EmptyString; "x"]]) = Ok found.
Proof.
  apply (proj1 (athlete_names_are_returned 6 ["Navn"; "Lag"]
                  [["Tor"; EmptyString; "x"]])).
  left. vm_compute. reflexivity.
Defined.

(** ** Row formatter: the elapsed time can be read back *)

Lemma numeric_no_colon (s : string) :
  str_forall numeric_char s = true → PyStr.contains ":" s = false.
Proof.
  induction s as [|c s IH]; [done|]. simpl.
  intros [Hc Hs]%andb_true_iff. rewrite IH by done.
  by destruct c as [[] [] [] [] [] [] [] []].
Qed.

Lemma fmt_02d_reads_back (k : Z) :
  0 <= k →
  py_int_digits 0 (fmt_02d k) = Ok k ∧ PyStr.contains ":" (fmt_02d k) = false.
Proof.
  intros Hk. unfold fmt_02d. destruct ((0 <=? k) && (k <? 10)) eqn:Hsmall.
  - assert (k = 0 ∨ k = 1 ∨ k = 2 ∨ k = 3 ∨ k = 4 ∨ k = 5 ∨ k = 6 ∨ k = 7
            ∨ k = 8 ∨ k = 9) as Hcases by lia.
    repeat destruct Hcases as [->|Hcases]; try (split; reflexivity).
    subst k. split; reflexivity.
  - split; [|apply numeric_no_colon, numeric_str_of_Z].
    unfold py_int_digits.
    destruct (digits_str_of_Z k Hk) as (cnt & -> & Hcnt & _).
    assert ((0 <? cnt) = true) as -> by lia. done.
Qed.

(** X20.  For an elapsed time that rounds to a whole number of seconds that
    is not negative, the text returned is made of two parts around one
    colon; the second part has two digits; read as numbers, the second is
    below 60 and sixty times the first plus the second is the rounded number
    of seconds.  So the text loses nothing, and the minutes are not cut at
    two digits. *)
Theorem elapsed_text_reads_back (seconds : value) (total : Z) :
  py_round seconds = Ok total → 0 <= total →
  ∃ minutes remaining,
    _format_elapsed_time seconds = Ok (minutes +:+ ":" +:+ remaining)
    ∧ str_split ":" (minutes +:+ ":" +:+ remaining) = [minutes; remaining]
    ∧ String.length remaining = 2%nat
    ∧ ∃ m r,
        py_int_digits 0 minutes = Ok m ∧ py_int_digits 0 remaining = Ok r
        ∧ 0 <= r < 60 ∧ 60 * m + r = total.
Proof.
  intros Hround Htotal.
  pose proof (Z.mod_pos_bound total 60 ltac:(lia)) as Hmod.
  pose proof (Z.div_pos total 60 Htotal ltac:(lia)) as Hdiv.
  pose proof (Z.div_mod total 60 ltac:(lia)) as Hsplit.
  destruct (fmt_02d_reads_back (total / 60) Hdiv) as [Hm Hmc].
  destruct (fmt_02d_reads_back (total mod 60) ltac:(lia)) as [Hr Hrc].
  exists (fmt_02d (total / 60)), (fmt_02d (total mod 60)).
  split; [|split; [|split]].
  - unfold _format_elapsed_time. rewrite Hround. by destruct seconds.
  - change (":" +:+ ?x) with (String ":" x).
    rewrite str_split_app by done. by rewrite str_split_absent.
  - apply fmt_02d_two_digits. lia.
  - exists (total / 60), (total mod 60). repeat split; try done; lia.
Qed.

Lemma elapsed_text_reads_back_witness :
  ∃ minutes remaining,
    _format_elapsed_time (VInt 6083) = Ok (minutes +:+ ":" +:+ remaining)
    ∧ str_split ":" (minutes +:+ ":" +:+ remaining) = [minutes; remaining].
Proof.
  destruct (elapsed_text_reads_back (VInt 6083) 6083 eq_refl ltac:(done))
    as (minutes & remaining & Htext & Hsplit & _).
  by exists minutes, remaining.
Defined.

(** ** Sheet metadata: the rows that are dropped *)

Lemma blank_row_cells (d : dict_row) (name : string) :
  existsb field_truthy (map snd d) = false → cell (as_row d) name = EmptyString.
Proof.
  unfold cell. induction d as [|[[k|] v] d IH]; simpl; [done| |].
  - intros [Hv Hd]%orb_false_iff. specialize (IH Hd).
    destruct v as [text| |cells].
    + apply nonempty_false in Hv as ->.
      destruct (decide (k = name)) as [->|Hne].
      * by rewrite lookup_insert_eq.
      * by rewrite lookup_insert_ne.
    + destruct (decide (k = name)) as [->|Hne].
      * by rewrite lookup_delete_eq.
      * by rewrite lookup_delete_ne.
    + destruct (decide (k = name)) as [->|Hne].
      * by rewrite lookup_delete_eq.
      * by rewrite lookup_delete_ne.
  - intros [_ Hd]%orb_false_iff. by apply IH.
Qed.

Lemma blank_row_no_segment (d : dict_row) :
  existsb field_truthy (map snd d) ≠ true → row_segment_id (as_row d) = EmptyString.
Proof.
  intros Hblank%not_true_is_false. unfold row_segment_id.
  by rewrite blank_row_cells.
Qed.

Lemma extract_from_kept (rows : list dict_row) : ∀ ids seen,
  extract_from ids seen
    (map as_row (filter (λ row, existsb field_truthy (map snd row) = true) rows))
  = extract_from ids seen (map as_row rows).
Proof.
  induction rows as [|d rows IH]; intros ids seen; [done|].
  destruct (decide (existsb field_truthy (map snd d) = true)) as [Hkeep|Hdrop].
  - rewrite filter_cons_True by done. simpl. by rewrite !IH.
  - rewrite filter_cons_False by done. simpl.
    by rewrite (blank_row_no_segment d Hdrop).
Qed.

Lemma build_segment_name_map_from_kept (rows : list dict_row) : ∀ mapping,
  build_segment_name_map_from mapping
    (map as_row (filter (λ row, existsb field_truthy (map snd row) = true) rows))
  = build_segment_name_map_from mapping (map as_row rows).
Proof.
  induction rows as [|d rows IH]; intros mapping; [done|].
  destruct (decide (existsb field_truthy (map snd d) = true)) as [Hkeep|Hdrop].
  - rewrite filter_cons_True by done. simpl. by rewrite !IH.
  - rewrite filter_cons_False by done. simpl.
    by rewrite (blank_row_no_segment d Hdrop).
Qed.

(** X21.  The rows that [fetch_segment_metadata] drops, those whose values
    are all empty or absent, hold no segment: the segment ids extracted and
    the name mapping built from the rows it returns are those of all the rows
    of the sheet. *)
Theorem dropped_rows_hold_no_segment (rows : list (list string)) :
  extract_segment_ids (map as_row (fetch_segment_metadata rows))
  = extract_segment_ids (map as_row (dict_rows rows))
  ∧ build_segment_name_map (map as_row (fetch_segment_metadata rows))
    = build_segment_name_map (map as_row (dict_rows rows)).
Proof.
  split.
  - apply extract_from_kept.
  - apply build_segment_name_map_from_kept.
Qed.
